(** * dateutil.parser.isoparser: a shallow embedding and its properties

    The development follows [src/dateutil/parser/isoparser.py].  Python
    strings are modelled as [string] (code points below 256), Python
    integers as [Z], exceptions as an error result.  The parts of Python's
    standard library the parser calls ([int], [datetime.date],
    [datetime.time], [datetime.datetime], [calendar.isleap]) are modelled
    after CPython 3 (the pure-Python [datetime] module). *)

From Stdlib Require Import ZArith List String Ascii Bool Lia.
Import ListNotations.

Local Open Scope string_scope.
Local Open Scope Z_scope.

(* ================================================================== *)
(** ** Python values, exceptions and strings                           *)
(* ================================================================== *)

Module Py.

(** The exceptions that the modelled code can raise. *)
Inductive exc : Type :=
| ValueError
| IndexError
| OverflowError
| TypeError.

Inductive result (A : Type) : Type :=
| Ok (a : A)
| Raise (e : exc).

Arguments Ok {A} a.
Arguments Raise {A} e.

Definition bind {A B : Type} (r : result A) (k : A -> result B) : result B :=
  match r with
  | Ok a => k a
  | Raise e => Raise e
  end.

(** [try: body except ValueError: handler] *)
Definition try_except_ValueError {A : Type} (body : result A)
           (handler : result A) : result A :=
  match body with
  | Raise ValueError => handler
  | r => r
  end.

(** [len(s)] *)
Definition len (s : string) : Z := Z.of_nat (String.length s).

Fixpoint drop (n : nat) (s : string) : string :=
  match n, s with
  | O, _ => s
  | S n', String _ s' => drop n' s'
  | S _, EmptyString => EmptyString
  end.

Fixpoint take (n : nat) (s : string) : string :=
  match n, s with
  | O, _ => EmptyString
  | S n', String c s' => String c (take n' s')
  | S _, EmptyString => EmptyString
  end.

(** Python's clamping of a slice bound: a negative bound counts from the
    end, and every bound is cut to [0, len]. *)
Definition clamp (i n : Z) : Z :=
  if i <? 0 then Z.max 0 (i + n) else Z.min i n.

(** [s[a:b]] *)
Definition slice (s : string) (a b : Z) : string :=
  let n := len s in
  let a' := clamp a n in
  let b' := clamp b n in
  take (Z.to_nat (b' - a')) (drop (Z.to_nat a') s).

(** [s[a:]] *)
Definition slice_from (s : string) (a : Z) : string :=
  drop (Z.to_nat (clamp a (len s))) s.

Fixpoint nth_char (n : nat) (s : string) : option ascii :=
  match s, n with
  | EmptyString, _ => None
  | String c _, O => Some c
  | String _ s', S n' => nth_char n' s'
  end.

(** [s[i]]: raises [IndexError] out of range. *)
Definition index (s : string) (i : Z) : result ascii :=
  let n := len s in
  let i' := if i <? 0 then i + n else i in
  if (i' <? 0) || (n <=? i') then Raise IndexError
  else match nth_char (Z.to_nat i') s with
       | Some c => Ok c
       | None => Raise IndexError
       end.

Definition ch_eqb (a b : ascii) : bool := Ascii.eqb a b.

(** Python's [bool] used as an [int]. *)
Definition int_of_bool (b : bool) : Z := if b then 1 else 0.

(** *** [int(s)] for a string, base 10

    As CPython 3.6 and later: white space is stripped at both ends, one
    sign is allowed, the digits may be grouped by single underscores, and
    at least one digit is required.  Anything else is a [ValueError]. *)

Definition code (c : ascii) : Z := Z.of_nat (nat_of_ascii c).

(** The white space of [int]: the ASCII characters of C's [isspace], and
    the white space among the code points 128 to 255 (NEL and the
    no-break space). *)
Definition is_space (c : ascii) : bool :=
  let n := code c in
  ((9 <=? n) && (n <=? 13)) || (n =? 32) || (n =? 133) || (n =? 160).

Definition digit_val (c : ascii) : option Z :=
  let n := code c in
  if (48 <=? n) && (n <=? 57) then Some (n - 48) else None.

Definition is_digit (c : ascii) : bool :=
  match digit_val c with Some _ => true | None => false end.

Fixpoint lstrip (s : string) : string :=
  match s with
  | String c s' => if is_space c then lstrip s' else s
  | EmptyString => EmptyString
  end.

Fixpoint all_space (s : string) : bool :=
  match s with
  | String c s' => is_space c && all_space s'
  | EmptyString => true
  end.

(** The digits of the literal, after its first digit: [prev_us] tells that
    the previous character was an underscore.  The scan stops at the first
    character that is neither a digit nor an underscore and returns the
    rest. *)
Fixpoint int_digits (s : string) (prev_us : bool) (acc : Z)
  : result (Z * string) :=
  match s with
  | String c s' =>
      match digit_val c with
      | Some d => int_digits s' false (10 * acc + d)
      | None =>
          if ch_eqb c "_" then
            if prev_us then Raise ValueError else int_digits s' true acc
          else if prev_us then Raise ValueError else Ok (acc, s)
      end
  | EmptyString => if prev_us then Raise ValueError else Ok (acc, EmptyString)
  end.

Definition int_unsigned (s : string) : result Z :=
  match s with
  | String c s' =>
      match digit_val c with
      | Some d =>
          bind (int_digits s' false d) (fun '(v, rest) =>
          if all_space rest then Ok v else Raise ValueError)
      | None => Raise ValueError
      end
  | EmptyString => Raise ValueError
  end.

Definition int (s : string) : result Z :=
  match lstrip s with
  | String c s' =>
      if ch_eqb c "+" then int_unsigned s'
      else if ch_eqb c "-" then bind (int_unsigned s') (fun v => Ok (- v))
      else int_unsigned (String c s')
  | EmptyString => Raise ValueError
  end.

(** [int(c)] for a single character [c = s[i]]. *)
Definition int_of_char (c : ascii) : result Z := int (String c EmptyString).

(** [str.format] of a non-negative integer with [{:02d}] and [{:04d}],
    for values that fit the width. *)
Definition digit_char (d : Z) : ascii :=
  ascii_of_nat (Z.to_nat (48 + d mod 10)).

Definition fmt02 (n : Z) : string :=
  String (digit_char (n / 10)) (String (digit_char n) EmptyString).

Definition fmt04 (n : Z) : string :=
  String (digit_char (n / 1000)) (String (digit_char (n / 100))
    (String (digit_char (n / 10)) (String (digit_char n) EmptyString))).

Definition fmt01 (n : Z) : string := String (digit_char n) EmptyString.

End Py.

Export Py.

Notation "x <- c1 ;; c2" := (Py.bind c1 (fun x => c2))
  (at level 61, c1 at next level, right associativity).
Notation "' pat <- c1 ;; c2" :=
  (Py.bind c1 (fun x => match x with pat => c2 end))
  (at level 61, pat pattern, c1 at next level, right associativity).

(* ================================================================== *)
(** ** Time zone values                                                 *)
(* ================================================================== *)

Module Tz.

(** Modelled from the spec: the time zone representation ([dateutil.tz])
    is not among the sources; the spec gives it two constructors, the UTC
    marker and a fixed offset of a signed number of minutes.
    [tzoffset(None, mult * timedelta(hours=h, minutes=m))] is the fixed
    offset of [mult * (h * 60 + m)] minutes. *)
Inductive tzinfo : Type :=
| tzutc
| tzoffset (minutes : Z).

End Tz.

Export Tz.

(* ================================================================== *)
(** ** The standard library's calendar: [datetime] and [calendar]      *)
(* ================================================================== *)

(** The functions follow CPython's pure-Python [datetime] module name by
    name.  Its [assert] statements (on arguments that the callers keep in
    range) are left out: they hold wherever the parser calls. *)
Module Datetime.

Definition MINYEAR : Z := 1.
Definition MAXYEAR : Z := 9999.
Definition _MAXORDINAL : Z := 3652059.

(** [calendar.isleap] and [datetime._is_leap] *)
Definition isleap (year : Z) : bool :=
  (year mod 4 =? 0) && (negb (year mod 100 =? 0) || (year mod 400 =? 0)).

Definition _DAYS_IN_MONTH : list Z :=
  [-1; 31; 28; 31; 30; 31; 30; 31; 31; 30; 31; 30; 31].

Definition _DAYS_BEFORE_MONTH : list Z :=
  [-1; 0; 31; 59; 90; 120; 151; 181; 212; 243; 273; 304; 334].

(** A table lookup at an index that the callers keep within the table. *)
Definition tbl (t : list Z) (i : Z) : Z := nth (Z.to_nat i) t 0.

Definition _days_before_year (year : Z) : Z :=
  let y := year - 1 in
  y * 365 + y / 4 - y / 100 + y / 400.

Definition _days_in_month (year month : Z) : Z :=
  if (month =? 2) && isleap year then 29 else tbl _DAYS_IN_MONTH month.

Definition _days_before_month (year month : Z) : Z :=
  tbl _DAYS_BEFORE_MONTH month
  + int_of_bool ((2 <? month) && isleap year).

Definition _ymd2ord (year month day : Z) : Z :=
  _days_before_year year + _days_before_month year month + day.

Definition _DI400Y : Z := 146097.
Definition _DI100Y : Z := 36524.
Definition _DI4Y : Z := 1461.

Record date : Type := mkdate { year : Z; month : Z; day : Z }.

(** The month and day of the [n]-th day (from 0) of a year, as the tail of
    [_ord2ymd] finds them. *)
Definition _month_day (leapyear : bool) (n : Z) : Z * Z :=
  let month := Z.shiftr (n + 50) 5 in
  let preceding :=
    tbl _DAYS_BEFORE_MONTH month + int_of_bool ((2 <? month) && leapyear) in
  if n <? preceding then
    let month := month - 1 in
    let preceding :=
      preceding
      - (tbl _DAYS_IN_MONTH month + int_of_bool ((month =? 2) && leapyear)) in
    (month, n - preceding + 1)
  else (month, n - preceding + 1).

Definition _ord2ymd (n : Z) : date :=
  let n := n - 1 in
  let n400 := n / _DI400Y in
  let n := n mod _DI400Y in
  let year := n400 * 400 + 1 in
  let n100 := n / _DI100Y in
  let n := n mod _DI100Y in
  let n4 := n / _DI4Y in
  let n := n mod _DI4Y in
  let n1 := n / 365 in
  let n := n mod 365 in
  let year := year + (n100 * 100 + n4 * 4 + n1) in
  if (n1 =? 4) || (n100 =? 4) then mkdate (year - 1) 12 31
  else
    let leapyear := (n1 =? 3) && (negb (n4 =? 24) || (n100 =? 3)) in
    let '(month, day) := _month_day leapyear n in
    mkdate year month day.

(** [date(year, month, day)]: the constructor checks the fields. *)
Definition date_new (y m d : Z) : result date :=
  if negb ((MINYEAR <=? y) && (y <=? MAXYEAR)) then Raise ValueError
  else if negb ((1 <=? m) && (m <=? 12)) then Raise ValueError
  else if negb ((1 <=? d) && (d <=? _days_in_month y m)) then Raise ValueError
  else Ok (mkdate y m d).

Definition toordinal (d : date) : Z := _ymd2ord (year d) (month d) (day d).

Definition fromordinal (n : Z) : date := _ord2ymd n.

(** [d + timedelta(days=k)]; [d - timedelta(days=k)] is
    [date_add_days d (- k)].  A result outside the dates of years 1 to
    9999 is an [OverflowError]. *)
Definition date_add_days (d : date) (k : Z) : result date :=
  let o := toordinal d + k in
  if (0 <? o) && (o <=? _MAXORDINAL) then Ok (fromordinal o)
  else Raise OverflowError.

Definition _isoweek1monday (year : Z) : Z :=
  let THURSDAY := 3 in
  let firstday := _ymd2ord year 1 1 in
  let firstweekday := (firstday + 6) mod 7 in
  let week1monday := firstday - firstweekday in
  if THURSDAY <? firstweekday then week1monday + 7 else week1monday.

(** [d.isocalendar()]: the ISO year, week and weekday. *)
Definition isocalendar (d : date) : Z * Z * Z :=
  let year0 := year d in
  let week1monday := _isoweek1monday year0 in
  let today := _ymd2ord (year d) (month d) (day d) in
  let week := (today - week1monday) / 7 in
  let wday := (today - week1monday) mod 7 in
  if week <? 0 then
    let year1 := year0 - 1 in
    let week1monday := _isoweek1monday year1 in
    let week := (today - week1monday) / 7 in
    let wday := (today - week1monday) mod 7 in
    (year1, week + 1, wday + 1)
  else if (52 <=? week) && (_isoweek1monday (year0 + 1) <=? today) then
    (year0 + 1, 0 + 1, wday + 1)
  else (year0, week + 1, wday + 1).

Record time : Type := mktime {
  hour : Z; minute : Z; second : Z; microsecond : Z; tz : option tzinfo }.

Definition _check_time_fields (h mi s us : Z) : bool :=
  (0 <=? h) && (h <=? 23) && (0 <=? mi) && (mi <=? 59)
  && (0 <=? s) && (s <=? 59) && (0 <=? us) && (us <=? 999999).

(** [time(hour, minute, second, microsecond, tzinfo)] *)
Definition time_new (h mi s us : Z) (z : option tzinfo) : result time :=
  if _check_time_fields h mi s us then Ok (mktime h mi s us z)
  else Raise ValueError.

Record datetime : Type := mkdatetime { dt_date : date; dt_time : time }.

(** [datetime(year, month, day, hour, minute, second, microsecond, tzinfo)] *)
Definition datetime_new (y m d h mi s us : Z) (z : option tzinfo)
  : result datetime :=
  dd <- date_new y m d ;;
  tt <- time_new h mi s us z ;;
  Ok (mkdatetime dd tt).

End Datetime.

Export Datetime.

(* ================================================================== *)
(** ** The parser: [class Isoparser]                                   *)
(* ================================================================== *)

Module Isoparser.

(** The entries of the component lists: integers, [None] and time zone
    objects. *)
Inductive pyval : Type :=
| VInt (z : Z)
| VNone
| VTz (t : tzinfo).

Definition pyval_eqb_int (v : pyval) (z : Z) : bool :=
  match v with
  | VInt x => x =? z
  | _ => false
  end.

Fixpoint set_nth (l : list pyval) (n : nat) (v : pyval) : list pyval :=
  match l, n with
  | [], _ => []
  | _ :: l', O => v :: l'
  | x :: l', S n' => x :: set_nth l' n' v
  end.

(** [l[i] = v]: a negative index counts from the end; out of range the
    assignment raises [IndexError]. *)
Definition set_item (l : list pyval) (i : Z) (v : pyval)
  : result (list pyval) :=
  let n := Z.of_nat (List.length l) in
  let i' := if i <? 0 then i + n else i in
  if (i' <? 0) || (n <=? i') then Raise IndexError
  else Ok (set_nth l (Z.to_nat i') v).

(** [l[a:b]] for the bounds [0 <= a <= b] that the parser uses. *)
Definition list_slice (l : list pyval) (a b : Z) : list pyval :=
  firstn (Z.to_nat (b - a)) (skipn (Z.to_nat a) l).

(** The instance: its separator and default year. *)
Record t : Type := mk { _sep : string; _default_year : Z }.

(** [Isoparser(sep, default_year)]; [now_year] stands for
    [datetime.now().year] at the time of the call. *)
Definition __init__ (sep : string) (default_year : option Z) (now_year : Z)
  : result t :=
  if negb (len sep =? 1) then Raise ValueError
  else match default_year with
       | Some y =>
           if negb ((1 <=? y) && (y <=? 9999)) then Raise ValueError
           else Ok (mk sep y)
       | None => Ok (mk sep now_year)
       end.

(** [date] applied to the unpacked component list *)
Definition date_of (components : list pyval) : result date :=
  match components with
  | [VInt y; VInt m; VInt d] => date_new y m d
  | _ => Raise TypeError
  end.

Definition tz_of (v : pyval) : result (option tzinfo) :=
  match v with
  | VNone => Ok None
  | VTz z => Ok (Some z)
  | VInt _ => Raise TypeError
  end.

(** [time] applied to the unpacked component list *)
Definition time_of (components : list pyval) : result time :=
  match components with
  | [VInt h; VInt mi; VInt s; VInt us; z] =>
      z <- tz_of z ;; time_new h mi s us z
  | _ => Raise TypeError
  end.

(** [datetime] applied to the unpacked component list: three entries
    give a date at midnight, eight a full date and time. *)
Definition datetime_of (components : list pyval) : result datetime :=
  match components with
  | [VInt y; VInt m; VInt d] => datetime_new y m d 0 0 0 0 None
  | [VInt y; VInt m; VInt d; VInt h; VInt mi; VInt s; VInt us; z] =>
      z <- tz_of z ;; datetime_new y m d h mi s us z
  | _ => Raise TypeError
  end.

Definition _parse_isodate_common (dt_str : string)
  : result (list pyval * Z) :=
  let len_str := len dt_str in
  let components := [VInt 1; VInt 1; VInt 1] in
  if len_str <? 4 then Raise ValueError else
  (* Year *)
  v <- int (slice dt_str 0 4) ;;
  components <- set_item components 0 (VInt v) ;;
  let pos := 4 in
  if len_str <=? pos then Ok (components, pos) else
  c <- index dt_str pos ;;
  let has_sep := ch_eqb c "-" in
  let pos := if has_sep then pos + 1 else pos in
  (* Month *)
  if len_str - pos <? 2 then Raise ValueError else
  v <- int (slice dt_str pos (pos + 2)) ;;
  components <- set_item components 1 (VInt v) ;;
  let pos := pos + 2 in
  if len_str <=? pos then Ok (components, pos) else
  pos <- (if has_sep then
            c <- index dt_str pos ;;
            if negb (ch_eqb c "-") then Raise ValueError else Ok (pos + 1)
          else Ok pos) ;;
  (* Day *)
  if len_str - pos <? 2 then Raise ValueError else
  v <- int (slice dt_str pos (pos + 2)) ;;
  components <- set_item components 2 (VInt v) ;;
  Ok (components, pos + 2).

Definition _calculate_weekdate (year week day : Z) : result date :=
  if negb ((0 <? week) && (week <? 54)) then Raise ValueError else
  if negb ((0 <? day) && (day <? 8)) then Raise ValueError else
  (* Get week 1 for the specific year *)
  jan_4 <- date_new year 1 4 ;;
  let '(_, _, wd) := isocalendar jan_4 in
  week_1 <- date_add_days jan_4 (- (wd - 1)) ;;
  (* Now add the specific number of weeks and days *)
  let week_offset := (week - 1) * 7 + (day - 1) in
  date_add_days week_1 week_offset.

(** The year of a year-less date: the default year, moved back to a leap
    year for February 29. *)
Definition _default_year_for (year month day : Z) : Z :=
  if (month =? 2) && (day =? 29) then
    let year := year - year mod 4 in
    if negb (year mod 400 =? 0) && (year mod 100 =? 0) then year - 4
    else year
  else year.

Definition _parse_isodate_uncommon (self : t) (dt_str : string)
  : result (list pyval * Z) :=
  if String.eqb (slice dt_str 0 2) "--" then
    (* --MM-DD or --MMDD *)
    month <- int (slice dt_str 2 4) ;;
    c4 <- index dt_str 4 ;;
    let pos := 4 + int_of_bool (ch_eqb c4 "-") in
    day <- int (slice dt_str pos (pos + 2)) ;;
    let year := _default_year_for (_default_year self) month day in
    Ok ([VInt year; VInt month; VInt day], pos + 2)
  else
    (* All other uncommon ISO formats start with the year *)
    year <- int (slice dt_str 0 4) ;;
    c4 <- index dt_str 4 ;;
    let pos := 4 + int_of_bool (ch_eqb c4 "-") in
    c <- index dt_str pos ;;
    '(base_date, pos) <-
      (if ch_eqb c "W" then
         (* YYYY-?Www-?D? *)
         let pos := pos + 1 in
         weekno <- int (slice dt_str pos (pos + 2)) ;;
         let pos := pos + 2 in
         let dayno := 1 in
         '(dayno, pos) <-
           (if pos <? len dt_str then
              c <- index dt_str pos ;;
              pos <- (if ch_eqb c "-" then
                        c4 <- index dt_str 4 ;;
                        if negb (ch_eqb c4 "-") then Raise ValueError
                        else Ok (pos + 1)
                      else Ok pos) ;;
              c <- index dt_str pos ;;
              dayno <- int_of_char c ;;
              Ok (dayno, pos + 1)
            else Ok (dayno, pos)) ;;
         base_date <- _calculate_weekdate year weekno dayno ;;
         Ok (base_date, pos)
       else
         (* YYYYDDD or YYYY-DDD *)
         ordinal_day <- int (slice dt_str pos (pos + 3)) ;;
         let pos := pos + 3 in
         if (ordinal_day <? 1)
            || (365 + int_of_bool (isleap year) <? ordinal_day)
         then Raise ValueError else
         jan_1 <- date_new year 1 1 ;;
         base_date <- date_add_days jan_1 (ordinal_day - 1) ;;
         Ok (base_date, pos)) ;;
    let components :=
      [VInt (Datetime.year base_date); VInt (Datetime.month base_date);
       VInt (Datetime.day base_date)] in
    Ok (components, pos).

Definition _parse_isodate (self : t) (dt_str : string)
  : result (list pyval * Z) :=
  try_except_ValueError
    (_parse_isodate_common dt_str)
    (_parse_isodate_uncommon self dt_str).

(** [parse_isodate]: the position that [_parse_isodate] returns is not
    used. *)
Definition parse_isodate (self : t) (datestr : string) : result date :=
  '(components, pos) <- _parse_isodate self datestr ;;
  date_of components.

Definition parse_tzstr (tzstr : string) (zero_as_utc : bool)
  : result tzinfo :=
  if String.eqb tzstr "Z" then Ok tzutc else
  if negb (existsb (Z.eqb (len tzstr)) [3; 5; 6]) then Raise ValueError else
  c0 <- index tzstr 0 ;;
  mult <- (if ch_eqb c0 "-" then Ok (-1)
           else if ch_eqb c0 "+" then Ok 1
           else Raise ValueError) ;;
  hours <- int (slice tzstr 1 3) ;;
  minutes <- (if len tzstr =? 3 then Ok 0
              else
                c3 <- index tzstr 3 ;;
                int (slice_from tzstr (if ch_eqb c3 ":" then 4 else 3))) ;;
  if zero_as_utc && (hours =? 0) && (minutes =? 0) then Ok tzutc
  else
    if 59 <? minutes then Raise ValueError else
    if 23 <? hours then Raise ValueError else
    Ok (tzoffset (mult * (hours * 60 + minutes))).

(** [c in '-+Z'] for a one-character string [c] *)
Definition in_tz_chars (c : ascii) : bool :=
  ch_eqb c "-" || ch_eqb c "+" || ch_eqb c "Z".

(** [_MICROSECOND_END_REGEX.split(s, 1)[0]] with the pattern [[-+Z]+]: the
    part of [s] before its first [-], [+] or [Z]. *)
Fixpoint _MICROSECOND_END_REGEX_split_0 (s : string) : string :=
  match s with
  | String c s' =>
      if in_tz_chars c then EmptyString
      else String c (_MICROSECOND_END_REGEX_split_0 s')
  | EmptyString => EmptyString
  end.

(** The [while] loop of [_parse_isotime].  [comp] grows by one in every
    round and the loop stops at [comp = 5], so that six rounds are enough;
    [fuel] bounds the number of rounds (see [_parse_isotime_loop_fuel]). *)
Fixpoint _parse_isotime_loop (fuel : nat) (timestr : string) (has_sep : bool)
         (components : list pyval) (pos comp : Z)
  : result (list pyval * Z) :=
  let len_str := len timestr in
  match fuel with
  | O => Ok (components, pos)
  | S fuel' =>
      if negb ((pos <? len_str) && (comp <? 5)) then Ok (components, pos)
      else
        let comp := comp + 1 in
        c <- index timestr pos ;;
        if in_tz_chars c then
          (* Detect time zone boundary *)
          z <- parse_tzstr (slice_from timestr pos) true ;;
          components <- set_item components (-1) (VTz z) ;;
          Ok (components, len_str)
        else
          '(components, pos) <-
            (if comp <? 3 then
               (* Hour, minute, second *)
               v <- int (slice timestr pos (pos + 2)) ;;
               components <- set_item components comp (VInt v) ;;
               let pos := pos + 2 in
               if has_sep && (pos <? len_str) then
                 c <- index timestr pos ;;
                 Ok (components, if ch_eqb c ":" then pos + 1 else pos)
               else Ok (components, pos)
             else Ok (components, pos)) ;;
          if comp =? 3 then
            (* Microsecond *)
            c <- index timestr pos ;;
            if negb (ch_eqb c ".") then
              _parse_isotime_loop fuel' timestr has_sep components pos comp
            else
              let pos := pos + 1 in
              let us_str :=
                _MICROSECOND_END_REGEX_split_0 (slice timestr pos (pos + 6)) in
              v <- int us_str ;;
              components <-
                set_item components comp (VInt (v * 10 ^ (6 - len us_str))) ;;
              let pos := pos + len us_str in
              _parse_isotime_loop fuel' timestr has_sep components pos comp
          else _parse_isotime_loop fuel' timestr has_sep components pos comp
  end.

(** [has_sep = len_str >= 3 and timestr[2] == ':'] *)
Definition _time_has_sep (timestr : string) : result bool :=
  if 3 <=? len timestr then
    c <- index timestr 2 ;; Ok (ch_eqb c ":")
  else Ok false.

(** The scan of [_parse_isotime]: everything up to and including the check
    for unused characters. *)
Definition _parse_isotime_scan (timestr : string) : result (list pyval) :=
  let len_str := len timestr in
  let components := [VInt 0; VInt 0; VInt 0; VInt 0; VNone] in
  let pos := 0 in
  let comp := -1 in
  has_sep <- _time_has_sep timestr ;;
  '(components, pos) <-
    _parse_isotime_loop 6 timestr has_sep components pos comp ;;
  if pos <? len_str then Raise ValueError else Ok components.

(** The midnight rule at the end of [_parse_isotime]. *)
Definition _midnight (components : list pyval) : result (list pyval) :=
  match components with
  | c0 :: _ =>
      if pyval_eqb_int c0 24 then
        (* Standard supports 00:00 and 24:00 as representations of midnight *)
        if existsb (fun component => negb (pyval_eqb_int component 0))
                   (list_slice components 1 4)
        then Raise ValueError
        else set_item components 0 (VInt 0)
      else Ok components
  | [] => Raise IndexError
  end.

Definition _parse_isotime (timestr : string) : result (list pyval) :=
  components <- _parse_isotime_scan timestr ;;
  _midnight components.

Definition parse_isotime (timestr : string) : result time :=
  components <- _parse_isotime timestr ;;
  time_of components.

(** [isoparse], on a text that is a string (a stream is read into a
    string before anything else). *)
Definition isoparse (self : t) (dt_str : string) (common_only : bool)
  : result datetime :=
  '(components, pos) <-
    (if common_only then _parse_isodate_common dt_str
     else _parse_isodate self dt_str) ;;
  components <-
    (if pos <? len dt_str then
       c <- index dt_str pos ;;
       if String.eqb (String c EmptyString) (_sep self) then
         tcomponents <- _parse_isotime (slice_from dt_str (pos + 1)) ;;
         Ok (List.app components tcomponents)
       else Raise ValueError
     else Ok components) ;;
  datetime_of components.

End Isoparser.

Import Isoparser.

(* ================================================================== *)
(** ** Vocabulary of the statements                                    *)
(* ================================================================== *)

(** Two parser instances with the standard separator. *)
Definition P2003 : Isoparser.t := Isoparser.mk "T" 2003.
Definition P2004 : Isoparser.t := Isoparser.mk "T" 2004.

(** A bounded universal quantifier that computes: [P] holds of
    [0, ..., n - 1]. *)
Fixpoint forall_below (n : nat) (P : Z -> bool) : bool :=
  match n with
  | O => true
  | S n' => P (Z.of_nat n') && forall_below n' P
  end.

(** [_days_in_month] and [_days_before_month] as functions of the leap
    flag of the year. *)
Definition dim_l (leap : bool) (m : Z) : Z :=
  if (m =? 2) && leap then 29 else tbl _DAYS_IN_MONTH m.

Definition dbm_l (leap : bool) (m : Z) : Z :=
  tbl _DAYS_BEFORE_MONTH m + int_of_bool ((2 <? m) && leap).

(** [_month_day] returns a month and a day of that month, [r] days after
    the first of January. *)
Definition month_day_ok (leap : bool) (r : Z) : bool :=
  let '(m, d) := _month_day leap r in
  (1 <=? m) && (m <=? 12) && (1 <=? d) && (d <=? dim_l leap m)
  && (dbm_l leap m + d =? r + 1).

(** [_month_day] finds the month [k / 32] and the day [k mod 32] again,
    when they are a month and a day of it. *)
Definition month_day_inv_ok (leap : bool) (k : Z) : bool :=
  let m := k / 32 in
  let d := k mod 32 in
  negb ((1 <=? m) && (m <=? 12) && (1 <=? d) && (d <=? dim_l leap m))
  || (let '(m', d') := _month_day leap (dbm_l leap m + d - 1) in
      (m' =? m) && (d' =? d)).

(** A month and a day of that month, in year [y]. *)
Definition valid_ymd (y m d : Z) : Prop :=
  1 <= m <= 12 /\ 1 <= d <= _days_in_month y m.

(** The values of the [date] type: the records that the constructor
    builds. *)
Definition valid_date (d : date) : Prop :=
  date_new (year d) (month d) (day d) = Ok d.

(** The number of ISO weeks of a year: the week of December 28th, which
    always lies in the last week of its ISO year. *)
Definition iso_weeks_in_year (y : Z) : Z :=
  let '(_, w, _) := isocalendar (mkdate y 12 28) in w.

(** The text [YYYY-Www-D] of an ISO triple. *)
Definition iso_week_string (iy iw id : Z) : string :=
  fmt04 iy ++ "-W" ++ fmt02 iw ++ "-" ++ fmt01 id.

(** Strings of decimal digits and their value. *)
Fixpoint all_digits (s : string) : bool :=
  match s with
  | String c s' => is_digit c && all_digits s'
  | EmptyString => true
  end.

Fixpoint decimal_from (s : string) (acc : Z) : Z :=
  match s with
  | String c s' =>
      match digit_val c with
      | Some d => decimal_from s' (10 * acc + d)
      | None => acc
      end
  | EmptyString => acc
  end.

Definition decimal_value (s : string) : Z := decimal_from s 0.

(** The leap-year rule for year-less dates as the specification words it:
    subtract [default_year mod 4]; if that candidate is divisible by 100
    but not by 400, subtract 4 more.  ([_default_year_for] is the code.) *)
Definition leap_year_back (default_year : Z) : Z :=
  let candidate := default_year - default_year mod 4 in
  if (candidate mod 100 =? 0) && negb (candidate mod 400 =? 0)
  then candidate - 4 else candidate.

Definition yearless_year (default_year m d : Z) : Z :=
  if (m =? 2) && (d =? 29) then leap_year_back default_year
  else default_year.

(** Signed offset tokens: [+HH:MM], [+HHMM] and, without minutes, [+HH]. *)
Definition sign_char (neg : bool) : string := if neg then "-" else "+".

Definition sign_mult (neg : bool) : Z := if neg then -1 else 1.

Definition tz_tokens (neg : bool) (h m : Z) : list string :=
  [sign_char neg ++ fmt02 h ++ ":" ++ fmt02 m;
   sign_char neg ++ fmt02 h ++ fmt02 m]
  ++ (if m =? 0 then [sign_char neg ++ fmt02 h] else []).

(** The last lines of [parse_tzstr], from the parsed sign, hours and
    minutes on. *)
Definition tz_result (zu : bool) (mult hours minutes : Z) : result tzinfo :=
  if zu && (hours =? 0) && (minutes =? 0) then Ok tzutc
  else if 59 <? minutes then Raise ValueError
  else if 23 <? hours then Raise ValueError
  else Ok (tzoffset (mult * (hours * 60 + minutes))).

(** The component list of the time parser: four integers and the zone. *)
Definition time_shape (components : list pyval) : Prop :=
  exists h mi s us z,
    components = [VInt h; VInt mi; VInt s; VInt us; z] /\
    (z = VNone \/ exists t, z = VTz t).

Definition time_init : list pyval := [VInt 0; VInt 0; VInt 0; VInt 0; VNone].

(** The position after a two-digit field: the [:] that follows it is
    consumed when the string uses [:] separators. *)
Definition next_pos (timestr : string) (has_sep : bool) (pos : Z) : Z :=
  if has_sep && (pos <? len timestr) then
    match index timestr pos with
    | Ok c => if ch_eqb c ":" then pos + 1 else pos
    | Raise _ => pos
    end
  else pos.

Definition starts_with_tz (s : string) : bool :=
  match s with
  | String c _ => in_tz_chars c
  | EmptyString => false
  end.

Definition starts_with_char (s : string) (c : ascii) : bool :=
  match s with
  | String c' _ => ch_eqb c' c
  | EmptyString => false
  end.

(** The three texts that bring the time parser to component 3: [hh:mm:ss],
    [hh:mm:ss:] (the loop consumes a [:] after the seconds as after the
    hours and minutes) and [hhmmss]. *)
Inductive hms_form : Type := Colons | ColonsTrailing | Compact.

Definition hms_string (f : hms_form) (hh mm ss : string) : string :=
  match f with
  | Colons => hh ++ ":" ++ mm ++ ":" ++ ss
  | ColonsTrailing => hh ++ ":" ++ mm ++ ":" ++ ss ++ ":"
  | Compact => hh ++ mm ++ ss
  end.

Definition hms_text (f : hms_form) (h mi s : Z) : string :=
  hms_string f (fmt02 h) (fmt02 mi) (fmt02 s).

Definition hms_has_sep (f : hms_form) : bool :=
  match f with Compact => false | _ => true end.

(** [rest] starts where the cursor is when component 3 is reached: after
    [hh:mm:ss] it must not start with the [:] that the loop would
    consume. *)
Definition at_cursor (f : hms_form) (rest : string) : bool :=
  match f with
  | Colons => negb (starts_with_char rest ":")
  | _ => true
  end.

(** What may follow the time: nothing, or a zone token that [parse_tzstr]
    accepts. *)
Definition zone_tail (ztail : string) (zcomp : pyval) : Prop :=
  (ztail = "" /\ zcomp = VNone) \/
  (exists z, starts_with_tz ztail = true /\
             parse_tzstr ztail true = Ok z /\ zcomp = VTz z).

(** Where the loop of [_parse_isotime] stands after its first three
    rounds, those of the hour, the minute and the second: the components
    and the cursor at which component 3 is reached. *)
Definition component3_cursor (timestr : string) : result (list pyval * Z) :=
  has_sep <- _time_has_sep timestr ;;
  _parse_isotime_loop 3 timestr has_sep time_init 0 (-1).

(** [us_str] of the source for the cursor [p] on a [.]: the six characters
    after it, cut at the first [-], [+] or [Z]. *)
Definition fraction_window (timestr : string) (p : Z) : string :=
  _MICROSECOND_END_REGEX_split_0 (slice timestr (p + 1) (p + 1 + 6)).

(** The maximal run of digits at the start of a text. *)
Fixpoint leading_digits (s : string) : string :=
  match s with
  | String c s' => if is_digit c then String c (leading_digits s') else ""
  | EmptyString => ""
  end.

(** A [:], or nothing. *)
Definition colon_text (b : bool) : string := if b then ":" else "".

(** The layouts of three two-digit fields that the loop reads: without
    any [:] ([sep = false]), or with a [:] after the hour and, each
    optional, a [:] after the minute ([c2]) and after the second ([c3]). *)
Definition fields_text (sep c2 c3 : bool) (h mi s : Z) : string :=
  fmt02 h ++ colon_text sep ++ fmt02 mi ++ colon_text (sep && c2)
  ++ fmt02 s ++ colon_text (sep && c3).

(** *** Vocabulary of the further properties *)

(** A computation that raises nothing but [ValueError]. *)
Definition only_ValueError {A : Type} (r : result A) : Prop :=
  forall e, r = Raise e -> e = ValueError.

(** A computation whose exceptions all satisfy [P]. *)
Definition raises_only {A : Type} (P : exc -> Prop) (r : result A) : Prop :=
  forall e, r = Raise e -> P e.

(** The exceptions of the date parser: [ValueError]; [IndexError], on
    texts of fewer than 10 characters only; [OverflowError]. *)
Definition date_error (dt_str : string) (e : exc) : Prop :=
  e = ValueError \/ (e = IndexError /\ len dt_str < 10) \/ e = OverflowError.

(** [{:03d}] *)
Definition fmt03 (n : Z) : string :=
  String (digit_char (n / 100)) (String (digit_char (n / 10))
    (String (digit_char n) EmptyString)).

(** The day of the year of a date, from 1 on. *)
Definition day_of_year (d : date) : Z :=
  toordinal d - _days_before_year (year d).

(** The ordinal branch of [_parse_isodate_uncommon], from the parsed year
    and day of the year on. *)
Definition ordinal_result (y n pos : Z) : result (list pyval * Z) :=
  if (n <? 1) || (365 + int_of_bool (isleap y) <? n) then Raise ValueError
  else
    jan_1 <- date_new y 1 1 ;;
    base_date <- date_add_days jan_1 (n - 1) ;;
    Ok ([VInt (year base_date); VInt (month base_date); VInt (day base_date)],
        pos).

(** The week branch of [_parse_isodate_uncommon], from the parsed year,
    week and weekday on. *)
Definition week_result (y w d pos : Z) : result (list pyval * Z) :=
  base_date <- _calculate_weekdate y w d ;;
  Ok ([VInt (year base_date); VInt (month base_date); VInt (day base_date)],
      pos).

(** The calendar date in the extended format [YYYY-MM-DD] or in the basic
    format [YYYYMMDD]. *)
Definition date_text (dashed : bool) (y m d : Z) : string :=
  if dashed then fmt04 y ++ "-" ++ fmt02 m ++ "-" ++ fmt02 d
  else fmt04 y ++ fmt02 m ++ fmt02 d.

(** [{:06d}] *)
Definition fmt06 (n : Z) : string :=
  String (digit_char (n / 100000)) (String (digit_char (n / 10000))
    (String (digit_char (n / 1000)) (String (digit_char (n / 100))
      (String (digit_char (n / 10)) (String (digit_char n) EmptyString))))).

(** The zone that [parse_tzstr] returns, with [zero_as_utc], for the
    offset of [oh] hours and [om] minutes east ([neg = false]) or west of
    UTC. *)
Definition offset_zone (neg : bool) (oh om : Z) : tzinfo :=
  if (oh =? 0) && (om =? 0) then tzutc
  else tzoffset (sign_mult neg * (oh * 60 + om)).

(** The text that [datetime.isoformat(sep)] prints for an aware value with
    microseconds: [YYYY-MM-DD], [sep], [HH:MM:SS.ffffff], [+HH:MM]. *)
Definition isoformat (sep : string) (y m d h mi s us : Z)
           (neg : bool) (oh om : Z) : string :=
  date_text true y m d ++ sep ++ hms_text Colons h mi s ++ "." ++ fmt06 us
  ++ sign_char neg ++ fmt02 oh ++ ":" ++ fmt02 om.

(** The week date in the extended format [YYYY-Www-D] or in the basic
    format [YYYYWwwD]. *)
Definition week_text (dashed : bool) (y w d : Z) : string :=
  if dashed then fmt04 y ++ "-W" ++ fmt02 w ++ "-" ++ fmt01 d
  else fmt04 y ++ "W" ++ fmt02 w ++ fmt01 d.

(** The week date without a weekday, [YYYY-Www] or [YYYYWww]. *)
Definition short_week_text (dashed : bool) (y w : Z) : string :=
  if dashed then fmt04 y ++ "-W" ++ fmt02 w else fmt04 y ++ "W" ++ fmt02 w.

(* ================================================================== *)
(** ** The embedding at concrete inputs                                *)
(* ================================================================== *)

Example int_examples :
  int "2014" = Ok 2014 /\ int " 12 " = Ok 12 /\ int "+5" = Ok 5 /\
  int "-07" = Ok (-7) /\ int "1_0" = Ok 10 /\ int "_1" = Raise ValueError /\
  int "1_" = Raise ValueError /\ int "1__0" = Raise ValueError /\
  int "" = Raise ValueError /\ int "--02" = Raise ValueError /\
  int "W0" = Raise ValueError /\ int "+ 5" = Raise ValueError /\
  int "1x" = Raise ValueError.
Proof. repeat split; reflexivity. Qed.

Example slice_examples :
  slice "2014-04-11" 0 4 = "2014" /\ slice "12" 0 4 = "12" /\
  slice "2014" 5 7 = "" /\ index "12" 4 = Raise IndexError /\
  index "2014-" 4 = Ok "-"%char /\ slice_from "+01:30" 4 = "30" /\
  fmt04 7 = "0007" /\ fmt02 53 = "53".
Proof. repeat split; reflexivity. Qed.

Example calendar_examples :
  toordinal (mkdate 1 1 1) = 1 /\
  toordinal (mkdate 9999 12 31) = _MAXORDINAL /\
  fromordinal 730120 = mkdate 2000 1 1 /\
  fromordinal 1 = mkdate 1 1 1 /\
  fromordinal _MAXORDINAL = mkdate 9999 12 31 /\
  fromordinal 146097 = mkdate 400 12 31 /\
  fromordinal 1461 = mkdate 4 12 31 /\
  fromordinal 731581 = mkdate 2004 1 1 /\
  isocalendar (mkdate 2004 1 1) = (2004, 1, 4) /\
  isocalendar (mkdate 2005 1 1) = (2004, 53, 6) /\
  isocalendar (mkdate 2003 12 29) = (2004, 1, 1) /\
  isocalendar (mkdate 2010 1 3) = (2009, 53, 7) /\
  isocalendar (mkdate 9999 12 31) = (9999, 52, 5).
Proof. repeat split; reflexivity. Qed.

Example parser_examples :
  parse_isodate P2003 "2014-04-11" = Ok (mkdate 2014 4 11) /\
  parse_isodate P2003 "20140411" = Ok (mkdate 2014 4 11) /\
  parse_isodate P2003 "2014-04" = Ok (mkdate 2014 4 1) /\
  parse_isodate P2003 "2014" = Ok (mkdate 2014 1 1) /\
  parse_isodate P2003 "2000-02-29" = Ok (mkdate 2000 2 29) /\
  parse_isodate P2003 "1900-02-29" = Raise ValueError /\
  parse_isodate P2003 "--02-29" = Ok (mkdate 2000 2 29) /\
  parse_isodate P2004 "--0229" = Ok (mkdate 2004 2 29) /\
  parse_isodate P2003 "2004-W01-1" = Ok (mkdate 2003 12 29) /\
  parse_isodate P2003 "2004W537" = Ok (mkdate 2005 1 2) /\
  parse_isodate P2003 "2004-366" = Ok (mkdate 2004 12 31) /\
  parse_isodate P2003 "2003366" = Raise ValueError /\
  parse_isotime "24:00:00" = Ok (mktime 0 0 0 0 None) /\
  parse_isotime "24:30:00" = Raise ValueError /\
  parse_isotime "10:49:41.5" = Ok (mktime 10 49 41 500000 None) /\
  parse_isotime "104941.123456Z" = Ok (mktime 10 49 41 123456 (Some tzutc)) /\
  parse_isotime "10:49:41.1234567" = Raise ValueError /\
  parse_tzstr "+00:00" true = Ok tzutc /\
  parse_tzstr "+00:00" false = Ok (tzoffset 0) /\
  parse_tzstr "-0330" true = Ok (tzoffset (-210)) /\
  isoparse P2003 "2003-09-25T10:49:41-03:00" false
    = Ok (mkdatetime (mkdate 2003 9 25)
            (mktime 10 49 41 0 (Some (tzoffset (-180))))) /\
  isoparse P2003 "20030925" false
    = Ok (mkdatetime (mkdate 2003 9 25) (mktime 0 0 0 0 None)) /\
  isoparse P2003 "--02-29" true = Raise ValueError.
Proof. repeat split; reflexivity. Qed.

(* ================================================================== *)
(** ** Days, months and years                                      *)
(* ================================================================== *)

(** A year has 365 days, and one more when it is a leap year. *)
Lemma dby_succ y :
  _days_before_year (y + 1)
  = _days_before_year y + 365 + int_of_bool (isleap y).
Proof.
  unfold _days_before_year, isleap, int_of_bool.
  replace (y + 1 - 1) with y by lia.
  destruct (Z.eqb_spec (y mod 4) 0), (Z.eqb_spec (y mod 100) 0),
    (Z.eqb_spec (y mod 400) 0); cbn [andb orb negb];
    Z.to_euclidean_division_equations; lia.
Qed.

Lemma forall_below_spec n P :
  forall_below n P = true -> forall z, 0 <= z < Z.of_nat n -> P z = true.
Proof.
  induction n as [|n IH]; intros H z Hz.
  - lia.
  - cbn [forall_below] in H. apply andb_true_iff in H as [H0 H1].
    destruct (Z.eq_dec z (Z.of_nat n)) as [->|Hne]; [exact H0|].
    apply IH; [exact H1 | lia].
Qed.

(** The tail of [_ord2ymd] is checked on every day of a year, and on every
    month and day, by computation. *)
Lemma month_day_spec leap r :
  0 <= r < 365 + int_of_bool leap ->
  month_day_ok leap r = true.
Proof.
  intros Hr.
  assert (H : forall_below 366
                (fun r => (365 + int_of_bool leap <=? r)
                          || month_day_ok leap r) = true)
    by (destruct leap; vm_compute; reflexivity).
  pose proof (forall_below_spec _ _ H r) as H'. cbv beta in H'.
  destruct (Z.leb_spec (365 + int_of_bool leap) r); [lia|].
  apply H'. destruct leap; cbn in *; lia.
Qed.

Lemma month_day_inv leap m d :
  1 <= m <= 12 -> 1 <= d <= dim_l leap m ->
  _month_day leap (dbm_l leap m + d - 1) = (m, d).
Proof.
  intros Hm Hd.
  assert (Hd31 : d <= 31).
  { assert (H : forall_below 13 (fun m => dim_l leap m <=? 31) = true)
      by (destruct leap; vm_compute; reflexivity).
    pose proof (forall_below_spec _ _ H m ltac:(lia)) as H'. cbv beta in H'. lia. }
  assert (H : forall_below 416 (month_day_inv_ok leap) = true)
    by (destruct leap; vm_compute; reflexivity).
  pose proof (forall_below_spec _ _ H (m * 32 + d) ltac:(lia)) as H'.
  unfold month_day_inv_ok in H'.
  replace ((m * 32 + d) / 32) with m in H' by (Z.to_euclidean_division_equations; lia).
  replace ((m * 32 + d) mod 32) with d in H' by (Z.to_euclidean_division_equations; lia).
  destruct (_month_day leap (dbm_l leap m + d - 1)) as [m' d'].
  apply orb_true_iff in H' as [H'|H'].
  - apply negb_true_iff in H'. 
    assert ((1 <=? m) && (m <=? 12) && (1 <=? d) && (d <=? dim_l leap m) = true).
    { repeat (apply andb_true_iff; split); lia. }
    congruence.
  - apply andb_true_iff in H' as [H1 H2]. f_equal; lia.
Qed.

(** A year in 400-, 100-, 4- and 1-year steps from year 1. *)
Lemma dby_decomp a b c e :
  0 <= b <= 3 -> 0 <= c <= 24 -> 0 <= e <= 3 ->
  _days_before_year (400 * a + 100 * b + 4 * c + e + 1)
  = 146097 * a + 36524 * b + 1461 * c + 365 * e.
Proof.
  intros. unfold _days_before_year.
  Z.to_euclidean_division_equations; lia.
Qed.

Lemma isleap_decomp a b c e :
  0 <= b <= 3 -> 0 <= c <= 24 -> 0 <= e <= 3 ->
  isleap (400 * a + 100 * b + 4 * c + e + 1)
  = (e =? 3) && (negb (c =? 24) || (b =? 3)).
Proof.
  intros. unfold isleap.
  destruct (Z.eqb_spec e 3), (Z.eqb_spec c 24), (Z.eqb_spec b 3); cbn [andb orb negb];
  repeat match goal with |- context [?x mod ?k =? 0] => destruct (Z.eqb_spec (x mod k) 0) end;
  cbn [andb orb negb]; try reflexivity; exfalso;
  Z.to_euclidean_division_equations; lia.
Qed.

Lemma year_decomp y :
  exists a b c e, 0 <= b <= 3 /\ 0 <= c <= 24 /\ 0 <= e <= 3 /\
    y = 400 * a + 100 * b + 4 * c + e + 1.
Proof.
  exists ((y - 1) / 400), ((y - 1) mod 400 / 100), ((y - 1) mod 100 / 4), ((y - 1) mod 4).
  Z.to_euclidean_division_equations; lia.
Qed.

Lemma divmod_eq a b q r : 0 <= r < b -> a = b * q + r -> a / b = q /\ a mod b = r.
Proof.
  intros Hr ->. split.
  - symmetry. apply (Z.div_unique _ _ q r); [left; lia | reflexivity].
  - symmetry. apply (Z.mod_unique _ _ q r); [left; lia | reflexivity].
Qed.

Lemma dbm_range leap m d :
  1 <= m <= 12 -> 1 <= d <= dim_l leap m ->
  0 <= dbm_l leap m + d - 1 < 365 + int_of_bool leap.
Proof.
  intros Hm Hd.
  assert (H : forall_below 13
                (fun m => (m <? 1)
                          || ((0 <=? dbm_l leap m)
                              && (dbm_l leap m + dim_l leap m
                                  <=? 365 + int_of_bool leap))) = true)
    by (destruct leap; vm_compute; reflexivity).
  pose proof (forall_below_spec _ _ H m ltac:(lia)) as H'. cbv beta in H'.
  destruct (Z.ltb_spec m 1); [lia|]. cbn [orb] in H'.
  apply andb_true_iff in H' as [H1 H2]. lia.
Qed.

(** [_ord2ymd] at the ordinal of day [r] (from 0) of a year. *)
Lemma ord2ymd_at a b c e r :
  0 <= b <= 3 -> 0 <= c <= 24 -> 0 <= e <= 3 ->
  let y := 400 * a + 100 * b + 4 * c + e + 1 in
  0 <= r < 365 + int_of_bool (isleap y) ->
  _ord2ymd (_days_before_year y + r + 1)
  = let '(m, d) := _month_day (isleap y) r in mkdate y m d.
Proof.
  intros Hb Hc He y Hr.
  subst y. rewrite isleap_decomp in * by assumption.
  rewrite dby_decomp by assumption.
  unfold _ord2ymd, _DI400Y, _DI100Y, _DI4Y. cbv zeta.
  replace (146097 * a + 36524 * b + 1461 * c + 365 * e + r + 1 - 1)
    with (146097 * a + (36524 * b + 1461 * c + 365 * e + r)) by lia.
  assert (Hlt : 36524 * b + 1461 * c + 365 * e + r < 146097).
  { destruct (Z.eqb_spec e 3), (Z.eqb_spec c 24), (Z.eqb_spec b 3); cbn in Hr; lia. }
  destruct (divmod_eq (146097 * a + (36524 * b + 1461 * c + 365 * e + r)) 146097 a
              (36524 * b + 1461 * c + 365 * e + r)) as [-> ->]; [lia | reflexivity |].
  destruct (Z.eq_dec r 365) as [Hr365 | Hr365].
  - (* the last day of a leap year *)
    subst r.
    assert (He3 : e = 3) by (destruct (Z.eqb_spec e 3); cbn in Hr; lia).
    subst e.
    destruct (Z.eq_dec c 24) as [-> | Hc24].
    + assert (b = 3) by (destruct (Z.eqb_spec b 3); cbn in Hr; lia). subst b.
      change (36524 * 3 + 1461 * 24 + 365 * 3 + 365) with 146096.
      change (146096 / 36524) with 4. change (4 =? 4) with true.
      rewrite orb_true_r.
      change (146096 mod 36524) with 0. change (0 / 1461) with 0.
      change (0 mod 1461) with 0. change (0 / 365) with 0.
      change (_month_day _ 365) with (12, 31). cbv beta iota.
      f_equal. lia.
    + destruct (divmod_eq (36524 * b + 1461 * c + 365 * 3 + 365) 36524 b
                  (1461 * c + 1460)) as [-> ->]; [lia | lia |].
      destruct (divmod_eq (1461 * c + 1460) 1461 c 1460) as [-> ->]; [lia | lia |].
      change (1460 / 365) with 4. cbn [Z.eqb orb Pos.eqb].
      destruct (Z.eqb_spec c 24); [lia|]. cbn [negb orb andb Z.eqb Pos.eqb].
      change (_month_day true 365) with (12, 31). cbv beta iota.
      f_equal. lia.
  - assert (Hr' : 0 <= r < 365).
    { destruct (Z.eqb_spec e 3), (Z.eqb_spec c 24), (Z.eqb_spec b 3); cbn in Hr; lia. }
    destruct (divmod_eq (36524 * b + 1461 * c + 365 * e + r) 36524 b
                (1461 * c + 365 * e + r)) as [-> ->]; [lia | lia |].
    destruct (divmod_eq (1461 * c + 365 * e + r) 1461 c (365 * e + r))
      as [-> ->]; [lia | lia |].
    destruct (divmod_eq (365 * e + r) 365 e r) as [-> ->]; [lia | lia |].
    destruct (Z.eqb_spec e 4); [lia|]. destruct (Z.eqb_spec b 4); [lia|].
    cbn [orb].
    destruct (_month_day _ r) as [m d]. f_equal. lia.
Qed.

Lemma days_in_month_12 y : _days_in_month y 12 = 31.
Proof. reflexivity. Qed.

Lemma days_before_month_12 y :
  _days_before_month y 12 = 334 + int_of_bool (isleap y).
Proof. reflexivity. Qed.

(** [fromordinal] after [toordinal], on every month and day of a year. *)
Lemma ord2ymd_ymd2ord y m d :
  valid_ymd y m d -> _ord2ymd (_ymd2ord y m d) = mkdate y m d.
Proof.
  intros [Hm Hd].
  change (_days_in_month y m) with (dim_l (isleap y) m) in Hd.
  unfold _ymd2ord. change (_days_before_month y m) with (dbm_l (isleap y) m).
  pose proof (dbm_range _ _ _ Hm Hd) as Hr.
  destruct (year_decomp y) as (a & b & c & e & Hb & Hc & He & Hy).
  replace (_days_before_year y + dbm_l (isleap y) m + d)
    with (_days_before_year y + (dbm_l (isleap y) m + d - 1) + 1) by lia.
  rewrite Hy in *.
  rewrite ord2ymd_at by assumption.
  rewrite month_day_inv by assumption. reflexivity.
Qed.

(** [toordinal] after [fromordinal], on every ordinal: [_ord2ymd] returns
    a month and a day of it, of the ordinal it was given. *)
Lemma ymd2ord_ord2ymd n :
  let d := _ord2ymd n in
  valid_ymd (year d) (month d) (day d) /\ _ymd2ord (year d) (month d) (day d) = n.
Proof.
  (* find the year and the day of the year of ordinal n *)
  set (n0 := n - 1).
  set (a := n0 / 146097). set (r400 := n0 mod 146097).
  set (b := r400 / 36524). set (r100 := r400 mod 36524).
  set (c := r100 / 1461). set (r4 := r100 mod 1461).
  set (e := r4 / 365). set (r := r4 mod 365).
  assert (Hfacts : n0 = 146097 * a + 36524 * b + 1461 * c + 365 * e + r /\
                   0 <= b <= 4 /\ 0 <= c <= 24 /\ 0 <= e <= 4 /\ 0 <= r < 365 /\
                   0 <= r400 < 146097 /\ r400 = 36524 * b + r100 /\
                   0 <= r100 < 36524 /\ r100 = 1461 * c + r4 /\ 0 <= r4 < 1461 /\
                   r4 = 365 * e + r).
  { subst a r400 b r100 c r4 e r. Z.to_euclidean_division_equations. lia. }
  destruct Hfacts as (Hn0 & Hb & Hc & He & Hr & H400 & H400' & H100 & H100' & H4 & H4').
  assert (Hn : n = n0 + 1) by (subst n0; lia).
  destruct (Z.eq_dec b 4) as [Hb4 | Hb4]; [| destruct (Z.eq_dec e 4) as [He4 | He4]].
  - (* last day of a 400-year cycle *)
    assert (r100 = 0 /\ c = 0 /\ e = 0 /\ r = 0) as (? & ? & ? & ?) by lia.
    assert (Hd : _ord2ymd n = mkdate (400 * a + 100 * 3 + 4 * 24 + 3 + 1) 12 31).
    { pose proof (ord2ymd_at a 3 24 3 365 ltac:(lia) ltac:(lia) ltac:(lia)) as Hx.
      cbv zeta in Hx. rewrite isleap_decomp in Hx by lia.
      cbn [Z.eqb Pos.eqb andb orb negb int_of_bool] in Hx.
      rewrite dby_decomp in Hx by lia.
      specialize (Hx ltac:(lia)). change (_month_day true 365) with (12, 31) in Hx.
      rewrite <- Hx. f_equal. lia. }
    rewrite Hd. cbn [year month day]. split.
    + split; [lia|]. rewrite days_in_month_12. lia.
    + unfold _ymd2ord. rewrite dby_decomp by lia.
      rewrite days_before_month_12, isleap_decomp by lia.
      change (int_of_bool _) with 1. lia.
  - (* last day of a leap year *)
    assert (r = 0) by lia.
    assert (Hb3 : 0 <= b <= 3) by lia.
    assert (Hc24 : c <> 24 \/ b = 3) by lia.
    assert (Hd : _ord2ymd n = mkdate (400 * a + 100 * b + 4 * c + 3 + 1) 12 31).
    { pose proof (ord2ymd_at a b c 3 365 ltac:(lia) ltac:(lia) ltac:(lia)) as Hx.
      cbv zeta in Hx. rewrite isleap_decomp in Hx by lia.
      assert (Hl : (3 =? 3) && (negb (c =? 24) || (b =? 3)) = true).
      { destruct (Z.eqb_spec c 24), (Z.eqb_spec b 3); cbn; try reflexivity; lia. }
      rewrite Hl in Hx. cbn [int_of_bool] in Hx.
      rewrite dby_decomp in Hx by lia.
      specialize (Hx ltac:(lia)). change (_month_day true 365) with (12, 31) in Hx.
      rewrite <- Hx. f_equal. lia. }
    rewrite Hd. cbn [year month day]. split.
    + split; [lia|]. rewrite days_in_month_12. lia.
    + unfold _ymd2ord. rewrite dby_decomp by lia.
      rewrite days_before_month_12, isleap_decomp by lia.
      assert (Hl : (3 =? 3) && (negb (c =? 24) || (b =? 3)) = true).
      { destruct (Z.eqb_spec c 24), (Z.eqb_spec b 3); cbn; try reflexivity; lia. }
      rewrite Hl. cbn [int_of_bool]. lia.
  - assert (Hb3 : 0 <= b <= 3) by lia.
    assert (He3 : 0 <= e <= 3) by lia.
    pose proof (ord2ymd_at a b c e r Hb3 Hc He3) as Hx. cbv zeta in Hx.
    specialize (Hx ltac:(destruct (isleap _); cbn; lia)).
    rewrite dby_decomp in Hx by lia.
    replace (146097 * a + 36524 * b + 1461 * c + 365 * e + r + 1) with n in Hx by lia.
    rewrite Hx.
    pose proof (month_day_spec (isleap (400 * a + 100 * b + 4 * c + e + 1)) r
                  ltac:(destruct (isleap _); cbn; lia)) as Hmd.
    unfold month_day_ok in Hmd.
    destruct (_month_day _ r) as [m d]. cbn [year month day].
    repeat (apply andb_true_iff in Hmd as [Hmd ?]).
    split.
    + split; [lia|]. change (_days_in_month ?y m) with (dim_l (isleap y) m). lia.
    + unfold _ymd2ord. rewrite dby_decomp by lia.
      change (_days_before_month ?y m) with (dbm_l (isleap y) m). lia.
Qed.

(* ================================================================== *)
(** ** ISO weeks                                                   *)
(* ================================================================== *)

Lemma ymd2ord_jan y d : _ymd2ord y 1 d = _days_before_year y + d.
Proof. unfold _ymd2ord. change (_days_before_month y 1) with 0. lia. Qed.

(** The first ISO week of a year starts on a Monday (ordinal 1 is one), at
    most three days before or after the first of January. *)
Lemma isoweek1monday_spec y :
  (_isoweek1monday y) mod 7 = 1 /\
  _days_before_year y - 2 <= _isoweek1monday y <= _days_before_year y + 4.
Proof.
  unfold _isoweek1monday. rewrite ymd2ord_jan. cbv zeta.
  destruct (Z.ltb_spec 3 ((_days_before_year y + 1 + 6) mod 7));
    Z.to_euclidean_division_equations; lia.
Qed.

Lemma dby_succ_bounds y :
  _days_before_year y + 365 <= _days_before_year (y + 1) <= _days_before_year y + 366.
Proof. rewrite dby_succ. destruct (isleap y); cbn [int_of_bool]; lia. Qed.

Lemma dby_mono_nat (k : nat) y :
  _days_before_year y + 365 * Z.of_nat k <= _days_before_year (y + Z.of_nat k).
Proof.
  induction k as [|k IH].
  - replace (y + Z.of_nat 0) with y by lia. lia.
  - replace (y + Z.of_nat (S k)) with (y + Z.of_nat k + 1) by lia.
    pose proof (dby_succ_bounds (y + Z.of_nat k)). lia.
Qed.

Lemma dby_mono a b :
  a <= b -> _days_before_year a + 365 * (b - a) <= _days_before_year b.
Proof.
  intros H. pose proof (dby_mono_nat (Z.to_nat (b - a)) a) as Hk.
  rewrite Z2Nat.id in Hk by lia.
  replace (a + (b - a)) with b in Hk by lia. exact Hk.
Qed.

Lemma isoweek1monday_step y :
  _isoweek1monday (y + 1) = _isoweek1monday y + 364 \/
  _isoweek1monday (y + 1) = _isoweek1monday y + 371.
Proof.
  pose proof (isoweek1monday_spec y). pose proof (isoweek1monday_spec (y + 1)).
  pose proof (dby_succ_bounds y).
  Z.to_euclidean_division_equations. lia.
Qed.

Lemma isoweek1monday_mono a b :
  a < b -> _isoweek1monday a + 364 <= _isoweek1monday b.
Proof.
  intros H.
  pose proof (isoweek1monday_step a) as Hs.
  pose proof (isoweek1monday_spec (a + 1)) as [_ Ha].
  pose proof (isoweek1monday_spec b) as [_ Hb].
  pose proof (dby_mono (a + 1) b ltac:(lia)).
  destruct (Z.eq_dec b (a + 1)) as [-> | Hne]; [lia|].
  lia.
Qed.

(** The ordinal of a date lies in its year. *)
Lemma ymd2ord_in_year y m d :
  valid_ymd y m d ->
  _days_before_year y < _ymd2ord y m d <= _days_before_year (y + 1).
Proof.
  intros [Hm Hd]. change (_days_in_month y m) with (dim_l (isleap y) m) in Hd.
  pose proof (dbm_range _ _ _ Hm Hd). rewrite dby_succ.
  unfold _ymd2ord. change (_days_before_month y m) with (dbm_l (isleap y) m). lia.
Qed.

(** The ISO triple of a date: the date lies in the ISO year of the triple,
    at the week and weekday of the triple. *)
Lemma isocalendar_spec y m d :
  valid_ymd y m d ->
  let o := _ymd2ord y m d in
  let '(Y, W, Wd) := isocalendar (mkdate y m d) in
  _isoweek1monday Y <= o < _isoweek1monday (Y + 1) /\
  o = _isoweek1monday Y + 7 * (W - 1) + (Wd - 1) /\
  1 <= W /\ 1 <= Wd <= 7 /\ y - 1 <= Y <= y + 1.
Proof.
  intros Hv o. pose proof (ymd2ord_in_year _ _ _ Hv) as Ho. fold o in Ho.
  unfold isocalendar. cbn [year month day]. fold o. cbv zeta.
  pose proof (isoweek1monday_spec (y - 1)) as [Hm0 Hb0].
  pose proof (isoweek1monday_spec y) as [Hm1 Hb1].
  pose proof (isoweek1monday_spec (y + 1)) as [Hm2 Hb2].
  pose proof (isoweek1monday_spec (y + 1 + 1)) as [Hm3 Hb3].
  pose proof (dby_succ_bounds (y - 1)) as Hs0.
  replace (y - 1 + 1) with y in * by lia.
  pose proof (dby_succ_bounds y) as Hs1.
  pose proof (dby_succ_bounds (y + 1)) as Hs2.
  destruct (Z.ltb_spec ((o - _isoweek1monday y) / 7) 0) as [Hneg | Hnn].
  - replace (y - 1 + 1) with y by lia.
    Z.to_euclidean_division_equations. lia.
  - destruct (Z.leb_spec 52 ((o - _isoweek1monday y) / 7)) as [H52 | H52];
      [destruct (Z.leb_spec (_isoweek1monday (y + 1)) o) as [Hnext | Hnext] |];
      cbn [andb]; Z.to_euclidean_division_equations; lia.
Qed.

(** The ISO year whose weeks contain a date determines its triple. *)
Lemma isocalendar_unique y m d Y :
  valid_ymd y m d ->
  let o := _ymd2ord y m d in
  _isoweek1monday Y <= o < _isoweek1monday (Y + 1) ->
  isocalendar (mkdate y m d)
  = (Y, (o - _isoweek1monday Y) / 7 + 1, (o - _isoweek1monday Y) mod 7 + 1).
Proof.
  intros Hv o HY. pose proof (isocalendar_spec _ _ _ Hv) as Hs. fold o in Hs.
  destruct (isocalendar (mkdate y m d)) as [[Y' W'] Wd'].
  destruct Hs as (HY' & Ho & HW & HWd & _).
  assert (Y' = Y).
  { destruct (Z.lt_trichotomy Y' Y) as [Hlt | [Heq | Hgt]]; [exfalso | exact Heq | exfalso].
    - destruct (Z.eq_dec (Y' + 1) Y) as [<- | Hne]; [lia|].
      pose proof (isoweek1monday_mono (Y' + 1) Y ltac:(lia)). lia.
    - destruct (Z.eq_dec (Y + 1) Y') as [<- | Hne]; [lia|].
      pose proof (isoweek1monday_mono (Y + 1) Y' ltac:(lia)). lia. }
  subst Y'. f_equal; [f_equal|]; Z.to_euclidean_division_equations; lia.
Qed.

Lemma dby_range y :
  1 <= y <= 9999 -> 0 <= _days_before_year y <= 3651694.
Proof.
  intros H. pose proof (dby_mono 1 y ltac:(lia)). pose proof (dby_mono y 9999 ltac:(lia)).
  change (_days_before_year 1) with 0 in *.
  change (_days_before_year 9999) with 3651694 in *. lia.
Qed.

Lemma date_new_ok y m d :
  1 <= y <= 9999 -> valid_ymd y m d -> date_new y m d = Ok (mkdate y m d).
Proof.
  intros Hy [Hm Hd]. unfold date_new, MINYEAR, MAXYEAR.
  destruct (Z.leb_spec 1 y); [|lia]. destruct (Z.leb_spec y 9999); [|lia].
  destruct (Z.leb_spec 1 m); [|lia]. destruct (Z.leb_spec m 12); [|lia].
  destruct (Z.leb_spec 1 d); [|lia]. destruct (Z.leb_spec d (_days_in_month y m)); [|lia].
  reflexivity.
Qed.

Lemma isoweek1monday_pos y : 1 <= y -> 1 <= _isoweek1monday y.
Proof.
  intros H. destruct (Z.eq_dec y 1) as [-> | Hne]; [vm_compute; discriminate|].
  pose proof (isoweek1monday_mono 1 y ltac:(lia)).
  change (_isoweek1monday 1) with 1 in *. lia.
Qed.

Lemma toordinal_fromordinal n : toordinal (fromordinal n) = n.
Proof. apply (ymd2ord_ord2ymd n). Qed.

Lemma fromordinal_valid n :
  let d := fromordinal n in valid_ymd (year d) (month d) (day d).
Proof. apply (ymd2ord_ord2ymd n). Qed.

Lemma fromordinal_toordinal d :
  valid_ymd (year d) (month d) (day d) -> fromordinal (toordinal d) = d.
Proof.
  intros H. destruct d as [y m dd]. apply ord2ymd_ymd2ord. exact H.
Qed.

Lemma jan_4_valid y : valid_ymd y 1 4.
Proof. split; [lia|]. change (_days_in_month y 1) with 31. lia. Qed.

Lemma isocalendar_jan_4 y :
  isocalendar (mkdate y 1 4)
  = (y, 1, _days_before_year y + 4 - _isoweek1monday y + 1).
Proof.
  pose proof (isoweek1monday_spec y) as [_ Hb].
  pose proof (isoweek1monday_spec (y + 1)) as [_ Hb'].
  pose proof (dby_succ_bounds y).
  rewrite (isocalendar_unique y 1 4 y (jan_4_valid y)) by (rewrite ymd2ord_jan; lia).
  rewrite ymd2ord_jan.
  f_equal; [f_equal|]; Z.to_euclidean_division_equations; lia.
Qed.

(** [_calculate_weekdate] counts days from the Monday of week 1: it
    returns the date of that ordinal, unless the ordinal is past the
    last date. *)
Lemma calculate_weekdate_ord Y W Wd :
  1 <= Y <= 9999 -> 1 <= W <= 53 -> 1 <= Wd <= 7 ->
  let o := _isoweek1monday Y + (W - 1) * 7 + (Wd - 1) in
  _calculate_weekdate Y W Wd
  = if o <=? _MAXORDINAL then Ok (fromordinal o) else Raise OverflowError.
Proof.
  intros HY HW HWd o. unfold _calculate_weekdate.
  destruct (Z.ltb_spec 0 W); [|lia]. destruct (Z.ltb_spec W 54); [|lia].
  destruct (Z.ltb_spec 0 Wd); [|lia]. destruct (Z.ltb_spec Wd 8); [|lia].
  cbn [andb negb].
  rewrite (date_new_ok Y 1 4 HY (jan_4_valid Y)). cbn [bind].
  rewrite isocalendar_jan_4.
  pose proof (isoweek1monday_spec Y) as [_ Hb].
  pose proof (isoweek1monday_pos Y ltac:(lia)) as Hpos.
  pose proof (dby_range Y HY) as Hr.
  unfold date_add_days at 1. unfold toordinal. cbn [year month day].
  rewrite ymd2ord_jan.
  replace (_days_before_year Y + 4 + - (_days_before_year Y + 4 - _isoweek1monday Y + 1 - 1))
    with (_isoweek1monday Y) by lia.
  unfold _MAXORDINAL.
  destruct (Z.ltb_spec 0 (_isoweek1monday Y)); [|lia].
  destruct (Z.leb_spec (_isoweek1monday Y) 3652059); [|lia].
  cbn [andb bind].
  unfold date_add_days, _MAXORDINAL. rewrite toordinal_fromordinal.
  replace (_isoweek1monday Y + ((W - 1) * 7 + (Wd - 1))) with o by (subst o; lia).
  destruct (Z.ltb_spec 0 o); [|lia]. cbn [andb]. reflexivity.
Qed.

(* ================================================================== *)
(** ** Strings and integer literals                                *)
(* ================================================================== *)

Lemma len_nonneg s : 0 <= len s.
Proof. unfold len. lia. Qed.

Lemma len_cons c s : len (String c s) = len s + 1.
Proof. unfold len. cbn [String.length]. lia. Qed.

Lemma len_app s t : len (s ++ t) = len s + len t.
Proof.
  induction s as [|c s IH]; cbn [append].
  - unfold len at 2. cbn. lia.
  - rewrite !len_cons, IH. lia.
Qed.

Lemma index_nonneg s i :
  0 <= i ->
  index s i = if len s <=? i then Raise IndexError
              else match nth_char (Z.to_nat i) s with
                   | Some c => Ok c
                   | None => Raise IndexError
                   end.
Proof.
  intros Hi. unfold index. cbv zeta.
  destruct (Z.ltb_spec i 0) as [Hneg | _]; [lia|].
  destruct (Z.ltb_spec i 0) as [Hneg | _]; [lia|]. reflexivity.
Qed.

Lemma index_cons_0 c s : index (String c s) 0 = Ok c.
Proof.
  rewrite index_nonneg by lia. rewrite len_cons. pose proof (len_nonneg s).
  destruct (Z.leb_spec (len s + 1) 0); [lia | reflexivity].
Qed.

Lemma index_cons_pos c s i : 1 <= i -> index (String c s) i = index s (i - 1).
Proof.
  intros Hi. rewrite !index_nonneg by lia. rewrite len_cons.
  destruct (Z.leb_spec (len s + 1) i), (Z.leb_spec (len s) (i - 1)); try lia; [reflexivity|].
  replace (Z.to_nat i) with (S (Z.to_nat (i - 1))) by lia. reflexivity.
Qed.

Lemma index_app_l s t i : 0 <= i < len s -> index (s ++ t) i = index s i.
Proof.
  revert i. induction s as [|c s IH]; intros i Hi.
  - unfold len in Hi. cbn in Hi. lia.
  - cbn [append]. rewrite len_cons in Hi.
    destruct (Z.eq_dec i 0) as [-> | Hne].
    + rewrite !index_cons_0. reflexivity.
    + rewrite !index_cons_pos by lia. apply IH. lia.
Qed.

Lemma index_app_r s t i : len s <= i -> index (s ++ t) i = index t (i - len s).
Proof.
  revert i. induction s as [|c s IH]; intros i Hi.
  - cbn [append]. f_equal. unfold len. cbn. lia.
  - cbn [append]. rewrite len_cons in *. pose proof (len_nonneg s).
    rewrite index_cons_pos by lia. rewrite IH by lia. f_equal. lia.
Qed.

Lemma clamp_nonneg i n : 0 <= i -> clamp i n = Z.min i n.
Proof. intros H. unfold clamp. destruct (Z.ltb_spec i 0); [lia | reflexivity]. Qed.

Lemma drop_app_l s t n :
  (n <= String.length s)%nat -> drop n (s ++ t) = drop n s ++ t.
Proof.
  revert n. induction s as [|c s IH]; intros [|n] H; cbn in *; try reflexivity; try lia.
  apply IH. lia.
Qed.

Lemma take_app_l s t n :
  (n <= String.length s)%nat -> take n (s ++ t) = take n s.
Proof.
  revert n. induction s as [|c s IH]; intros [|n] H; cbn in *; try reflexivity; try lia.
  f_equal. apply IH. lia.
Qed.

Lemma take_app_r s t n :
  (String.length s <= n)%nat -> take n (s ++ t) = s ++ take (n - String.length s) t.
Proof.
  revert n. induction s as [|c s IH]; intros n H; cbn [append String.length] in *.
  - f_equal. lia.
  - destruct n as [|n]; [lia|]. cbn [take]. f_equal.
    rewrite IH by lia. reflexivity.
Qed.

Lemma drop_app_r s t n :
  (String.length s <= n)%nat -> drop n (s ++ t) = drop (n - String.length s) t.
Proof.
  revert n. induction s as [|c s IH]; intros n H; cbn [append String.length] in *.
  - f_equal. lia.
  - destruct n as [|n]; [lia|]. cbn [drop]. rewrite IH by lia. reflexivity.
Qed.

Lemma length_drop s n : String.length (drop n s) = (String.length s - n)%nat.
Proof.
  revert n. induction s as [|c s IH]; intros [|n]; cbn; try reflexivity. apply IH.
Qed.

(** Slices of a string with a known prefix. *)
Lemma slice_app_l s t a b :
  0 <= a -> a <= b -> b <= len s -> slice (s ++ t) a b = slice s a b.
Proof.
  intros Ha Hab Hb. unfold slice. rewrite len_app.
  pose proof (len_nonneg t). rewrite !clamp_nonneg by lia.
  replace (Z.min a (len s + len t)) with a by lia.
  replace (Z.min b (len s + len t)) with b by lia.
  replace (Z.min a (len s)) with a by lia.
  replace (Z.min b (len s)) with b by lia.
  unfold len in *.
  rewrite drop_app_l by lia. rewrite take_app_l; [reflexivity|].
  rewrite length_drop. lia.
Qed.

Lemma slice_app_r s t a b :
  len s <= a -> a <= b -> slice (s ++ t) a b = slice t (a - len s) (b - len s).
Proof.
  intros Ha Hab. unfold slice. rewrite len_app.
  pose proof (len_nonneg s). pose proof (len_nonneg t).
  rewrite !clamp_nonneg by lia.
  unfold len in *.
  rewrite drop_app_r by lia. f_equal; [|f_equal]; lia.
Qed.

Lemma slice_app_span s t a b :
  0 <= a -> a <= len s -> len s <= b ->
  slice (s ++ t) a b = slice_from s a ++ slice t 0 (b - len s).
Proof.
  intros Ha Has Hb. unfold slice, slice_from. rewrite len_app.
  pose proof (len_nonneg s). pose proof (len_nonneg t).
  rewrite !clamp_nonneg by lia.
  replace (Z.min a (len s + len t)) with a by lia.
  replace (Z.min a (len s)) with a by lia.
  replace (Z.min 0 (len t)) with 0 by lia.
  unfold len in *. rewrite drop_app_l by lia.
  rewrite take_app_r by (rewrite length_drop; lia).
  cbn [Z.to_nat drop]. f_equal. f_equal. rewrite length_drop. lia.
Qed.

Lemma slice_from_app_r s t a :
  len s <= a -> slice_from (s ++ t) a = slice_from t (a - len s).
Proof.
  intros Ha. unfold slice_from. rewrite len_app.
  pose proof (len_nonneg s). pose proof (len_nonneg t).
  rewrite !clamp_nonneg by lia. unfold len in *.
  rewrite drop_app_r by lia. f_equal. lia.
Qed.

Lemma slice_from_0 s : slice_from s 0 = s.
Proof.
  unfold slice_from. pose proof (len_nonneg s). rewrite clamp_nonneg by lia.
  replace (Z.min 0 (len s)) with 0 by lia. reflexivity.
Qed.

(** *** [int] on digit strings *)

Lemma digit_facts c :
  is_digit c = true ->
  is_space c = false /\ in_tz_chars c = false /\ ch_eqb c "_" = false /\
  ch_eqb c "-" = false /\ ch_eqb c "+" = false /\ ch_eqb c "." = false /\
  ch_eqb c ":" = false /\ ch_eqb c "W" = false /\
  exists d, digit_val c = Some d /\ 0 <= d <= 9.
Proof.
  destruct c as [[] [] [] [] [] [] [] []]; intros H; try discriminate H;
    repeat split; try reflexivity; eexists;
    (split; [reflexivity | vm_compute; split; discriminate]).
Qed.

Lemma digit_char_is_digit d : is_digit (digit_char d) = true.
Proof.
  unfold digit_char.
  assert (H : 0 <= d mod 10 < 10) by (apply Z.mod_pos_bound; lia).
  assert (Hc : d mod 10 = 0 \/ d mod 10 = 1 \/ d mod 10 = 2 \/ d mod 10 = 3 \/
               d mod 10 = 4 \/ d mod 10 = 5 \/ d mod 10 = 6 \/ d mod 10 = 7 \/
               d mod 10 = 8 \/ d mod 10 = 9) by lia.
  repeat (destruct Hc as [-> | Hc]; [reflexivity|]). rewrite Hc. reflexivity.
Qed.

Lemma digit_val_digit_char d : digit_val (digit_char d) = Some (d mod 10).
Proof.
  unfold digit_char.
  assert (H : 0 <= d mod 10 < 10) by (apply Z.mod_pos_bound; lia).
  assert (Hc : d mod 10 = 0 \/ d mod 10 = 1 \/ d mod 10 = 2 \/ d mod 10 = 3 \/
               d mod 10 = 4 \/ d mod 10 = 5 \/ d mod 10 = 6 \/ d mod 10 = 7 \/
               d mod 10 = 8 \/ d mod 10 = 9) by lia.
  repeat (destruct Hc as [-> | Hc]; [reflexivity|]). rewrite Hc. reflexivity.
Qed.

Lemma int_digits_all s acc :
  all_digits s = true ->
  int_digits s false acc = Ok (decimal_from s acc, "").
Proof.
  revert acc. induction s as [|c s IH]; intros acc H; cbn [int_digits decimal_from].
  - reflexivity.
  - cbn [all_digits] in H. apply andb_true_iff in H as [Hc Hs].
    destruct (digit_facts c Hc) as (_ & _ & _ & _ & _ & _ & _ & _ & d & Hd & _).
    rewrite Hd. apply IH. exact Hs.
Qed.

Lemma int_all_digits s :
  s <> "" -> all_digits s = true -> int s = Ok (decimal_value s).
Proof.
  intros Hne H. destruct s as [|c s]; [congruence|].
  cbn [all_digits] in H. apply andb_true_iff in H as [Hc Hs].
  destruct (digit_facts c Hc) as (Hsp & _ & _ & Hm & Hp & _ & _ & _ & d & Hd & _).
  unfold int. cbn [lstrip]. rewrite Hsp, Hp, Hm.
  unfold int_unsigned. rewrite Hd, (int_digits_all _ _ Hs). cbn [bind all_space].
  unfold decimal_value. cbn [decimal_from]. rewrite Hd. reflexivity.
Qed.

Lemma fmt02_digits n : all_digits (fmt02 n) = true.
Proof. unfold fmt02. cbn [all_digits]. rewrite !digit_char_is_digit. reflexivity. Qed.

Lemma fmt04_digits n : all_digits (fmt04 n) = true.
Proof. unfold fmt04. cbn [all_digits]. rewrite !digit_char_is_digit. reflexivity. Qed.

Lemma fmt02_value n : 0 <= n < 100 -> decimal_value (fmt02 n) = n.
Proof.
  intros H. unfold decimal_value, fmt02. cbn [decimal_from].
  rewrite !digit_val_digit_char. Z.to_euclidean_division_equations. lia.
Qed.

Lemma fmt04_value n : 0 <= n < 10000 -> decimal_value (fmt04 n) = n.
Proof.
  intros H. unfold decimal_value, fmt04. cbn [decimal_from].
  rewrite !digit_val_digit_char. Z.to_euclidean_division_equations. lia.
Qed.

Lemma fmt01_value n : 0 <= n < 10 -> decimal_value (fmt01 n) = n.
Proof.
  intros H. unfold decimal_value, fmt01. cbn [decimal_from].
  rewrite !digit_val_digit_char. Z.to_euclidean_division_equations. lia.
Qed.

Lemma int_fmt02 n : 0 <= n < 100 -> int (fmt02 n) = Ok n.
Proof.
  intros H. rewrite int_all_digits;
    [rewrite fmt02_value by lia; reflexivity | discriminate
    | apply fmt02_digits].
Qed.

Lemma int_fmt04 n : 0 <= n < 10000 -> int (fmt04 n) = Ok n.
Proof.
  intros H. rewrite int_all_digits;
    [rewrite fmt04_value by lia; reflexivity | discriminate
    | apply fmt04_digits].
Qed.

Lemma int_fmt01 n : 0 <= n < 10 -> int (fmt01 n) = Ok n.
Proof.
  intros H. rewrite int_all_digits; [rewrite fmt01_value by lia; reflexivity | discriminate |].
  unfold fmt01. cbn [all_digits]. rewrite digit_char_is_digit. reflexivity.
Qed.

(* ================================================================== *)
(** ** The date parser                                             *)
(* ================================================================== *)

Lemma valid_date_iff d :
  valid_date d <->
  1 <= year d <= 9999 /\ valid_ymd (year d) (month d) (day d).
Proof.
  destruct d as [y m dd]. unfold valid_date, valid_ymd. cbn [year month day].
  split.
  - unfold date_new, MINYEAR, MAXYEAR.
    destruct (Z.leb_spec 1 y), (Z.leb_spec y 9999); cbn [andb negb]; try discriminate.
    destruct (Z.leb_spec 1 m), (Z.leb_spec m 12); cbn [andb negb]; try discriminate.
    destruct (Z.leb_spec 1 dd), (Z.leb_spec dd (_days_in_month y m));
      cbn [andb negb]; try discriminate.
    intros _. lia.
  - intros [Hy Hv]. apply date_new_ok; assumption.
Qed.

Lemma days_in_month_le_31 y m d : valid_ymd y m d -> 1 <= d <= 31.
Proof.
  intros [Hm Hd]. change (_days_in_month y m) with (dim_l (isleap y) m) in Hd.
  assert (H : forall_below 13 (fun m => dim_l (isleap y) m <=? 31) = true)
    by (destruct (isleap y); vm_compute; reflexivity).
  pose proof (forall_below_spec _ _ H m ltac:(lia)) as H'. cbv beta in H'. lia.
Qed.

Lemma common_dashed_shape (y1 y2 y3 y4 m1 m2 d1 d2 : ascii) :
  _parse_isodate_common
    (String y1 (String y2 (String y3 (String y4 (String "-"
      (String m1 (String m2 (String "-" (String d1 (String d2 ""))))))))))
  = (y <- int (String y1 (String y2 (String y3 (String y4 "")))) ;;
     m <- int (String m1 (String m2 "")) ;;
     d <- int (String d1 (String d2 "")) ;;
     Ok ([VInt y; VInt m; VInt d], 10)).
Proof. reflexivity. Qed.

Lemma common_undashed_shape (y1 y2 y3 y4 m1 m2 d1 d2 : ascii) :
  ch_eqb m1 "-" = false ->
  _parse_isodate_common
    (String y1 (String y2 (String y3 (String y4
      (String m1 (String m2 (String d1 (String d2 ""))))))))
  = (y <- int (String y1 (String y2 (String y3 (String y4 "")))) ;;
     m <- int (String m1 (String m2 "")) ;;
     d <- int (String d1 (String d2 "")) ;;
     Ok ([VInt y; VInt m; VInt d], 8)).
Proof.
  intros H. unfold _parse_isodate_common.
  change (len _) with 8. cbn [Z.ltb Z.compare Z.leb Pos.compare Pos.compare_cont].
  change (index _ 4) with (Ok m1). cbn [bind]. rewrite H. reflexivity.
Qed.

Lemma digit_char_not_dash d : ch_eqb (digit_char d) "-" = false.
Proof. apply (digit_facts _ (digit_char_is_digit d)). Qed.

Lemma parse_isodate_dashed self y m d :
  1 <= y <= 9999 -> valid_ymd y m d ->
  parse_isodate self (fmt04 y ++ "-" ++ fmt02 m ++ "-" ++ fmt02 d) = Ok (mkdate y m d).
Proof.
  intros Hy Hv. pose proof (days_in_month_le_31 _ _ _ Hv) as Hd.
  destruct Hv as [Hm Hdd].
  unfold parse_isodate, _parse_isodate.
  unfold fmt04 at 1, fmt02 at 1 2. cbn [append].
  rewrite common_dashed_shape.
  change (String (digit_char (y / 1000)) _) with (fmt04 y).
  change (String (digit_char (m / 10)) _) with (fmt02 m).
  change (String (digit_char (d / 10)) _) with (fmt02 d).
  rewrite int_fmt04, !int_fmt02 by lia.
  cbn [bind try_except_ValueError date_of].
  apply date_new_ok; [lia | split; assumption].
Qed.

Lemma parse_isodate_undashed self y m d :
  1 <= y <= 9999 -> valid_ymd y m d ->
  parse_isodate self (fmt04 y ++ fmt02 m ++ fmt02 d) = Ok (mkdate y m d).
Proof.
  intros Hy Hv. pose proof (days_in_month_le_31 _ _ _ Hv) as Hd.
  destruct Hv as [Hm Hdd].
  unfold parse_isodate, _parse_isodate.
  unfold fmt04 at 1, fmt02 at 1 2. cbn [append].
  rewrite common_undashed_shape by apply digit_char_not_dash.
  change (String (digit_char (y / 1000)) _) with (fmt04 y).
  change (String (digit_char (m / 10)) _) with (fmt02 m).
  change (String (digit_char (d / 10)) _) with (fmt02 d).
  rewrite int_fmt04, !int_fmt02 by lia.
  cbn [bind try_except_ValueError date_of].
  apply date_new_ok; [lia | split; assumption].
Qed.

(** *** Week dates *)

Lemma common_week_shape (y1 y2 y3 y4 w1 w2 d1 : ascii) v :
  int (String y1 (String y2 (String y3 (String y4 "")))) = Ok v ->
  _parse_isodate_common
    (String y1 (String y2 (String y3 (String y4 (String "-"
      (String "W" (String w1 (String w2 (String "-" (String d1 ""))))))))))
  = Raise ValueError.
Proof.
  intros H. unfold _parse_isodate_common.
  change (len _) with 10. cbn [Z.ltb Z.compare Z.leb Pos.compare Pos.compare_cont].
  change (slice _ 0 4) with (String y1 (String y2 (String y3 (String y4 "")))).
  rewrite H. reflexivity.
Qed.

Lemma uncommon_week_shape self (y1 y2 y3 y4 w1 w2 d1 : ascii) :
  ch_eqb y1 "-" = false ->
  _parse_isodate_uncommon self
    (String y1 (String y2 (String y3 (String y4 (String "-"
      (String "W" (String w1 (String w2 (String "-" (String d1 ""))))))))))
  = (y <- int (String y1 (String y2 (String y3 (String y4 "")))) ;;
     w <- int (String w1 (String w2 "")) ;;
     d <- int_of_char d1 ;;
     base_date <- _calculate_weekdate y w d ;;
     Ok ([VInt (year base_date); VInt (month base_date); VInt (day base_date)], 10)).
Proof.
  intros H. unfold _parse_isodate_uncommon.
  change (slice _ 0 2) with (String y1 (String y2 "")).
  unfold String.eqb at 1. fold String.eqb.
  change (Ascii.eqb y1 "-") with (ch_eqb y1 "-"). rewrite H.
  change (slice _ 0 4) with (String y1 (String y2 (String y3 (String y4 "")))).
  destruct (int (String y1 _)) as [y|e]; [|reflexivity].
  cbn [bind]. change (index _ 4) with (Ok "-"%char). cbn [bind].
  change (4 + int_of_bool (ch_eqb "-" "-")) with 5.
  change (index _ 5) with (Ok "W"%char). cbn [bind].
  change (ch_eqb "W" "W") with true. cbv iota.
  change (slice _ (5 + 1) (5 + 1 + 2)) with (String w1 (String w2 "")).
  destruct (int (String w1 _)) as [w|e]; [|reflexivity].
  cbn [bind]. change (5 + 1 + 2 <? len _) with true. cbv iota.
  change (index _ (5 + 1 + 2)) with (Ok "-"%char). cbn [bind].
  change (ch_eqb "-" "-") with true. cbv iota.
  change (index _ 4) with (Ok "-"%char). cbn [bind negb].
  change (index _ (5 + 1 + 2 + 1)) with (Ok d1). cbn [bind].
  destruct (int_of_char d1) as [d|e]; [|reflexivity].
  cbn [bind].
  destruct (_calculate_weekdate y w d) as [b|e]; reflexivity.
Qed.

Lemma isoweek1monday_10000 : _isoweek1monday 10000 = 3652062.
Proof. reflexivity. Qed.

Lemma dby_10000 : _days_before_year 10000 = 3652059.
Proof. reflexivity. Qed.

(** What [isocalendar] returns for a value of the [date] type. *)
Lemma isocalendar_valid D :
  valid_date D ->
  let '(iy, iw, id) := isocalendar D in
  1 <= iy <= 9999 /\ 1 <= iw <= 53 /\ 1 <= id <= 7 /\
  toordinal D = _isoweek1monday iy + (iw - 1) * 7 + (id - 1) /\
  1 <= toordinal D <= _MAXORDINAL.
Proof.
  intros HD. apply valid_date_iff in HD as [Hy Hv].
  destruct D as [y m d]. cbn [year month day] in *.
  pose proof (isocalendar_spec _ _ _ Hv) as Hs. cbv zeta in Hs.
  pose proof (ymd2ord_in_year _ _ _ Hv) as Ho.
  pose proof (dby_range y Hy) as Hr.
  pose proof (dby_mono (y + 1) 10000 ltac:(lia)) as Hmax. rewrite dby_10000 in Hmax.
  unfold toordinal. cbn [year month day].
  destruct (isocalendar (mkdate y m d)) as [[iy iw] id].
  destruct Hs as (Hint & Hord & Hw & Hid & Hiy).
  pose proof (isoweek1monday_step iy) as Hstep.
  assert (Hiy1 : 1 <= iy).
  { destruct (Z.eq_dec iy 0) as [-> | Hne]; [|lia].
    change (_isoweek1monday (0 + 1)) with 1 in Hint. lia. }
  assert (Hiy2 : iy <= 9999).
  { destruct (Z.eq_dec iy 10000) as [-> | Hne]; [|lia].
    rewrite isoweek1monday_10000 in Hint. lia. }
  unfold _MAXORDINAL. repeat split; try lia.
Qed.

Lemma calculate_weekdate_isocalendar D :
  valid_date D ->
  let '(iy, iw, id) := isocalendar D in
  _calculate_weekdate iy iw id = Ok D.
Proof.
  intros HD. pose proof (isocalendar_valid D HD) as H.
  destruct (isocalendar D) as [[iy iw] id].
  destruct H as (Hiy & Hiw & Hid & Hord & Hrange).
  rewrite calculate_weekdate_ord by assumption. cbv zeta.
  rewrite <- Hord.
  destruct (Z.leb_spec (toordinal D) _MAXORDINAL); [|lia].
  rewrite fromordinal_toordinal; [reflexivity|].
  apply valid_date_iff. exact HD.
Qed.

Lemma parse_isodate_week self iy iw id D :
  1 <= iy <= 9999 -> 1 <= iw <= 53 -> 1 <= id <= 7 ->
  valid_date D ->
  _calculate_weekdate iy iw id = Ok D ->
  parse_isodate self (iso_week_string iy iw id) = Ok D.
Proof.
  intros Hiy Hiw Hid HD Hcalc.
  unfold parse_isodate, _parse_isodate, iso_week_string.
  unfold fmt04, fmt02, fmt01. cbn [append].
  rewrite (common_week_shape _ _ _ _ _ _ _ iy)
    by (change (String (digit_char (iy / 1000)) _) with (fmt04 iy); apply int_fmt04; lia).
  cbn [try_except_ValueError].
  rewrite uncommon_week_shape by apply digit_char_not_dash.
  change (String (digit_char (iy / 1000)) _) with (fmt04 iy).
  change (String (digit_char (iw / 10)) _) with (fmt02 iw).
  change (int_of_char (digit_char id)) with (int (fmt01 id)).
  rewrite int_fmt04, int_fmt02, int_fmt01 by lia.
  cbn [bind]. rewrite Hcalc. cbn [bind date_of]. exact HD.
Qed.

(** *** Years of 52 weeks *)

Lemma dec_28_valid y : valid_ymd y 12 28.
Proof. split; [lia|]. rewrite days_in_month_12. lia. Qed.

Lemma ymd2ord_dec_28 y : _ymd2ord y 12 28 = _days_before_year (y + 1) - 3.
Proof.
  unfold _ymd2ord. rewrite days_before_month_12, dby_succ. lia.
Qed.

Lemma iso_weeks_in_year_52 y :
  iso_weeks_in_year y = 52 <->
  _isoweek1monday (y + 1) = _isoweek1monday y + 364.
Proof.
  unfold iso_weeks_in_year.
  pose proof (isoweek1monday_spec y) as [_ Hb].
  pose proof (isoweek1monday_spec (y + 1)) as [_ Hb'].
  pose proof (dby_succ_bounds y) as Hs.
  pose proof (isoweek1monday_step y) as Hstep.
  rewrite (isocalendar_unique y 12 28 y (dec_28_valid y))
    by (rewrite ymd2ord_dec_28; lia).
  rewrite ymd2ord_dec_28.
  split; intros H; Z.to_euclidean_division_equations; lia.
Qed.

Lemma iso_weeks_in_year_53 y :
  iso_weeks_in_year y = 53 <->
  _isoweek1monday (y + 1) = _isoweek1monday y + 371.
Proof.
  unfold iso_weeks_in_year.
  pose proof (isoweek1monday_spec y) as [_ Hb].
  pose proof (isoweek1monday_spec (y + 1)) as [_ Hb'].
  pose proof (dby_succ_bounds y) as Hs.
  pose proof (isoweek1monday_step y) as Hstep.
  rewrite (isocalendar_unique y 12 28 y (dec_28_valid y))
    by (rewrite ymd2ord_dec_28; lia).
  rewrite ymd2ord_dec_28.
  split; intros H; Z.to_euclidean_division_equations; lia.
Qed.

(** The date of an ordinal lies in a year of the [date] type, and its ISO
    triple is that of the ISO year whose weeks contain the ordinal. *)
Lemma isocalendar_fromordinal o Y :
  1 <= o <= _MAXORDINAL ->
  _isoweek1monday Y <= o < _isoweek1monday (Y + 1) ->
  valid_date (fromordinal o) /\
  isocalendar (fromordinal o)
  = (Y, (o - _isoweek1monday Y) / 7 + 1, (o - _isoweek1monday Y) mod 7 + 1).
Proof.
  intros Ho HY.
  pose proof (fromordinal_valid o) as Hv. cbv zeta in Hv.
  pose proof (toordinal_fromordinal o) as Hto.
  destruct (fromordinal o) as [y m d]. cbn [year month day] in *.
  unfold toordinal in Hto. cbn [year month day] in Hto.
  pose proof (ymd2ord_in_year _ _ _ Hv) as Hin. rewrite Hto in Hin.
  assert (Hy : 1 <= y <= 9999).
  { unfold _MAXORDINAL in Ho. split.
    - destruct (Z_le_gt_dec y 0) as [Hle | Hgt]; [|lia].
      pose proof (dby_mono (y + 1) 1 ltac:(lia)).
      change (_days_before_year 1) with 0 in *. lia.
    - destruct (Z_le_gt_dec 10000 y) as [Hle | Hgt]; [|lia].
      pose proof (dby_mono 10000 y ltac:(lia)). rewrite dby_10000 in *. lia. }
  split.
  - apply valid_date_iff. cbn [year month day]. split; assumption.
  - rewrite (isocalendar_unique y m d Y Hv) by (rewrite Hto; exact HY).
    rewrite Hto. reflexivity.
Qed.

Lemma default_year_for_spec dy m d :
  _default_year_for dy m d = yearless_year dy m d.
Proof.
  unfold _default_year_for, yearless_year, leap_year_back. cbv zeta.
  destruct ((m =? 2) && (d =? 29)); [|reflexivity].
  destruct ((dy - dy mod 4) mod 400 =? 0), ((dy - dy mod 4) mod 100 =? 0); reflexivity.
Qed.

Lemma leap_year_back_greatest dy :
  isleap (leap_year_back dy) = true /\ leap_year_back dy <= dy /\
  forall z, leap_year_back dy < z <= dy -> isleap z = false.
Proof.
  unfold leap_year_back. cbv zeta.
  set (c := dy - dy mod 4).
  assert (Hc : c mod 4 = 0 /\ c <= dy < c + 4)
    by (subst c; Z.to_euclidean_division_equations; lia).
  destruct Hc as [Hc4 Hcr].
  destruct (Z.eqb_spec (c mod 100) 0) as [H100 | H100];
    [destruct (Z.eqb_spec (c mod 400) 0) as [H400 | H400] |]; cbn [andb negb].
  - repeat split; [| lia |].
    + unfold isleap. rewrite Hc4, H400. cbn. rewrite orb_true_r. reflexivity.
    + intros z Hz. unfold isleap.
      destruct (Z.eqb_spec (z mod 4) 0) as [Hz4 | Hz4]; [|reflexivity].
      exfalso. Z.to_euclidean_division_equations. lia.
  - repeat split; [| lia |].
    + unfold isleap.
      destruct (Z.eqb_spec ((c - 4) mod 4) 0) as [Hz4 | Hz4];
        [| exfalso; Z.to_euclidean_division_equations; lia].
      destruct (Z.eqb_spec ((c - 4) mod 100) 0) as [Hz100 | Hz100];
        [exfalso; Z.to_euclidean_division_equations; lia | reflexivity].
    + intros z Hz. unfold isleap.
      destruct (Z.eqb_spec (z mod 4) 0) as [Hz4 | Hz4]; [|reflexivity].
      assert (z = c) by (Z.to_euclidean_division_equations; lia). subst z.
      destruct (Z.eqb_spec (c mod 100) 0); [|lia].
      destruct (Z.eqb_spec (c mod 400) 0); [lia|]. reflexivity.
  - repeat split; [| lia |].
    + unfold isleap. rewrite Hc4.
      destruct (Z.eqb_spec (c mod 100) 0); [lia|]. reflexivity.
    + intros z Hz. unfold isleap.
      destruct (Z.eqb_spec (z mod 4) 0) as [Hz4 | Hz4]; [|reflexivity].
      exfalso. Z.to_euclidean_division_equations. lia.
Qed.

Lemma leap_year_back_range dy :
  4 <= dy <= 9999 -> 1 <= leap_year_back dy <= 9999.
Proof.
  intros H. unfold leap_year_back. cbv zeta.
  destruct (Z.eqb_spec ((dy - dy mod 4) mod 100) 0);
    destruct (Z.eqb_spec ((dy - dy mod 4) mod 400) 0); cbn [andb negb];
    Z.to_euclidean_division_equations; lia.
Qed.

Lemma slice_prefix s b :
  0 <= b <= len s -> slice s 0 b = take (Z.to_nat b) s.
Proof.
  intros H. unfold slice. rewrite !clamp_nonneg by lia.
  replace (Z.min 0 (len s)) with 0 by lia.
  replace (Z.min b (len s)) with b by lia.
  cbn [Z.to_nat drop]. f_equal. lia.
Qed.

Lemma int_two_signs s : int (String "-" (String "-" s)) = Raise ValueError.
Proof. reflexivity. Qed.

Lemma common_yearless (s : string) :
  _parse_isodate_common (String "-" (String "-" s)) = Raise ValueError.
Proof.
  unfold _parse_isodate_common.
  destruct (Z.ltb_spec (len (String "-" (String "-" s))) 4) as [Hlt | Hge];
    [reflexivity|].
  rewrite slice_prefix by lia.
  change (Z.to_nat 4) with 4%nat. cbn [take].
  rewrite int_two_signs. reflexivity.
Qed.

Lemma uncommon_yearless_dashed self (m1 m2 d1 d2 : ascii) :
  _parse_isodate_uncommon self
    (String "-" (String "-" (String m1 (String m2 (String "-"
      (String d1 (String d2 "")))))))
  = (m <- int (String m1 (String m2 "")) ;;
     d <- int (String d1 (String d2 "")) ;;
     Ok ([VInt (_default_year_for (_default_year self) m d); VInt m; VInt d], 7)).
Proof. reflexivity. Qed.

Lemma uncommon_yearless_undashed self (m1 m2 d1 d2 : ascii) :
  ch_eqb d1 "-" = false ->
  _parse_isodate_uncommon self
    (String "-" (String "-" (String m1 (String m2 (String d1 (String d2 ""))))))
  = (m <- int (String m1 (String m2 "")) ;;
     d <- int (String d1 (String d2 "")) ;;
     Ok ([VInt (_default_year_for (_default_year self) m d); VInt m; VInt d], 6)).
Proof.
  intros H. unfold _parse_isodate_uncommon.
  change (String.eqb (slice _ 0 2) "--") with true. cbv iota.
  change (slice _ 2 4) with (String m1 (String m2 "")).
  destruct (int (String m1 _)) as [m|e]; [|reflexivity]. cbn [bind].
  change (index _ 4) with (Ok d1). cbn [bind]. rewrite H. reflexivity.
Qed.

Lemma parse_isodate_yearless self m d :
  0 <= m < 100 -> 0 <= d < 100 ->
  let yr := yearless_year (_default_year self) m d in
  _parse_isodate self ("--" ++ fmt02 m ++ "-" ++ fmt02 d)
    = Ok ([VInt yr; VInt m; VInt d], 7) /\
  _parse_isodate self ("--" ++ fmt02 m ++ fmt02 d)
    = Ok ([VInt yr; VInt m; VInt d], 6).
Proof.
  intros Hm Hd yr. unfold _parse_isodate, fmt02. cbn [append].
  rewrite !common_yearless. cbn [try_except_ValueError].
  rewrite uncommon_yearless_dashed.
  rewrite uncommon_yearless_undashed by apply digit_char_not_dash.
  change (String (digit_char (m / 10)) _) with (fmt02 m).
  change (String (digit_char (d / 10)) _) with (fmt02 d).
  rewrite !int_fmt02 by lia. cbn [bind].
  rewrite default_year_for_spec. split; reflexivity.
Qed.

(** *** Zone tokens *)

Lemma tz_colon_shape neg (h1 h2 m1 m2 : ascii) zu :
  parse_tzstr (sign_char neg ++ String h1 (String h2 (String ":" (String m1 (String m2 ""))))) zu
  = (hours <- int (String h1 (String h2 "")) ;;
     minutes <- int (String m1 (String m2 "")) ;;
     tz_result zu (sign_mult neg) hours minutes).
Proof. destruct neg; reflexivity. Qed.

Lemma tz_compact_shape neg (h1 h2 m1 m2 : ascii) zu :
  ch_eqb m1 ":" = false ->
  parse_tzstr (sign_char neg ++ String h1 (String h2 (String m1 (String m2 "")))) zu
  = (hours <- int (String h1 (String h2 "")) ;;
     minutes <- int (String m1 (String m2 "")) ;;
     tz_result zu (sign_mult neg) hours minutes).
Proof.
  intros H. unfold parse_tzstr.
  destruct neg; cbn [sign_char append];
    change (String.eqb _ "Z") with false; cbv iota;
    change (existsb _ _) with true; cbn [negb];
    match goal with |- context [index ?s 0] =>
      let c := eval vm_compute in (index s 0) in change (index s 0) with c end;
    cbn [bind];
    change (slice _ 1 3) with (String h1 (String h2 ""));
    (destruct (int (String h1 _)); [|reflexivity]); cbn [bind];
    change (len _ =? 3) with false; cbv iota;
    change (index _ 3) with (Ok m1); cbn [bind]; rewrite H; reflexivity.
Qed.

Lemma tz_short_shape neg (h1 h2 : ascii) zu :
  parse_tzstr (sign_char neg ++ String h1 (String h2 "")) zu
  = (hours <- int (String h1 (String h2 "")) ;;
     tz_result zu (sign_mult neg) hours 0).
Proof. destruct neg; reflexivity. Qed.

Lemma parse_tzstr_token neg h m zu tok :
  0 <= h < 100 -> 0 <= m < 100 -> In tok (tz_tokens neg h m) ->
  parse_tzstr tok zu = tz_result zu (sign_mult neg) h m.
Proof.
  intros Hh Hm Hin.
  pose proof (int_fmt02 h Hh) as Ih. pose proof (int_fmt02 m Hm) as Im.
  unfold tz_tokens in Hin. unfold fmt02 in *.
  apply in_app_or in Hin as [[<- | [<- | []]] | Hin].
  - cbn [append]. rewrite tz_colon_shape, Ih, Im. reflexivity.
  - cbn [append].
    rewrite tz_compact_shape
      by apply (digit_facts _ (digit_char_is_digit (m / 10))).
    rewrite Ih, Im. reflexivity.
  - destruct (Z.eqb_spec m 0) as [-> | Hne]; [|destruct Hin].
    destruct Hin as [<- | []].
    rewrite tz_short_shape, Ih. reflexivity.
Qed.

(* ================================================================== *)
(** ** The time parser                                             *)
(* ================================================================== *)

Lemma set_item_shape_int components comp v components' :
  time_shape components -> 0 <= comp <= 3 ->
  set_item components comp (VInt v) = Ok components' ->
  time_shape components'.
Proof.
  intros (h & mi & s & us & z & -> & Hz) Hc H.
  assert (Hcases : comp = 0 \/ comp = 1 \/ comp = 2 \/ comp = 3) by lia.
  destruct Hcases as [-> | [-> | [-> | ->]]]; cbn in H; injection H as <-;
    unfold time_shape; eauto 10.
Qed.

Lemma set_item_shape_tz components t components' :
  time_shape components ->
  set_item components (-1) (VTz t) = Ok components' ->
  time_shape components'.
Proof.
  intros (h & mi & s & us & z & -> & Hz) H. cbn in H. injection H as <-.
  unfold time_shape; eauto 10.
Qed.

Ltac loop_cases IH :=
  repeat match goal with
    | |- context [Z.ltb ?a ?b] => destruct (Z.ltb_spec a b)
    | |- context [Z.eqb ?a ?b] => destruct (Z.eqb_spec a b)
    | |- _ => progress cbn [andb negb bind]
    | |- context [match index ?s ?i with _ => _ end] => destruct (index s i) eqn:?
    | |- context [bind (index ?s ?i) _] => destruct (index s i) eqn:?
    | |- context [bind (int ?s) _] => destruct (int s) eqn:?
    | |- context [bind (parse_tzstr ?s ?b) _] => destruct (parse_tzstr s b) eqn:?
    | |- context [bind (set_item ?l ?i ?v) _] => destruct (set_item l i v) eqn:?
    | |- context [if in_tz_chars ?c then _ else _] => destruct (in_tz_chars c) eqn:?
    | |- context [ch_eqb ?c ?d] => destruct (ch_eqb c d) eqn:?
    | |- context [if ?b then _ else _] => is_var b; destruct b
    end.

(** The loop keeps the form of the component list. *)
Lemma _parse_isotime_loop_shape fuel timestr has_sep :
  forall components pos comp r p,
    -1 <= comp -> time_shape components ->
    _parse_isotime_loop fuel timestr has_sep components pos comp = Ok (r, p) ->
    time_shape r.
Proof.
  induction fuel as [|fuel IH]; intros components pos comp r p Hc Hs;
    cbn [_parse_isotime_loop].
  - intros H. injection H as <- _. exact Hs.
  - destruct has_sep; loop_cases IH; intros Hres; try lia; try discriminate Hres;
      try (injection Hres as <- _; first [exact Hs | eapply set_item_shape_tz; eassumption]);
      try (eapply IH; [| | exact Hres]; [lia|];
           first [exact Hs | eapply set_item_shape_int; [exact Hs | | eassumption]; lia]).

Qed.

(** Fuel: a round more changes nothing once the fuel covers the rounds
    that [comp < 5] leaves, so that the six rounds of [_parse_isotime_scan]
    never cut the loop short. *)
Lemma _parse_isotime_loop_fuel fuel timestr has_sep :
  forall components pos comp,
    5 - comp <= Z.of_nat fuel ->
    _parse_isotime_loop (S fuel) timestr has_sep components pos comp
    = _parse_isotime_loop fuel timestr has_sep components pos comp.
Proof.
  induction fuel as [|fuel IH]; intros components pos comp Hc.
  - cbn [_parse_isotime_loop].
    destruct (Z.ltb_spec comp 5); [lia|]. rewrite andb_false_r. reflexivity.
  - pose (g := S fuel). assert (Hg : g = S fuel) by reflexivity. clearbody g.
    rewrite <- Hg at 1. cbn [_parse_isotime_loop].
    destruct has_sep; loop_cases IH; try reflexivity; try lia; subst g; apply IH; lia.
Qed.

Lemma _parse_isotime_loop_fuel_enough k timestr has_sep components pos :
  _parse_isotime_loop (6 + k) timestr has_sep components pos (-1)
  = _parse_isotime_loop 6 timestr has_sep components pos (-1).
Proof.
  induction k as [|k IH].
  - reflexivity.
  - rewrite <- IH. replace (6 + S k)%nat with (S (6 + k)) by lia.
    apply _parse_isotime_loop_fuel. lia.
Qed.

(** Every successful scan returns four integers and the zone. *)
Lemma _parse_isotime_scan_shape timestr components :
  _parse_isotime_scan timestr = Ok components -> time_shape components.
Proof.
  unfold _parse_isotime_scan. intros H.
  destruct (_time_has_sep timestr) as [hs|e]; [|discriminate H]. cbn [bind] in H.
  destruct (_parse_isotime_loop 6 timestr hs _ 0 (-1)) as [[r p]|e] eqn:Hl;
    [|discriminate H].
  cbn [bind] in H. destruct (p <? len timestr); [discriminate H|].
  injection H as <-.
  eapply _parse_isotime_loop_shape; [| | exact Hl]; [lia|].
  unfold time_shape; eauto 10.
Qed.

Lemma index_in_range s i : 0 <= i < len s -> exists c, index s i = Ok c.
Proof.
  revert i. induction s as [|c s IH]; intros i Hi.
  - unfold len in Hi. cbn in Hi. lia.
  - rewrite len_cons in Hi. destruct (Z.eq_dec i 0) as [-> | Hne].
    + exists c. apply index_cons_0.
    + rewrite index_cons_pos by lia. apply IH. lia.
Qed.

Section Rounds.

Variables (fuel : nat) (timestr : string) (has_sep : bool).
Variables (components : list pyval) (pos : Z).

Lemma loop_exit comp :
  len timestr <= pos ->
  _parse_isotime_loop (S fuel) timestr has_sep components pos comp
  = Ok (components, pos).
Proof.
  intros H. cbn [_parse_isotime_loop].
  destruct (Z.ltb_spec pos (len timestr)); [lia | reflexivity].
Qed.

Lemma loop_zone comp c :
  pos < len timestr -> comp < 5 ->
  index timestr pos = Ok c -> in_tz_chars c = true ->
  _parse_isotime_loop (S fuel) timestr has_sep components pos comp
  = (z <- parse_tzstr (slice_from timestr pos) true ;;
     components <- set_item components (-1) (VTz z) ;;
     Ok (components, len timestr)).
Proof.
  intros Hp Hc Hi Hz. cbn [_parse_isotime_loop].
  destruct (Z.ltb_spec pos (len timestr)); [|lia].
  destruct (Z.ltb_spec comp 5); [|lia]. cbn [andb negb].
  rewrite Hi. cbn [bind]. rewrite Hz. reflexivity.
Qed.

Lemma loop_field comp c v components' :
  0 <= pos < len timestr -> comp + 1 < 3 ->
  index timestr pos = Ok c -> in_tz_chars c = false ->
  int (slice timestr pos (pos + 2)) = Ok v ->
  set_item components (comp + 1) (VInt v) = Ok components' ->
  _parse_isotime_loop (S fuel) timestr has_sep components pos comp
  = _parse_isotime_loop fuel timestr has_sep components'
      (next_pos timestr has_sep (pos + 2)) (comp + 1).
Proof.
  intros Hp Hc Hi Hz Hv Hset. cbn [_parse_isotime_loop].
  destruct (Z.ltb_spec pos (len timestr)); [|lia].
  destruct (Z.ltb_spec comp 5); [|lia]. cbn [andb negb].
  rewrite Hi. cbn [bind]. rewrite Hz.
  destruct (Z.ltb_spec (comp + 1) 3); [|lia].
  rewrite Hv. cbn [bind]. rewrite Hset. cbn [bind].
  destruct (Z.eqb_spec (comp + 1) 3); [lia|].
  unfold next_pos.
  destruct (has_sep && (pos + 2 <? len timestr)) eqn:Hs; [|reflexivity].
  apply andb_true_iff in Hs as [_ Hlt]. apply Z.ltb_lt in Hlt.
  destruct (index_in_range timestr (pos + 2) ltac:(lia)) as [c' ->].
  reflexivity.
Qed.

Lemma loop_fraction c :
  pos < len timestr -> index timestr pos = Ok c -> ch_eqb c "." = true ->
  _parse_isotime_loop (S fuel) timestr has_sep components pos 2
  = (let us_str :=
       _MICROSECOND_END_REGEX_split_0 (slice timestr (pos + 1) (pos + 1 + 6)) in
     v <- int us_str ;;
     components <- set_item components 3 (VInt (v * 10 ^ (6 - len us_str))) ;;
     _parse_isotime_loop fuel timestr has_sep components
       (pos + 1 + len us_str) 3).
Proof.
  intros Hp Hi Hdot. cbn [_parse_isotime_loop].
  destruct (Z.ltb_spec pos (len timestr)); [|lia].
  change (2 <? 5) with true. cbn [andb negb].
  rewrite Hi. cbn [bind].
  assert (Hz : in_tz_chars c = false).
  { destruct c as [[] [] [] [] [] [] [] []]; try discriminate Hdot; reflexivity. }
  rewrite Hz. change (2 + 1) with 3. change (3 <? 3) with false. cbv iota.
  cbn [bind]. change (3 =? 3) with true. cbv iota.
  rewrite Hi. cbn [bind]. rewrite Hdot. reflexivity.
Qed.

Lemma loop_no_fraction c :
  pos < len timestr -> index timestr pos = Ok c ->
  in_tz_chars c = false -> ch_eqb c "." = false ->
  _parse_isotime_loop (S fuel) timestr has_sep components pos 2
  = _parse_isotime_loop fuel timestr has_sep components pos 3.
Proof.
  intros Hp Hi Hz Hdot. cbn [_parse_isotime_loop].
  destruct (Z.ltb_spec pos (len timestr)); [|lia].
  change (2 <? 5) with true. cbn [andb negb].
  rewrite Hi. cbn [bind]. rewrite Hz.
  change (2 + 1) with 3. change (3 <? 3) with false. cbv iota.
  cbn [bind]. change (3 =? 3) with true. cbv iota.
  rewrite Hi. cbn [bind]. rewrite Hdot. reflexivity.
Qed.

Lemma loop_idle comp c :
  pos < len timestr -> 3 <= comp < 5 ->
  index timestr pos = Ok c -> in_tz_chars c = false ->
  _parse_isotime_loop (S fuel) timestr has_sep components pos comp
  = _parse_isotime_loop fuel timestr has_sep components pos (comp + 1).
Proof.
  intros Hp Hc Hi Hz. cbn [_parse_isotime_loop].
  destruct (Z.ltb_spec pos (len timestr)); [|lia].
  destruct (Z.ltb_spec comp 5); [|lia]. cbn [andb negb].
  rewrite Hi. cbn [bind]. rewrite Hz.
  destruct (Z.ltb_spec (comp + 1) 3); [lia|]. cbn [bind].
  destruct (Z.eqb_spec (comp + 1) 3); [lia | reflexivity].
Qed.

End Rounds.

(** Lengths of strings with an explicit spine. *)
Ltac explicit_len :=
  rewrite ?len_app;
  repeat match goal with
    | |- context [len (String ?c ?s)] =>
        let v := eval vm_compute in (len (String c s)) in
        change (len (String c s)) with v
    end.

Lemma starts_with_index s c :
  s <> "" -> starts_with_char s c = false ->
  exists c', index s 0 = Ok c' /\ ch_eqb c' c = false.
Proof.
  destruct s as [|c' s]; [congruence|]. intros _ H. cbn in H.
  exists c'. rewrite index_cons_0. auto.
Qed.

(** One round of the loop over a two-digit field of an explicit prefix. *)
Ltac field_round c v Hc Hv :=
  erewrite (loop_field _ _ _ _ _ _ c v);
  [ | explicit_len; lia | lia
    | rewrite index_app_l by (explicit_len; lia); reflexivity
    | exact Hc
    | rewrite slice_app_l by (explicit_len; lia); exact Hv
    | reflexivity ].

(** The [:] after the field is consumed. *)
Ltac colon_after p :=
  match goal with
  | |- context [next_pos ?ts true ?q] =>
      replace (next_pos ts true q) with p;
      [| unfold next_pos; cbn [andb]; explicit_len;
         match goal with
         | |- context [Z.ltb ?a ?b] => destruct (Z.ltb_spec a b); [|lia]
         end;
         rewrite index_app_l by (explicit_len; lia); reflexivity]
  end.

Section Fields.

Variables (h1 h2 m1 m2 s1 s2 : ascii) (h mi s : Z) (rest : string).
Hypothesis Hh1 : in_tz_chars h1 = false.
Hypothesis Hm1 : in_tz_chars m1 = false.
Hypothesis Hs1 : in_tz_chars s1 = false.
Hypothesis Hm1c : ch_eqb m1 ":" = false.
Hypothesis Hh : int (String h1 (String h2 "")) = Ok h.
Hypothesis Hmi : int (String m1 (String m2 "")) = Ok mi.
Hypothesis Hs : int (String s1 (String s2 "")) = Ok s.

Let hh := String h1 (String h2 "").
Let mm := String m1 (String m2 "").
Let ss := String s1 (String s2 "").

Lemma hms_rounds f :
  at_cursor f rest = true ->
  let pre := hms_string f hh mm ss in
  _time_has_sep (pre ++ rest) = Ok (hms_has_sep f) /\
  _parse_isotime_loop 6 (pre ++ rest) (hms_has_sep f) time_init 0 (-1)
  = _parse_isotime_loop 3 (pre ++ rest) (hms_has_sep f)
      [VInt h; VInt mi; VInt s; VInt 0; VNone] (len pre) 2.
Proof.
  intros Hcur pre. pose proof (len_nonneg rest) as Hrest.
  destruct f; cbn [hms_has_sep];
    (let v := eval cbv [pre hms_string append hh mm ss] in pre in
     change pre with v in *; clear pre).
  - (* hh:mm:ss *)
    split.
    + unfold _time_has_sep. explicit_len.
      destruct (Z.leb_spec 3 (8 + len rest)); [|lia].
      rewrite index_app_l by (explicit_len; lia). reflexivity.
    + field_round h1 h Hh1 Hh. colon_after 3.
      field_round m1 mi Hm1 Hmi. colon_after 6.
      field_round s1 s Hs1 Hs.
      replace (next_pos _ true (6 + 2)) with 8; [reflexivity|].
      unfold next_pos. cbn [andb]. explicit_len.
      destruct (Z.ltb_spec (6 + 2) (8 + len rest)) as [Hlt | Hge]; [|reflexivity].
      rewrite index_app_r by (explicit_len; lia). explicit_len.
      change (6 + 2 - 8) with 0.
      apply negb_true_iff in Hcur.
      destruct (starts_with_index rest ":" ) as (c' & -> & ->); [|exact Hcur|reflexivity].
      intros ->. change (len "") with 0 in Hlt. lia.
  - (* hh:mm:ss: *)
    split.
    + unfold _time_has_sep. explicit_len.
      destruct (Z.leb_spec 3 (9 + len rest)); [|lia].
      rewrite index_app_l by (explicit_len; lia). reflexivity.
    + field_round h1 h Hh1 Hh. colon_after 3.
      field_round m1 mi Hm1 Hmi. colon_after 6.
      field_round s1 s Hs1 Hs. colon_after 9.
      reflexivity.
  - (* hhmmss *)
    split.
    + unfold _time_has_sep. explicit_len.
      destruct (Z.leb_spec 3 (6 + len rest)); [|lia].
      rewrite index_app_l by (explicit_len; lia).
      match goal with |- context [index ?p 2] => change (index p 2) with (Ok m1) end.
      cbn [bind]. rewrite Hm1c. reflexivity.
    + field_round h1 h Hh1 Hh. change (next_pos _ false (0 + 2)) with 2.
      field_round m1 mi Hm1 Hmi. change (next_pos _ false (2 + 2)) with 4.
      field_round s1 s Hs1 Hs. reflexivity.
Qed.

End Fields.

Lemma slice_cons_pos c s a b :
  1 <= a -> a <= b -> slice (String c s) a b = slice s (a - 1) (b - 1).
Proof.
  intros Ha Hab.
  change (String c s) with (String c "" ++ s).
  rewrite slice_app_r by (change (len (String c "")) with 1; lia).
  reflexivity.
Qed.

Lemma slice_empty a b : 0 <= a -> 0 <= b -> slice "" a b = "".
Proof.
  intros Ha Hb. unfold slice. rewrite !clamp_nonneg by lia.
  change (len "") with 0.
  replace (Z.min a 0) with 0 by lia. replace (Z.min b 0) with 0 by lia.
  reflexivity.
Qed.

Lemma split_digits frac x :
  all_digits frac = true ->
  _MICROSECOND_END_REGEX_split_0 (frac ++ x)
  = frac ++ _MICROSECOND_END_REGEX_split_0 x.
Proof.
  induction frac as [|c frac IH]; intros H; cbn [append].
  - reflexivity.
  - cbn [all_digits] in H. apply andb_true_iff in H as [Hc Hf].
    cbn [_MICROSECOND_END_REGEX_split_0].
    destruct (digit_facts c Hc) as (_ & -> & _). rewrite IH by exact Hf. reflexivity.
Qed.

Lemma split_zone_window ztail zcomp k :
  zone_tail ztail zcomp -> 0 <= k ->
  _MICROSECOND_END_REGEX_split_0 (slice ztail 0 k) = "".
Proof.
  intros [[-> _] | (z & Hz & _)] Hk.
  - rewrite slice_empty by lia. reflexivity.
  - destruct ztail as [|c t]; [discriminate Hz|]. cbn [starts_with_tz] in Hz.
    destruct (Z.eq_dec k 0) as [-> | Hne].
    + reflexivity.
    + change (String c t) with (String c "" ++ t).
      rewrite slice_app_span by (change (len (String c "")) with 1; lia).
      rewrite slice_from_0. cbn [append _MICROSECOND_END_REGEX_split_0].
      rewrite Hz. reflexivity.
Qed.

Lemma append_empty_r s : s ++ "" = s.
Proof. induction s as [|c s IH]; cbn [append]; [reflexivity | rewrite IH; reflexivity]. Qed.

Lemma set_item_us h mi s us0 z v :
  set_item [VInt h; VInt mi; VInt s; VInt us0; z] 3 (VInt v)
  = Ok [VInt h; VInt mi; VInt s; VInt v; z].
Proof. reflexivity. Qed.

Lemma set_item_zone h mi s us z t :
  set_item [VInt h; VInt mi; VInt s; VInt us; z] (-1) (VTz t)
  = Ok [VInt h; VInt mi; VInt s; VInt us; VTz t].
Proof. reflexivity. Qed.

Section Tail.

Variables (pre : string) (has_sep : bool) (h mi s : Z).

(** The fraction round and what follows it. *)
Lemma fraction_rounds frac ztail zcomp :
  all_digits frac = true -> 1 <= len frac <= 6 -> zone_tail ztail zcomp ->
  let timestr := pre ++ String "." (frac ++ ztail) in
  _parse_isotime_loop 3 timestr has_sep
    [VInt h; VInt mi; VInt s; VInt 0; VNone] (len pre) 2
  = Ok ([VInt h; VInt mi; VInt s;
         VInt (decimal_value frac * 10 ^ (6 - len frac)); zcomp],
        len timestr).
Proof.
  intros Hd Hlen Hz timestr.
  pose proof (len_nonneg pre) as Hpre. pose proof (len_nonneg ztail) as Hzt.
  assert (Hts : len timestr = len pre + 1 + len frac + len ztail).
  { subst timestr. rewrite len_app, len_cons, len_app. lia. }
  assert (Hdot : index timestr (len pre) = Ok "."%char).
  { subst timestr. rewrite index_app_r by lia. rewrite Z.sub_diag.
    apply index_cons_0. }
  assert (Hlt : len pre < len timestr) by lia.
  rewrite (loop_fraction _ _ _ _ _ "."%char Hlt Hdot eq_refl).
  cbv zeta.
  assert (Hus : _MICROSECOND_END_REGEX_split_0
                  (slice timestr (len pre + 1) (len pre + 1 + 6)) = frac).
  { subst timestr. rewrite slice_app_r by lia.
    rewrite slice_cons_pos by lia.
    replace (len pre + 1 - len pre - 1) with 0 by lia.
    replace (len pre + 1 + 6 - len pre - 1) with 6 by lia.
    rewrite slice_app_span by lia. rewrite slice_from_0.
    rewrite split_digits by exact Hd.
    rewrite (split_zone_window ztail zcomp) by (assumption || lia).
    apply append_empty_r. }
  rewrite Hus.
  rewrite int_all_digits; [| intros ->; change (len "") with 0 in Hlen; lia | exact Hd].
  cbn [bind]. rewrite set_item_us. cbn [bind].
  destruct Hz as [[-> ->] | (z & Hstart & Hparse & ->)].
  - rewrite loop_exit; [| change (len "") with 0 in Hts; lia].
    f_equal. f_equal. change (len "") with 0 in Hts. lia.
  - destruct ztail as [|c t]; [discriminate Hstart|]. cbn [starts_with_tz] in Hstart.
    rewrite len_cons in Hts.
    assert (Hidx : index timestr (len pre + 1 + len frac) = Ok c).
    { subst timestr. rewrite index_app_r by lia.
      rewrite index_cons_pos by lia. rewrite index_app_r by lia.
      replace (len pre + 1 + len frac - len pre - 1 - len frac) with 0 by lia.
      apply index_cons_0. }
    assert (Hsl : slice_from timestr (len pre + 1 + len frac) = String c t).
    { subst timestr. rewrite slice_from_app_r by lia.
      change (String "." (frac ++ String c t))
        with (String "." "" ++ (frac ++ String c t)).
      rewrite slice_from_app_r by (change (len (String "." "")) with 1; lia).
      rewrite slice_from_app_r by (change (len (String "." "")) with 1; lia).
      replace (len pre + 1 + len frac - len pre - len (String "." "") - len frac)
        with 0 by (change (len (String "." "")) with 1; lia).
      apply slice_from_0. }
    pose proof (len_nonneg t).
    assert (Hlt' : len pre + 1 + len frac < len timestr) by lia.
    rewrite (loop_zone _ _ _ _ _ 3 c Hlt' ltac:(lia) Hidx Hstart).
    rewrite Hsl, Hparse. cbn [bind]. rewrite set_item_zone. reflexivity.
Qed.

End Tail.

Lemma digit_char_not_tz d : in_tz_chars (digit_char d) = false.
Proof. apply (digit_facts _ (digit_char_is_digit d)). Qed.

Lemma digit_char_not_colon d : ch_eqb (digit_char d) ":" = false.
Proof. apply (digit_facts _ (digit_char_is_digit d)). Qed.

Lemma hms_text_rounds f h mi s rest :
  0 <= h < 100 -> 0 <= mi < 100 -> 0 <= s < 100 ->
  at_cursor f rest = true ->
  let pre := hms_text f h mi s in
  _time_has_sep (pre ++ rest) = Ok (hms_has_sep f) /\
  _parse_isotime_loop 6 (pre ++ rest) (hms_has_sep f) time_init 0 (-1)
  = _parse_isotime_loop 3 (pre ++ rest) (hms_has_sep f)
      [VInt h; VInt mi; VInt s; VInt 0; VNone] (len pre) 2.
Proof.
  intros Hh Hmi Hs Hcur.
  apply (hms_rounds (digit_char (h / 10)) (digit_char h)
           (digit_char (mi / 10)) (digit_char mi)
           (digit_char (s / 10)) (digit_char s) h mi s rest);
    try apply digit_char_not_tz; try apply digit_char_not_colon;
    try exact Hcur.
  - apply (int_fmt02 h Hh).
  - apply (int_fmt02 mi Hmi).
  - apply (int_fmt02 s Hs).
Qed.

Lemma midnight_other h mi s us z :
  h <> 24 ->
  _midnight [VInt h; VInt mi; VInt s; VInt us; z]
  = Ok [VInt h; VInt mi; VInt s; VInt us; z].
Proof.
  intros H. unfold _midnight, pyval_eqb_int.
  destruct (Z.eqb_spec h 24); [contradiction | reflexivity].
Qed.

Lemma midnight_24 mi s us z :
  _midnight [VInt 24; VInt mi; VInt s; VInt us; z]
  = if (mi =? 0) && (s =? 0) && (us =? 0)
    then Ok [VInt 0; VInt mi; VInt s; VInt us; z]
    else Raise ValueError.
Proof.
  unfold _midnight. change (pyval_eqb_int (VInt 24) 24) with true. cbv iota.
  change (list_slice _ 1 4) with [VInt mi; VInt s; VInt us].
  cbn [existsb pyval_eqb_int].
  destruct (mi =? 0), (s =? 0), (us =? 0); reflexivity.
Qed.

Lemma at_cursor_dot f x : at_cursor f (String "." x) = true.
Proof. destruct f; reflexivity. Qed.

(** The midnight rule, on a scanned hour of 24. *)
Lemma midnight_rule timestr mi s us z :
  _parse_isotime_scan timestr = Ok [VInt 24; VInt mi; VInt s; VInt us; z] ->
  (mi <> 0 \/ s <> 0 \/ us <> 0 ->
   _parse_isotime timestr = Raise ValueError /\
   parse_isotime timestr = Raise ValueError) /\
  (mi = 0 /\ s = 0 /\ us = 0 ->
   _parse_isotime timestr = Ok [VInt 0; VInt 0; VInt 0; VInt 0; z] /\
   (forall tzv, tz_of z = Ok tzv ->
      parse_isotime timestr = Ok (mktime 0 0 0 0 tzv) /\
      forall self dt_str (common_only : bool) y m d pos c,
        (if common_only then _parse_isodate_common dt_str
         else _parse_isodate self dt_str)
          = Ok ([VInt y; VInt m; VInt d], pos) ->
        pos < len dt_str -> index dt_str pos = Ok c ->
        String c "" = _sep self ->
        slice_from dt_str (pos + 1) = timestr ->
        isoparse self dt_str common_only
        = (dd <- date_new y m d ;;
           Ok (mkdatetime dd (mktime 0 0 0 0 tzv))))).
Proof.
  intros Hscan.
  assert (Hp : _parse_isotime timestr
               = if (mi =? 0) && (s =? 0) && (us =? 0)
                 then Ok [VInt 0; VInt mi; VInt s; VInt us; z]
                 else Raise ValueError).
  { unfold _parse_isotime. rewrite Hscan. cbn [bind]. apply midnight_24. }
  split.
  - intros Hnz.
    assert (Hb : (mi =? 0) && (s =? 0) && (us =? 0) = false).
    { destruct (Z.eqb_spec mi 0), (Z.eqb_spec s 0), (Z.eqb_spec us 0);
        try reflexivity. lia. }
    unfold parse_isotime. rewrite Hp, Hb. split; reflexivity.
  - intros (-> & -> & ->). cbn in Hp. split; [exact Hp|].
    intros tzv Htz. split.
    + unfold parse_isotime. rewrite Hp. cbn [bind time_of].
      rewrite Htz. reflexivity.
    + intros self dt_str common_only y m d pos c Hdate Hpos Hidx Hsep Hrest.
      unfold isoparse. rewrite Hdate. cbn [bind].
      destruct (Z.ltb_spec pos (len dt_str)); [|lia].
      rewrite Hidx. cbn [bind]. rewrite Hsep, String.eqb_refl.
      rewrite Hrest, Hp. cbn [bind List.app datetime_of].
      rewrite Htz. cbn [bind]. unfold datetime_new. reflexivity.
Qed.

(** *** The cursor of component 3 *)

Lemma _time_has_sep_ok timestr : exists b, _time_has_sep timestr = Ok b.
Proof.
  unfold _time_has_sep. destruct (Z.leb_spec 3 (len timestr)); [|eauto].
  destruct (index_in_range timestr 2 ltac:(lia)) as [c ->]. cbn [bind]. eauto.
Qed.

Lemma len_take n s : len (take n s) <= Z.of_nat n.
Proof.
  revert s. induction n as [|n IH]; intros s; cbn [take].
  - change (len "") with 0. lia.
  - destruct s as [|c s]; [change (len "") with 0; lia|].
    rewrite len_cons. specialize (IH s). lia.
Qed.

Lemma len_slice s a b : 0 <= a <= b -> len (slice s a b) <= b - a.
Proof.
  intros H. unfold slice. cbv zeta. rewrite !clamp_nonneg by lia.
  pose proof (len_take (Z.to_nat (Z.min b (len s) - Z.min a (len s)))
                (drop (Z.to_nat (Z.min a (len s))) s)).
  lia.
Qed.

Lemma zone_tail_cases ztail zcomp :
  zone_tail ztail zcomp ->
  (ztail = "" /\ zcomp = VNone) \/
  (exists c t z, ztail = String c t /\ in_tz_chars c = true /\
                 parse_tzstr ztail true = Ok z /\ zcomp = VTz z).
Proof.
  intros [H | (z & Hs & Hp & Hz)]; [left; exact H|]. right.
  destruct ztail as [|c t]; [discriminate Hs|]. exists c, t, z. auto.
Qed.

Section Loop.

Variables (timestr : string) (has_sep : bool).

Lemma loop_done fuel components pos comp :
  len timestr <= pos \/ 5 <= comp ->
  _parse_isotime_loop fuel timestr has_sep components pos comp
  = Ok (components, pos).
Proof.
  intros H. destruct fuel as [|fuel]; cbn [_parse_isotime_loop]; [reflexivity|].
  destruct (Z.ltb_spec pos (len timestr)), (Z.ltb_spec comp 5);
    cbn [andb negb]; try reflexivity. lia.
Qed.

(** The rounds of the loop can be run in two stages. *)
Lemma loop_split a b :
  forall components pos comp,
    _parse_isotime_loop (a + b) timestr has_sep components pos comp
    = ('(components', pos') <-
         _parse_isotime_loop a timestr has_sep components pos comp ;;
       _parse_isotime_loop b timestr has_sep components' pos'
         (comp + Z.of_nat a)).
Proof.
  induction a as [|a IH]; intros components pos comp.
  - cbn [Nat.add _parse_isotime_loop bind]. rewrite Z.add_0_r. reflexivity.
  - assert (Hnext : forall cs q,
              _parse_isotime_loop (a + b) timestr has_sep cs q (comp + 1)
              = ('(components', pos') <-
                   _parse_isotime_loop a timestr has_sep cs q (comp + 1) ;;
                 _parse_isotime_loop b timestr has_sep components' pos'
                   (comp + Z.of_nat (S a)))).
    { intros cs q. rewrite IH. f_equal.
      replace (comp + 1 + Z.of_nat a) with (comp + Z.of_nat (S a)) by lia.
      reflexivity. }
    change (S a + b)%nat with (S (a + b)). cbn [_parse_isotime_loop].
    destruct (Z.ltb_spec pos (len timestr)) as [Hlt | Hge]; cbn [andb negb bind];
      [|rewrite loop_done by lia; reflexivity].
    destruct (Z.ltb_spec comp 5) as [Hc | Hc]; cbn [negb bind];
      [|rewrite loop_done by lia; reflexivity].
    destruct (index timestr pos) as [c|e]; cbn [bind]; [|reflexivity].
    destruct (in_tz_chars c).
    { destruct (parse_tzstr _ true) as [z|e]; cbn [bind]; [|reflexivity].
      destruct (set_item components (-1) (VTz z)) as [cs|e]; cbn [bind];
        [|reflexivity].
      rewrite loop_done by lia. reflexivity. }
    destruct (comp + 1 <? 3).
    + destruct (int _) as [v|e]; cbn [bind]; [|reflexivity].
      destruct (set_item components (comp + 1) (VInt v)) as [cs|e]; cbn [bind];
        [|reflexivity].
      destruct (has_sep && (pos + 2 <? len timestr)).
      * destruct (index timestr (pos + 2)) as [c'|e]; cbn [bind]; [|reflexivity].
        destruct (comp + 1 =? 3).
        -- destruct (index timestr _) as [c''|e]; cbn [bind]; [|reflexivity].
           destruct (negb (ch_eqb c'' ".")); [apply Hnext|].
           destruct (int _) as [v'|e]; cbn [bind]; [|reflexivity].
           destruct (set_item cs _ _) as [cs'|e]; cbn [bind]; [|reflexivity].
           apply Hnext.
        -- apply Hnext.
      * cbn [bind]. destruct (comp + 1 =? 3).
        -- destruct (index timestr _) as [c''|e]; cbn [bind]; [|reflexivity].
           destruct (negb (ch_eqb c'' ".")); [apply Hnext|].
           destruct (int _) as [v'|e]; cbn [bind]; [|reflexivity].
           destruct (set_item cs _ _) as [cs'|e]; cbn [bind]; [|reflexivity].
           apply Hnext.
        -- apply Hnext.
    + cbn [bind]. destruct (comp + 1 =? 3).
      * destruct (index timestr _) as [c''|e]; cbn [bind]; [|reflexivity].
        destruct (negb (ch_eqb c'' ".")); [apply Hnext|].
        destruct (int _) as [v'|e]; cbn [bind]; [|reflexivity].
        destruct (set_item components _ _) as [cs'|e]; cbn [bind]; [|reflexivity].
        apply Hnext.
      * apply Hnext.
Qed.

End Loop.

Section Cursor.

Variables (timestr : string) (has_sep : bool).

(** The rounds of the hour, the minute and the second leave the
    microsecond at 0, and the zone empty unless they end the text. *)
Lemma fields_rounds fuel :
  forall components pos comp r p,
    -1 <= comp -> comp + Z.of_nat fuel <= 2 -> 0 <= pos ->
    (exists h mi s, components = [VInt h; VInt mi; VInt s; VInt 0; VNone]) ->
    _parse_isotime_loop fuel timestr has_sep components pos comp = Ok (r, p) ->
    0 <= p /\
    exists h mi s z, r = [VInt h; VInt mi; VInt s; VInt 0; z] /\
                     (p < len timestr -> z = VNone).
Proof.
  induction fuel as [|fuel IH];
    intros components pos comp r p Hc Hf Hpos (h & mi & s & ->);
    cbn [_parse_isotime_loop].
  - intros Hres. injection Hres as <- <-. split; [exact Hpos|]. eauto 10.
  - destruct (Z.ltb_spec pos (len timestr)) as [Hlt | Hge]; cbn [andb negb];
      [|intros Hres; injection Hres as <- <-; split; [exact Hpos | eauto 10]].
    destruct (Z.ltb_spec comp 5); [|lia]. cbn [negb].
    destruct (index timestr pos) as [c|e]; cbn [bind]; [|discriminate].
    destruct (in_tz_chars c).
    { destruct (parse_tzstr _ true) as [z|e]; cbn [bind]; [|discriminate].
      rewrite set_item_zone. cbn [bind]. intros Hres. injection Hres as <- <-.
      pose proof (len_nonneg timestr).
      split; [lia|]. exists h, mi, s, (VTz z). split; [reflexivity | lia]. }
    destruct (Z.ltb_spec (comp + 1) 3); [|lia].
    destruct (int _) as [v|e]; cbn [bind]; [|discriminate].
    assert (Hset : exists h' mi' s',
              set_item [VInt h; VInt mi; VInt s; VInt 0; VNone] (comp + 1) (VInt v)
              = Ok [VInt h'; VInt mi'; VInt s'; VInt 0; VNone]).
    { assert (Hcases : comp = -1 \/ comp = 0 \/ comp = 1) by lia.
      destruct Hcases as [-> | [-> | ->]];
        [exists v, mi, s | exists h, v, s | exists h, mi, v]; reflexivity. }
    destruct Hset as (h' & mi' & s' & ->). cbn [bind].
    destruct (Z.eqb_spec (comp + 1) 3); [lia|].
    destruct (has_sep && (pos + 2 <? len timestr)).
    + destruct (index timestr (pos + 2)) as [c'|e]; cbn [bind]; [|discriminate].
      apply IH; [lia | lia | destruct (ch_eqb c' ":"); lia | eauto].
    + cbn [bind]. apply IH; [lia | lia | lia | eauto].
Qed.

(** From component 3 on, the loop changes the zone only. *)
Lemma zone_rounds_keep fuel h mi s us :
  forall z pos comp r p,
    3 <= comp ->
    _parse_isotime_loop fuel timestr has_sep
      [VInt h; VInt mi; VInt s; VInt us; z] pos comp = Ok (r, p) ->
    exists z', r = [VInt h; VInt mi; VInt s; VInt us; z'].
Proof.
  induction fuel as [|fuel IH]; intros z pos comp r p Hc;
    cbn [_parse_isotime_loop].
  - intros Hres. injection Hres as <- _. eauto.
  - destruct ((pos <? len timestr) && (comp <? 5)); cbn [negb];
      [|intros Hres; injection Hres as <- _; eauto].
    destruct (index timestr pos) as [c|e]; cbn [bind]; [|discriminate].
    destruct (in_tz_chars c).
    { destruct (parse_tzstr _ true) as [z'|e]; cbn [bind]; [|discriminate].
      rewrite set_item_zone. cbn [bind]. intros Hres. injection Hres as <- _. eauto. }
    destruct (Z.ltb_spec (comp + 1) 3); [lia|]. cbn [bind].
    destruct (Z.eqb_spec (comp + 1) 3); [lia|].
    apply IH. lia.
Qed.

End Cursor.

Lemma index_ok_range s i c : 0 <= i -> index s i = Ok c -> i < len s.
Proof.
  intros Hi H. rewrite index_nonneg in H by exact Hi.
  destruct (Z.leb_spec (len s) i); [discriminate H | assumption].
Qed.

Lemma len_split_0 s : len (_MICROSECOND_END_REGEX_split_0 s) <= len s.
Proof.
  induction s as [|c s IH]; cbn [_MICROSECOND_END_REGEX_split_0]; [lia|].
  destruct (in_tz_chars c).
  - change (len "") with 0. apply len_nonneg.
  - rewrite !len_cons. lia.
Qed.

Lemma drop_cons n : forall s c t,
  drop n s = String c t -> (n < String.length s)%nat /\ nth_char n s = Some c.
Proof.
  induction n as [|n IH]; intros s c t H.
  - cbn [drop] in H. subst s. cbn. split; [lia | reflexivity].
  - destruct s as [|c' s]; cbn [drop] in H; [discriminate H|].
    destruct (IH _ _ _ H) as [Hl Hn]. cbn. split; [lia | exact Hn].
Qed.

Lemma slice_from_cons s q c t :
  0 <= q -> slice_from s q = String c t -> q < len s /\ index s q = Ok c.
Proof.
  intros Hq H. unfold slice_from in H. rewrite clamp_nonneg in H by exact Hq.
  destruct (drop_cons _ _ _ _ H) as [Hl Hn]. unfold len in *.
  assert (Hlt : q < Z.of_nat (String.length s)) by lia.
  split; [exact Hlt|].
  rewrite index_nonneg by exact Hq. unfold len.
  destruct (Z.leb_spec (Z.of_nat (String.length s)) q); [lia|].
  replace (Z.min q (Z.of_nat (String.length s))) with q in Hn by lia.
  rewrite Hn. reflexivity.
Qed.

Lemma slice_from_empty s q : 0 <= q -> slice_from s q = "" -> len s <= q.
Proof.
  intros Hq H. unfold slice_from in H. rewrite clamp_nonneg in H by exact Hq.
  pose proof (length_drop s (Z.to_nat (Z.min q (len s)))) as Hl.
  rewrite H in Hl. cbn [String.length] in Hl. unfold len in *. lia.
Qed.

Lemma midnight_form h mi s us z r :
  _midnight [VInt h; VInt mi; VInt s; VInt us; z] = Ok r ->
  exists h', r = [VInt h'; VInt mi; VInt s; VInt us; z].
Proof.
  destruct (Z.eq_dec h 24) as [-> | Hne].
  - rewrite midnight_24. destruct ((mi =? 0) && (s =? 0) && (us =? 0));
      [|discriminate]. intros H. injection H as <-. eauto.
  - rewrite midnight_other by exact Hne. intros H. injection H as <-. eauto.
Qed.

(** The microsecond of every result, from the microsecond that the scan
    leaves. *)
Lemma microsecond_of_scan timestr h mi s us :
  (forall r, _parse_isotime_scan timestr = Ok r ->
     exists z, r = [VInt h; VInt mi; VInt s; VInt us; z]) ->
  (forall r, _parse_isotime timestr = Ok r -> nth 3 r VNone = VInt us) /\
  (forall t, parse_isotime timestr = Ok t -> microsecond t = us).
Proof.
  intros Hscan.
  assert (Hp : forall r, _parse_isotime timestr = Ok r ->
                 exists h' z, r = [VInt h'; VInt mi; VInt s; VInt us; z]).
  { intros r. unfold _parse_isotime.
    destruct (_parse_isotime_scan timestr) as [cs|e]; [|discriminate].
    destruct (Hscan cs eq_refl) as [z ->]. cbn [bind]. intros H.
    destruct (midnight_form _ _ _ _ _ _ H) as [h' ->]. eauto. }
  split.
  - intros r Hr. destruct (Hp r Hr) as (h' & z & ->). reflexivity.
  - intros t. unfold parse_isotime.
    destruct (_parse_isotime timestr) as [r|e]; [|discriminate].
    destruct (Hp r eq_refl) as (h' & z & ->). cbn [bind time_of].
    destruct (tz_of z) as [tzv|e]; [|discriminate]. cbn [bind].
    unfold time_new. destruct (_check_time_fields h' mi s us); [|discriminate].
    intros H. injection H as <-. reflexivity.
Qed.

(** What the scan returns, from the cursor of component 3 on. *)
Lemma scan_from_cursor timestr components p :
  component3_cursor timestr = Ok (components, p) ->
  exists has_sep,
    _parse_isotime_scan timestr
    = ('(r, q) <- _parse_isotime_loop 3 timestr has_sep components p 2 ;;
       if q <? len timestr then Raise ValueError else Ok r) /\
    0 <= p /\
    exists h mi s z, components = [VInt h; VInt mi; VInt s; VInt 0; z] /\
                     (p < len timestr -> z = VNone).
Proof.
  unfold component3_cursor, _parse_isotime_scan. cbv zeta.
  destruct (_time_has_sep_ok timestr) as [hs ->]. cbn [bind]. intros H.
  exists hs. split.
  - change 6%nat with (3 + 3)%nat. rewrite loop_split. fold time_init.
    rewrite H. reflexivity.
  - apply (fields_rounds timestr hs 3 time_init 0 (-1));
      [lia | cbn; lia | lia | unfold time_init; eauto | exact H].
Qed.

(** The microsecond, from the cursor of component 3. *)
Lemma fraction_at_cursor timestr components p :
  component3_cursor timestr = Ok (components, p) ->
  exists h mi s z,
    components = [VInt h; VInt mi; VInt s; VInt 0; z] /\
    (index timestr p = Ok "."%char ->
     let us_str := fraction_window timestr p in
     let us := decimal_value us_str * 10 ^ (6 - len us_str) in
     all_digits us_str = true ->
     (forall r, _parse_isotime timestr = Ok r ->
        1 <= len us_str <= 6 /\ nth 3 r VNone = VInt us) /\
     (forall t, parse_isotime timestr = Ok t -> microsecond t = us) /\
     (forall zcomp,
        1 <= len us_str ->
        zone_tail (slice_from timestr (p + 1 + len us_str)) zcomp ->
        _parse_isotime_scan timestr
          = Ok [VInt h; VInt mi; VInt s; VInt us; zcomp] /\
        (h <> 24 ->
         _parse_isotime timestr
           = Ok [VInt h; VInt mi; VInt s; VInt us; zcomp]))) /\
    (index timestr p <> Ok "."%char ->
     (forall r, _parse_isotime timestr = Ok r -> nth 3 r VNone = VInt 0) /\
     (forall t, parse_isotime timestr = Ok t -> microsecond t = 0)).
Proof.
  intros Hcur.
  destruct (scan_from_cursor _ _ _ Hcur)
    as (hs & Hscan & Hp & h & mi & s & z & -> & Hz).
  exists h, mi, s, z. split; [reflexivity|]. split.
  - (* the cursor is on a [.] *)
    intros Hdot us_str us Hd.
    pose proof (index_ok_range _ _ _ Hp Hdot) as Hlt. rewrite (Hz Hlt) in *.
    assert (Hlen : len us_str <= 6).
    { unfold us_str, fraction_window.
      pose proof (len_split_0 (slice timestr (p + 1) (p + 1 + 6))).
      pose proof (len_slice timestr (p + 1) (p + 1 + 6) ltac:(lia)). lia. }
    rewrite (loop_fraction _ _ _ _ _ "."%char Hlt Hdot eq_refl) in Hscan.
    cbv zeta in Hscan. fold (fraction_window timestr p) in Hscan.
    fold us_str in Hscan.
    destruct (Z.eq_dec (len us_str) 0) as [H0 | Hne].
    { (* no digit: [int] fails *)
      assert (He : us_str = "").
      { destruct us_str; [reflexivity|]. rewrite len_cons in H0.
        pose proof (len_nonneg us_str). lia. }
      rewrite He in Hscan. cbn [bind] in Hscan.
      change (int "") with (@Raise Z ValueError) in Hscan. cbn [bind] in Hscan.
      assert (Hfail : _parse_isotime timestr = Raise ValueError)
        by (unfold _parse_isotime; rewrite Hscan; reflexivity).
      split; [|split].
      - intros r Hr. rewrite Hfail in Hr. discriminate Hr.
      - intros t. unfold parse_isotime. rewrite Hfail. discriminate.
      - intros zcomp H1. lia. }
    pose proof (len_nonneg us_str) as Hnn.
    rewrite int_all_digits in Hscan;
      [| intros He; rewrite He in Hne; apply Hne; reflexivity | exact Hd].
    cbn [bind] in Hscan. rewrite set_item_us in Hscan. cbn [bind] in Hscan.
    fold us in Hscan.
    assert (Hshape : forall r, _parse_isotime_scan timestr = Ok r ->
                       exists z', r = [VInt h; VInt mi; VInt s; VInt us; z']).
    { intros r. rewrite Hscan.
      destruct (_parse_isotime_loop 2 _ _ _ _ 3) as [[r' q]|e] eqn:Hl;
        [|discriminate].
      cbn [bind]. destruct (q <? len timestr); [discriminate|].
      intros Hr. injection Hr as <-.
      eapply zone_rounds_keep; [|exact Hl]; lia. }
    destruct (microsecond_of_scan timestr h mi s us Hshape) as [Hm Ht].
    split; [|split].
    + intros r Hr. split; [lia | exact (Hm r Hr)].
    + exact Ht.
    + intros zcomp H1 Hzone.
      assert (Hsc : _parse_isotime_scan timestr
                    = Ok [VInt h; VInt mi; VInt s; VInt us; zcomp]).
      { rewrite Hscan.
        destruct (zone_tail_cases _ _ Hzone)
          as [[He ->] | (c & t & z' & He & Hc & Hparse & ->)].
        - apply slice_from_empty in He; [|lia].
          rewrite loop_done by lia. cbn [bind].
          destruct (Z.ltb_spec (p + 1 + len us_str) (len timestr)); [lia|].
          reflexivity.
        - assert (Hq0 : 0 <= p + 1 + len us_str) by lia.
          destruct (slice_from_cons _ _ _ _ Hq0 He) as [Hq Hidx].
          assert (H35 : 3 < 5) by lia.
          rewrite (loop_zone _ _ _ _ _ 3 c Hq H35 Hidx Hc).
          rewrite Hparse. cbn [bind]. rewrite set_item_zone. cbn [bind].
          rewrite Z.ltb_irrefl. reflexivity. }
      split; [exact Hsc|].
      intros H24. unfold _parse_isotime. rewrite Hsc. cbn [bind].
      apply midnight_other. exact H24.
  - (* no [.] at the cursor *)
    intros Hdot. apply (microsecond_of_scan timestr h mi s 0).
    intros r. rewrite Hscan.
    destruct (Z_lt_ge_dec p (len timestr)) as [Hlt | Hge].
    + rewrite (Hz Hlt) in *.
      destruct (index_in_range timestr p ltac:(lia)) as [c Hidx].
      assert (Hc : ch_eqb c "." = false).
      { destruct (ch_eqb c ".") eqn:E; [|reflexivity].
        apply Ascii.eqb_eq in E. subst c. contradiction. }
      destruct (in_tz_chars c) eqn:Htz.
      * assert (H25 : 2 < 5) by lia.
        rewrite (loop_zone _ _ _ _ _ 2 c Hlt H25 Hidx Htz).
        destruct (parse_tzstr _ true) as [z'|e]; [|discriminate].
        cbn [bind]. rewrite set_item_zone. cbn [bind].
        destruct (len timestr <? len timestr); [discriminate|].
        intros Hr. injection Hr as <-. eauto.
      * rewrite (loop_no_fraction _ _ _ _ _ c Hlt Hidx Htz Hc).
        destruct (_parse_isotime_loop 2 _ _ _ _ 3) as [[r' q]|e] eqn:Hl;
          [|discriminate].
        cbn [bind]. destruct (q <? len timestr); [discriminate|].
        intros Hr. injection Hr as <-.
        eapply zone_rounds_keep; [|exact Hl]; lia.
    + rewrite loop_done by lia. cbn [bind].
      destruct (p <? len timestr); [discriminate|].
      intros Hr. injection Hr as <-. eauto.
Qed.

Section Layouts.

Variables (h1 h2 m1 m2 s1 s2 : ascii) (h mi s : Z) (rest : string).
Hypothesis Hh1 : in_tz_chars h1 = false.
Hypothesis Hm1 : in_tz_chars m1 = false.
Hypothesis Hs1 : in_tz_chars s1 = false.
Hypothesis Hm1c : ch_eqb m1 ":" = false.
Hypothesis Hs1c : ch_eqb s1 ":" = false.
Hypothesis Hh : int (String h1 (String h2 "")) = Ok h.
Hypothesis Hmi : int (String m1 (String m2 "")) = Ok mi.
Hypothesis Hs : int (String s1 (String s2 "")) = Ok s.

Let hh := String h1 (String h2 "").
Let mm := String m1 (String m2 "").
Let ss := String s1 (String s2 "").

(** The position behind the last field of an explicit prefix, when no [:]
    follows it. *)
Lemma next_pos_rest pre q :
  q = len pre -> starts_with_char rest ":" = false ->
  next_pos (pre ++ rest) true q = q.
Proof.
  intros -> Hr. unfold next_pos. cbn [andb].
  destruct (Z.ltb_spec (len pre) (len (pre ++ rest))) as [Hlt|]; [|reflexivity].
  rewrite index_app_r by lia. rewrite Z.sub_diag.
  destruct rest as [|c t].
  - rewrite len_app in Hlt. change (len "") with 0 in Hlt. lia.
  - rewrite index_cons_0. cbn [starts_with_char] in Hr. rewrite Hr. reflexivity.
Qed.

Lemma cursor_layouts (c2 c3 : bool) :
  (c3 = false -> starts_with_char rest ":" = false) ->
  let pre := hh ++ ":" ++ mm ++ colon_text c2 ++ ss ++ colon_text c3 in
  component3_cursor (pre ++ rest)
  = Ok ([VInt h; VInt mi; VInt s; VInt 0; VNone], len pre).
Proof.
  intros Hcur pre. pose proof (len_nonneg rest) as Hrest.
  unfold component3_cursor.
  assert (Hsep : _time_has_sep (pre ++ rest) = Ok true).
  { unfold _time_has_sep. rewrite len_app.
    assert (Hl : 7 <= len pre) by (destruct c2, c3; vm_compute; discriminate).
    destruct (Z.leb_spec 3 (len pre + len rest)); [|lia].
    rewrite index_app_l by lia. destruct c2, c3; reflexivity. }
  rewrite Hsep. cbn [bind]. unfold time_init.
  destruct c2, c3;
    (let v := eval cbv [pre colon_text append hh mm ss] in pre in
     change pre with v in *; clear pre).
  - (* hh:mm:ss: *)
    field_round h1 h Hh1 Hh. colon_after 3.
    field_round m1 mi Hm1 Hmi. colon_after 6.
    field_round s1 s Hs1 Hs. colon_after 9. reflexivity.
  - (* hh:mm:ss *)
    field_round h1 h Hh1 Hh. colon_after 3.
    field_round m1 mi Hm1 Hmi. colon_after 6.
    field_round s1 s Hs1 Hs.
    rewrite next_pos_rest by (reflexivity || (apply Hcur; reflexivity)).
    reflexivity.
  - (* hh:mmss: *)
    field_round h1 h Hh1 Hh. colon_after 3.
    field_round m1 mi Hm1 Hmi.
    replace (next_pos _ true (3 + 2)) with 5.
    2:{ unfold next_pos. cbn [andb]. explicit_len.
        destruct (Z.ltb_spec (3 + 2) (8 + len rest)); [|lia].
        rewrite index_app_l by (explicit_len; lia).
        match goal with
        | |- context [index ?p (3 + 2)] => change (index p (3 + 2)) with (Ok s1)
        end.
        cbv beta iota. rewrite Hs1c. reflexivity. }
    field_round s1 s Hs1 Hs. colon_after 8. reflexivity.
  - (* hh:mmss *)
    field_round h1 h Hh1 Hh. colon_after 3.
    field_round m1 mi Hm1 Hmi.
    replace (next_pos _ true (3 + 2)) with 5.
    2:{ unfold next_pos. cbn [andb]. explicit_len.
        destruct (Z.ltb_spec (3 + 2) (7 + len rest)); [|lia].
        rewrite index_app_l by (explicit_len; lia).
        match goal with
        | |- context [index ?p (3 + 2)] => change (index p (3 + 2)) with (Ok s1)
        end.
        cbv beta iota. rewrite Hs1c. reflexivity. }
    field_round s1 s Hs1 Hs.
    rewrite next_pos_rest by (reflexivity || (apply Hcur; reflexivity)).
    reflexivity.
Qed.

Lemma cursor_compact :
  component3_cursor ((hh ++ mm ++ ss) ++ rest)
  = Ok ([VInt h; VInt mi; VInt s; VInt 0; VNone], 6).
Proof.
  pose proof (len_nonneg rest) as Hrest. unfold component3_cursor.
  subst hh mm ss. cbn [append].
  change (String h1 (String h2 (String m1 (String m2 (String s1 (String s2 rest))))))
    with (String h1 (String h2 (String m1 (String m2 (String s1 (String s2 "")))))
          ++ rest).
  assert (Hsep : _time_has_sep
            (String h1 (String h2 (String m1 (String m2 (String s1 (String s2 "")))))
             ++ rest) = Ok false).
  { unfold _time_has_sep. explicit_len.
    destruct (Z.leb_spec 3 (6 + len rest)); [|lia].
    rewrite index_app_l by (explicit_len; lia).
    match goal with |- context [index ?p 2] => change (index p 2) with (Ok m1) end.
    cbn [bind]. rewrite Hm1c. reflexivity. }
  rewrite Hsep. cbn [bind]. unfold time_init.
  field_round h1 h Hh1 Hh. change (next_pos _ false (0 + 2)) with 2.
  field_round m1 mi Hm1 Hmi. change (next_pos _ false (2 + 2)) with 4.
  field_round s1 s Hs1 Hs. reflexivity.
Qed.

End Layouts.

(** The cursor of component 3 behind three two-digit fields. *)
Lemma component3_cursor_fields (sep c2 c3 : bool) h mi s rest :
  0 <= h < 100 -> 0 <= mi < 100 -> 0 <= s < 100 ->
  (sep = true -> c3 = false -> starts_with_char rest ":" = false) ->
  component3_cursor (fields_text sep c2 c3 h mi s ++ rest)
  = Ok ([VInt h; VInt mi; VInt s; VInt 0; VNone],
        len (fields_text sep c2 c3 h mi s)).
Proof.
  intros Hh Hmi Hs Hcur. unfold fields_text. destruct sep; cbn [andb].
  - apply (cursor_layouts (digit_char (h / 10)) (digit_char h)
             (digit_char (mi / 10)) (digit_char mi)
             (digit_char (s / 10)) (digit_char s) h mi s rest);
      try apply digit_char_not_tz; try apply digit_char_not_colon;
      try (apply int_fmt02; assumption).
    intros Hc3. apply Hcur; [reflexivity | exact Hc3].
  - change (fmt02 h ++ colon_text false ++ fmt02 mi ++ colon_text false
            ++ fmt02 s ++ colon_text false)
      with (fmt02 h ++ fmt02 mi ++ fmt02 s).
    apply (cursor_compact (digit_char (h / 10)) (digit_char h)
             (digit_char (mi / 10)) (digit_char mi)
             (digit_char (s / 10)) (digit_char s) h mi s rest);
      try apply digit_char_not_tz; try apply digit_char_not_colon;
      try (apply int_fmt02; assumption).
Qed.

(* ================================================================== *)
(** ** The properties of the specification, C1 to C10                  *)
(* ================================================================== *)

(** C1.  The specification has [parse_isodate] fail whenever characters
    remain after the date.  The code drops the position that
    [_parse_isodate] returns: on ["2014-04-11x"] the date parser stops at
    position 10 of 11, and [parse_isodate] returns the date 2014-04-11 all
    the same, whereas [isoparse] rejects the same text. *)
Theorem C1_parse_isodate_keeps_trailing_input (self : Isoparser.t) :
  _parse_isodate self "2014-04-11x"
    = Ok ([VInt 2014; VInt 4; VInt 11], 10) /\
  10 < len "2014-04-11x" /\
  parse_isodate self "2014-04-11x" = Ok (mkdate 2014 4 11) /\
  isoparse P2003 "2014-04-11x" false = Raise ValueError.
Proof. repeat split; reflexivity. Qed.

(** C2.  The specification has the week form succeed only if the dash
    before the day is present exactly when the dash after the year is.
    The code checks one direction only: a dash before the day without a
    dash after the year is rejected, but ["2004-W011"], with a dash after
    the year and none before the day, is parsed like ["2004-W01-1"]. *)
Theorem C2_week_dash_checked_one_way (self : Isoparser.t) :
  parse_isodate self "2004-W011" = Ok (mkdate 2003 12 29) /\
  parse_isodate self "2004W01-1" = Raise ValueError /\
  parse_isodate self "2004-W01-1" = Ok (mkdate 2003 12 29) /\
  parse_isodate self "2004W011" = Ok (mkdate 2003 12 29).
Proof. repeat split; reflexivity. Qed.

(** C3.  The specification has every public operation return a value or
    fail with a parse error ([ValueError]), and nothing else.  The
    uncommon date grammar indexes the text at position 4 and further
    without a length check, so that short texts escape with [IndexError];
    and the week-date arithmetic leaves the range of [date] with
    [OverflowError]. *)
Theorem C3_other_failures_escape (self : Isoparser.t) :
  parse_isodate self "12" = Raise IndexError /\
  isoparse self "12" false = Raise IndexError /\
  isoparse self "2004-" false = Raise IndexError /\
  parse_isodate self "2004-W01-" = Raise IndexError /\
  parse_isodate self "9999-W53-7" = Raise OverflowError.
Proof. repeat split; reflexivity. Qed.

(** C4.  For every date [D] of the [date] type, with ISO calendar triple
    (year, week, weekday): [_calculate_weekdate] maps the triple back to
    [D], and the date parser maps the text [YYYY-Www-D] of the triple
    (year in four digits, week in two) back to [D]. *)
Theorem C4_weekdate_roundtrip self D :
  valid_date D ->
  let '(iy, iw, id) := isocalendar D in
  _calculate_weekdate iy iw id = Ok D /\
  parse_isodate self (iso_week_string iy iw id) = Ok D.
Proof.
  intros HD.
  pose proof (isocalendar_valid D HD) as H.
  pose proof (calculate_weekdate_isocalendar D HD) as Hc.
  destruct (isocalendar D) as [[iy iw] id].
  destruct H as (Hiy & Hiw & Hid & _).
  split; [exact Hc|].
  apply parse_isodate_week; assumption.
Qed.

Lemma C4_weekdate_roundtrip_witness :
  valid_date (mkdate 2005 1 1) /\
  _calculate_weekdate 2004 53 6 = Ok (mkdate 2005 1 1) /\
  parse_isodate P2003 "2004-W53-6" = Ok (mkdate 2005 1 1).
Proof.
  split; [reflexivity|].
  exact (C4_weekdate_roundtrip P2003 (mkdate 2005 1 1) eq_refl).
Defined.

(** C5.  For the year-less forms [--MM-DD] and [--MMDD]: on February 29
    the year is the default year moved back by the rule "subtract
    [year mod 4]; if the candidate is divisible by 100 but not by 400,
    subtract 4 more" ([leap_year_back]), which is the greatest leap year
    not after the default year; on every other month and day the year is
    the default year.  With default year 2004 the date is 2004-02-29, with
    2003 it is 2000-02-29. *)
Theorem C5_yearless_leap_day self m d :
  0 <= m < 100 -> 0 <= d < 100 ->
  let dy := _default_year self in
  let yr := if (m =? 2) && (d =? 29) then leap_year_back dy else dy in
  (_parse_isodate self ("--" ++ fmt02 m ++ "-" ++ fmt02 d)
     = Ok ([VInt yr; VInt m; VInt d], 7) /\
   _parse_isodate self ("--" ++ fmt02 m ++ fmt02 d)
     = Ok ([VInt yr; VInt m; VInt d], 6)) /\
  (isleap (leap_year_back dy) = true /\ leap_year_back dy <= dy /\
   forall z, leap_year_back dy < z <= dy -> isleap z = false) /\
  (4 <= dy <= 9999 ->
   parse_isodate self "--02-29" = Ok (mkdate (leap_year_back dy) 2 29)) /\
  parse_isodate P2004 "--02-29" = Ok (mkdate 2004 2 29) /\
  parse_isodate P2003 "--02-29" = Ok (mkdate 2000 2 29).
Proof.
  intros Hm Hd dy yr.
  split; [exact (parse_isodate_yearless self m d Hm Hd)|].
  split; [apply leap_year_back_greatest|].
  split; [|split; reflexivity].
  intros Hdy.
  destruct (parse_isodate_yearless self 2 29 ltac:(lia) ltac:(lia)) as [H _].
  change ("--" ++ fmt02 2 ++ "-" ++ fmt02 29) with "--02-29" in H.
  unfold parse_isodate. rewrite H. cbn [bind date_of].
  change (yearless_year (_default_year self) 2 29) with (leap_year_back dy).
  apply date_new_ok; [apply leap_year_back_range; exact Hdy|].
  split; [lia|]. unfold _days_in_month.
  destruct (leap_year_back_greatest dy) as [-> _]. cbn. lia.
Qed.

Lemma C5_yearless_leap_day_witness :
  0 <= 2 < 100 /\ 0 <= 29 < 100 /\
  _parse_isodate P2003 "--02-29" = Ok ([VInt 2000; VInt 2; VInt 29], 7).
Proof.
  split; [lia|]. split; [lia|].
  exact (proj1 (proj1 (C5_yearless_leap_day P2003 2 29
                         ltac:(lia) ltac:(lia)))).
Defined.

(** C6.  Every time string that the time parser scans yields four
    integers and the zone.  Whenever the hour is 24: if the minute, the
    second or the microsecond is not 0, parsing fails with [ValueError];
    if all three are 0, parsing succeeds with hour 0, and [isoparse]
    returns the date that the date parser found, not the day after it. *)
Theorem C6_midnight timestr components :
  _parse_isotime_scan timestr = Ok components ->
  exists h mi s us z,
    components = [VInt h; VInt mi; VInt s; VInt us; z] /\
    (exists tzv, tz_of z = Ok tzv) /\
    (h = 24 ->
     (mi <> 0 \/ s <> 0 \/ us <> 0 ->
      _parse_isotime timestr = Raise ValueError /\
      parse_isotime timestr = Raise ValueError) /\
     (mi = 0 /\ s = 0 /\ us = 0 ->
      _parse_isotime timestr = Ok [VInt 0; VInt 0; VInt 0; VInt 0; z] /\
      (forall tzv, tz_of z = Ok tzv ->
         parse_isotime timestr = Ok (mktime 0 0 0 0 tzv) /\
         forall self dt_str (common_only : bool) y m d pos c,
           (if common_only then _parse_isodate_common dt_str
            else _parse_isodate self dt_str)
             = Ok ([VInt y; VInt m; VInt d], pos) ->
           pos < len dt_str -> index dt_str pos = Ok c ->
           String c "" = _sep self ->
           slice_from dt_str (pos + 1) = timestr ->
           isoparse self dt_str common_only
           = (dd <- date_new y m d ;;
              Ok (mkdatetime dd (mktime 0 0 0 0 tzv)))))).
Proof.
  intros Hscan.
  destruct (_parse_isotime_scan_shape _ _ Hscan)
    as (h & mi & s & us & z & -> & Hz).
  exists h, mi, s, us, z. split; [reflexivity|]. split.
  - destruct Hz as [-> | [t ->]]; eexists; reflexivity.
  - intros ->. apply midnight_rule. exact Hscan.
Qed.

Lemma C6_midnight_witness :
  _parse_isotime_scan "24:00:00"
    = Ok [VInt 24; VInt 0; VInt 0; VInt 0; VNone] /\
  _parse_isotime "24:00:00" = Ok [VInt 0; VInt 0; VInt 0; VInt 0; VNone] /\
  isoparse P2003 "2014-04-10T24:00:00" false
    = Ok (mkdatetime (mkdate 2014 4 10) (mktime 0 0 0 0 None)).
Proof.
  split; [reflexivity|].
  destruct (C6_midnight "24:00:00" [VInt 24; VInt 0; VInt 0; VInt 0; VNone]
              eq_refl) as (h & mi & s & us & z & Heq & _ & H).
  injection Heq as <- <- <- <- <-.
  destruct (H eq_refl) as [_ H0].
  destruct (H0 (conj eq_refl (conj eq_refl eq_refl))) as [H1 H2].
  split; [exact H1|].
  destruct (H2 None eq_refl) as [_ H3].
  exact (H3 P2003 "2014-04-10T24:00:00" false 2014 4 10 10 "T"%char
            eq_refl eq_refl eq_refl eq_refl eq_refl).
Defined.

(** C7.  For a signed offset token [+HH:MM], [+HHMM] or [+HH] (either
    sign, two-digit fields): with [zero_as_utc] and hours and minutes both
    0 the result is the UTC marker; otherwise hours above 23 or minutes
    above 59 are a [ValueError], and else the result is the fixed offset
    of [sign * (hours * 60 + minutes)] minutes.  ["+00:00"] gives UTC with
    [zero_as_utc], and without it the fixed offset 0, which is not the UTC
    marker. *)
Theorem C7_timezone_offset neg h m zu tok :
  0 <= h < 100 -> 0 <= m < 100 -> In tok (tz_tokens neg h m) ->
  (zu = true /\ h = 0 /\ m = 0 -> parse_tzstr tok zu = Ok tzutc) /\
  (~ (zu = true /\ h = 0 /\ m = 0) ->
   (23 < h \/ 59 < m -> parse_tzstr tok zu = Raise ValueError) /\
   (h <= 23 /\ m <= 59 ->
    parse_tzstr tok zu = Ok (tzoffset (sign_mult neg * (h * 60 + m))))) /\
  parse_tzstr "+00:00" true = Ok tzutc /\
  parse_tzstr "+00:00" false = Ok (tzoffset 0) /\
  tzoffset 0 <> tzutc.
Proof.
  intros Hh Hm Hin. rewrite (parse_tzstr_token neg h m zu tok Hh Hm Hin).
  unfold tz_result.
  split; [|split; [|repeat split; [discriminate]]].
  - intros (-> & -> & ->). reflexivity.
  - intros Hnz.
    assert (Hz : zu && (h =? 0) && (m =? 0) = false).
    { destruct zu, (Z.eqb_spec h 0), (Z.eqb_spec m 0); try reflexivity.
      exfalso. apply Hnz. auto. }
    rewrite Hz. split.
    + intros [H | H].
      * destruct (Z.ltb_spec 59 m); [reflexivity|].
        destruct (Z.ltb_spec 23 h); [reflexivity | lia].
      * destruct (Z.ltb_spec 59 m); [reflexivity | lia].
    + intros [H1 H2].
      destruct (Z.ltb_spec 59 m); [lia|]. destruct (Z.ltb_spec 23 h); [lia|].
      reflexivity.
Qed.

Lemma C7_timezone_offset_witness :
  0 <= 3 < 100 /\ 0 <= 30 < 100 /\ In "-03:30" (tz_tokens true 3 30) /\
  parse_tzstr "-03:30" true = Ok (tzoffset (-210)).
Proof.
  split; [lia|]. split; [lia|]. split; [left; reflexivity|].
  pose proof (C7_timezone_offset true 3 30 true "-03:30"
                ltac:(lia) ltac:(lia) (or_introl eq_refl)) as H.
  destruct H as (_ & H & _).
  apply H; [intros (_ & H3 & _); discriminate H3 | split; lia].
Defined.

(** C8.  For every year in [1, 9999] and every month and day of that
    year, [parse_isodate] returns exactly that year, month and day on the
    text [YYYY-MM-DD] and on the text [YYYYMMDD]. *)
Theorem C8_common_date self y m d :
  1 <= y <= 9999 -> valid_ymd y m d ->
  parse_isodate self (fmt04 y ++ "-" ++ fmt02 m ++ "-" ++ fmt02 d)
    = Ok (mkdate y m d) /\
  parse_isodate self (fmt04 y ++ fmt02 m ++ fmt02 d) = Ok (mkdate y m d).
Proof.
  intros Hy Hv. split.
  - apply parse_isodate_dashed; assumption.
  - apply parse_isodate_undashed; assumption.
Qed.

Lemma C8_common_date_witness :
  1 <= 2014 <= 9999 /\ valid_ymd 2014 4 11 /\
  parse_isodate P2003 "2014-04-11" = Ok (mkdate 2014 4 11) /\
  parse_isodate P2003 "20140411" = Ok (mkdate 2014 4 11).
Proof.
  assert (Hv : valid_ymd 2014 4 11)
    by (split; [lia | change (_days_in_month 2014 4) with 30; lia]).
  split; [lia|]. split; [exact Hv|].
  exact (C8_common_date P2003 2014 4 11 ltac:(lia) Hv).
Defined.

(** C9, as stated, fails in both halves.  In ["10:10:10:.5"] the character
    after the seconds field is [:], not [.], and the microsecond component
    is 500000, because the loop consumes a [:] after the seconds as it does
    after the hours and the minutes.  In ["10:49:41.5 "] the character
    after the seconds field is [.] and one digit follows it, of value 5, so
    that the claim gives [5 * 10 ^ (6 - 1) = 500000]; the code returns
    50000: it cuts [us_str] at [-], [+] and [Z] only, [int] accepts the
    blank behind the digit, and [len(us_str)] counts it. *)
Lemma C9_counterexample :
  (slice "10:10:10:.5" 6 8 = "10" /\
   index "10:10:10:.5" 8 = Ok ":"%char /\
   ch_eqb ":" "." = false /\
   _parse_isotime "10:10:10:.5"
   = Ok [VInt 10; VInt 10; VInt 10; VInt 500000; VNone] /\
   parse_isotime "10:10:10:.5" = Ok (mktime 10 10 10 500000 None)) /\
  (slice "10:49:41.5 " 6 8 = "41" /\
   index "10:49:41.5 " 8 = Ok "."%char /\
   leading_digits (slice_from "10:49:41.5 " 9) = "5" /\
   decimal_value "5" * 10 ^ (6 - len "5") = 500000 /\
   fraction_window "10:49:41.5 " 8 = "5 " /\
   _parse_isotime "10:49:41.5 "
   = Ok [VInt 10; VInt 49; VInt 41; VInt 50000; VNone] /\
   parse_isotime "10:49:41.5 " = Ok (mktime 10 49 41 50000 None)).
Proof. repeat split; reflexivity. Qed.

(** C9, amended.  Let the cursor be where the first three rounds of the
    loop, those of the hour, the minute and the second, leave it
    ([component3_cursor]): behind three two-digit fields it stands after
    the seconds digits and, in a text with [:] after the hour, after a [:]
    that follows them, whether or not a [:] follows the minute.  Then, for
    every text: when the character at the cursor is [.] and the characters
    after it, up to the first [-], [+] or [Z], the sixth character or the
    end of the text ([fraction_window]), are all digits, [n] of them,
    every successful parse has [1 <= n <= 6] and the microsecond
    [value * 10 ^ (6 - n)], and the parse succeeds, for an hour other than
    24, when at least one digit is there and the digits are followed by the
    end of the text or by an accepted zone.  When there is no [.] at the
    cursor, the microsecond of every successful parse is 0.  What the code
    returns when a character that is no digit stands in the window is left
    out. *)
Theorem C9_fraction_at_cursor :
  (forall (sep c2 c3 : bool) h mi s rest,
     0 <= h < 100 -> 0 <= mi < 100 -> 0 <= s < 100 ->
     (sep = true -> c3 = false -> starts_with_char rest ":" = false) ->
     component3_cursor (fields_text sep c2 c3 h mi s ++ rest)
     = Ok ([VInt h; VInt mi; VInt s; VInt 0; VNone],
           len (fields_text sep c2 c3 h mi s))) /\
  (forall timestr components p,
     component3_cursor timestr = Ok (components, p) ->
     exists h mi s z,
       components = [VInt h; VInt mi; VInt s; VInt 0; z] /\
       (index timestr p = Ok "."%char ->
        let us_str := fraction_window timestr p in
        let us := decimal_value us_str * 10 ^ (6 - len us_str) in
        all_digits us_str = true ->
        (forall r, _parse_isotime timestr = Ok r ->
           1 <= len us_str <= 6 /\ nth 3 r VNone = VInt us) /\
        (forall t, parse_isotime timestr = Ok t -> microsecond t = us) /\
        (forall zcomp,
           1 <= len us_str ->
           zone_tail (slice_from timestr (p + 1 + len us_str)) zcomp ->
           _parse_isotime_scan timestr
             = Ok [VInt h; VInt mi; VInt s; VInt us; zcomp] /\
           (h <> 24 ->
            _parse_isotime timestr
              = Ok [VInt h; VInt mi; VInt s; VInt us; zcomp]))) /\
       (index timestr p <> Ok "."%char ->
        (forall r, _parse_isotime timestr = Ok r -> nth 3 r VNone = VInt 0) /\
        (forall t, parse_isotime timestr = Ok t -> microsecond t = 0))).
Proof.
  split.
  - intros sep c2 c3 h mi s rest Hh Hmi Hs Hcur.
    apply component3_cursor_fields; assumption.
  - intros timestr components p Hcur.
    apply fraction_at_cursor. exact Hcur.
Qed.

Lemma C9_fraction_at_cursor_witness :
  0 <= 10 < 100 /\ 0 <= 49 < 100 /\ 0 <= 41 < 100 /\
  component3_cursor "10:4941.5-03:30"
    = Ok ([VInt 10; VInt 49; VInt 41; VInt 0; VNone], 7) /\
  index "10:4941.5-03:30" 7 = Ok "."%char /\
  fraction_window "10:4941.5-03:30" 7 = "5" /\
  (forall r, _parse_isotime "10:4941.5-03:30" = Ok r ->
     nth 3 r VNone = VInt 500000) /\
  _parse_isotime "10:4941.5-03:30"
    = Ok [VInt 10; VInt 49; VInt 41; VInt 500000; VTz (tzoffset (-210))].
Proof.
  split; [lia|]. split; [lia|]. split; [lia|].
  destruct C9_fraction_at_cursor as [Hlay Hgen].
  pose proof (Hlay true false false 10 49 41 ".5-03:30"
                ltac:(lia) ltac:(lia) ltac:(lia) (fun _ _ => eq_refl)) as Hcur.
  split; [exact Hcur|]. split; [reflexivity|]. split; [reflexivity|].
  destruct (Hgen "10:4941.5-03:30" _ 7 Hcur)
    as (h & mi & s & z & Heq & Hdot & _).
  injection Heq as <- <- <- <-.
  destruct (Hdot eq_refl eq_refl) as (Hm & _ & Hz).
  split.
  - intros r Hr. exact (proj2 (Hm r Hr)).
  - refine (proj2 (Hz (VTz (tzoffset (-210))) _ _) _).
    + change (1 <= 1). lia.
    + right. exists (tzoffset (-210)). repeat split; reflexivity.
    + lia.
Defined.

(** C10, as stated, fails at the last year: 9999 has 52 ISO weeks, and
    week 53 of 9999 is no date at all, the calculator leaves the range of
    [date] with [OverflowError]. *)
Lemma C10_counterexample :
  iso_weeks_in_year 9999 = 52 /\
  _calculate_weekdate 9999 53 1 = Raise OverflowError /\
  ~ (exists D, _calculate_weekdate 9999 53 1 = Ok D /\
               isocalendar D = (9999 + 1, 1, 1)).
Proof.
  split; [reflexivity|]. split; [reflexivity|].
  intros [D [H _]]. vm_compute in H. discriminate H.
Qed.

(** C10, amended.  For every ISO year from 1 to 9998 the week-date
    calculator accepts week 53 with any weekday [d] and returns a date of
    the [date] type.  When the year has 52 weeks only, the ISO calendar
    triple of that date is (year + 1, week 1, weekday [d]): the date falls
    in the first week of the following ISO year.  When the year has 53
    weeks, the triple is (year, 53, [d]). *)
Theorem C10_week53_accepted y d :
  1 <= y <= 9998 -> 1 <= d <= 7 ->
  exists D, _calculate_weekdate y 53 d = Ok D /\ valid_date D /\
            (iso_weeks_in_year y = 52 -> isocalendar D = (y + 1, 1, d)) /\
            (iso_weeks_in_year y = 53 -> isocalendar D = (y, 53, d)).
Proof.
  intros Hy Hd.
  set (o := _isoweek1monday y + (53 - 1) * 7 + (d - 1)).
  pose proof (isoweek1monday_spec y) as [_ Hb].
  pose proof (isoweek1monday_pos y ltac:(lia)) as Hpos.
  pose proof (dby_range y ltac:(lia)) as Hr.
  pose proof (dby_mono y 9998 ltac:(lia)) as Hm.
  change (_days_before_year 9998) with 3651329 in Hm.
  pose proof (isoweek1monday_step (y + 1)) as Hstep.
  assert (Ho : 1 <= o <= _MAXORDINAL) by (unfold _MAXORDINAL; subst o; lia).
  exists (fromordinal o).
  rewrite calculate_weekdate_ord by lia. fold o.
  destruct (Z.leb_spec o _MAXORDINAL); [|lia].
  split; [reflexivity|].
  assert (Hcases : forall Y, _isoweek1monday Y <= o < _isoweek1monday (Y + 1) ->
            valid_date (fromordinal o) /\
            isocalendar (fromordinal o)
            = (Y, (o - _isoweek1monday Y) / 7 + 1,
               (o - _isoweek1monday Y) mod 7 + 1))
    by (intros Y HY; apply isocalendar_fromordinal; assumption).
  pose proof (isoweek1monday_step y) as [H52 | H53].
  - destruct (Hcases (y + 1) ltac:(subst o; lia)) as [Hv Hiso].
    split; [exact Hv|]. split.
    + intros _. rewrite Hiso. subst o.
      f_equal; [f_equal|]; Z.to_euclidean_division_equations; lia.
    + intros Hw. apply iso_weeks_in_year_53 in Hw. lia.
  - destruct (Hcases y ltac:(subst o; lia)) as [Hv Hiso].
    split; [exact Hv|]. split.
    + intros Hw. apply iso_weeks_in_year_52 in Hw. lia.
    + intros _. rewrite Hiso. subst o.
      f_equal; [f_equal|]; Z.to_euclidean_division_equations; lia.
Qed.

Lemma C10_week53_accepted_witness :
  1 <= 2005 <= 9998 /\ 1 <= 1 <= 7 /\
  exists D, _calculate_weekdate 2005 53 1 = Ok D /\
            isocalendar D = (2006, 1, 1).
Proof.
  split; [lia|]. split; [lia|].
  destruct (C10_week53_accepted 2005 1 ltac:(lia) ltac:(lia))
    as (D & Hc & _ & H52 & _).
  exists D. split; [exact Hc | exact (H52 eq_refl)].
Defined.

(* ================================================================== *)
(** ** Further lemmas                                                *)
(* ================================================================== *)

(** *** Exceptions of the common grammar, the zone parser and the time parser *)

Lemma only_ValueError_ok {A : Type} (a : A) : only_ValueError (Ok a).
Proof. intros e H. discriminate H. Qed.

Lemma only_ValueError_raise {A : Type} : only_ValueError (@Raise A ValueError).
Proof. intros e H. injection H as <-. reflexivity. Qed.

Lemma only_ValueError_bind {A B : Type} (r : result A) (k : A -> result B) :
  only_ValueError r -> (forall a, r = Ok a -> only_ValueError (k a)) ->
  only_ValueError (bind r k).
Proof.
  intros Hr Hk e. destruct r as [a|e']; cbn [bind].
  - apply (Hk a eq_refl).
  - intros H. injection H as <-. apply Hr. reflexivity.
Qed.

Lemma int_digits_only s : forall prev acc,
  only_ValueError (int_digits s prev acc).
Proof.
  induction s as [|c s IH]; intros prev acc; cbn [int_digits].
  - destruct prev; [apply only_ValueError_raise | apply only_ValueError_ok].
  - destruct (digit_val c); [apply IH|].
    destruct (ch_eqb c "_"), prev;
      first [apply only_ValueError_raise | apply only_ValueError_ok | apply IH].
Qed.

Lemma int_unsigned_only s : only_ValueError (int_unsigned s).
Proof.
  destruct s as [|c s]; cbn [int_unsigned]; [apply only_ValueError_raise|].
  destruct (digit_val c); [|apply only_ValueError_raise].
  apply only_ValueError_bind; [apply int_digits_only|].
  intros [v rest] _. destruct (all_space rest);
    [apply only_ValueError_ok | apply only_ValueError_raise].
Qed.

Lemma int_only s : only_ValueError (int s).
Proof.
  unfold int. destruct (lstrip s) as [|c t]; [apply only_ValueError_raise|].
  destruct (ch_eqb c "+"); [apply int_unsigned_only|].
  destruct (ch_eqb c "-"); [|apply int_unsigned_only].
  apply only_ValueError_bind; [apply int_unsigned_only|].
  intros v _. apply only_ValueError_ok.
Qed.

Lemma index_only s i : 0 <= i < len s -> only_ValueError (index s i).
Proof.
  intros H. destruct (index_in_range s i H) as [c ->]. apply only_ValueError_ok.
Qed.

(** What the common date grammar returns: three integers and a position
    between 4 and the length of the text; it raises nothing but
    [ValueError]. *)
Lemma common_result dt_str :
  match _parse_isodate_common dt_str with
  | Ok (components, pos) =>
      (exists y m d, components = [VInt y; VInt m; VInt d]) /\
      4 <= pos <= len dt_str
  | Raise e => e = ValueError
  end.
Proof.
  unfold _parse_isodate_common. cbv zeta.
  destruct (Z.ltb_spec (len dt_str) 4) as [|H4]; [reflexivity|].
  destruct (int (slice dt_str 0 4)) as [y|e] eqn:Hy;
    [|apply (int_only _ _ Hy)].
  cbn [bind set_item List.length set_nth].
  change (set_item [VInt 1; VInt 1; VInt 1] 0 (VInt y))
    with (Ok [VInt y; VInt 1; VInt 1]). cbn [bind].
  destruct (Z.leb_spec (len dt_str) 4) as [|H5]; [split; [eauto | lia]|].
  destruct (index_in_range dt_str 4 ltac:(lia)) as [c4 ->]. cbn [bind].
  set (pos := if ch_eqb c4 "-" then 4 + 1 else 4).
  assert (Hpos : 4 <= pos <= 5) by (subst pos; destruct (ch_eqb c4 "-"); lia).
  clearbody pos.
  destruct (Z.ltb_spec (len dt_str - pos) 2) as [|Hm]; [reflexivity|].
  destruct (int (slice dt_str pos (pos + 2))) as [m|e] eqn:Hmo;
    [|apply (int_only _ _ Hmo)].
  cbn [bind].
  change (set_item [VInt y; VInt 1; VInt 1] 1 (VInt m))
    with (Ok [VInt y; VInt m; VInt 1]). cbn [bind].
  destruct (Z.leb_spec (len dt_str) (pos + 2)) as [|H6]; [split; [eauto | lia]|].
  assert (Hpos' : exists r,
             (if ch_eqb c4 "-"
              then c <- index dt_str (pos + 2) ;;
                   (if negb (ch_eqb c "-") then Raise ValueError
                    else Ok (pos + 2 + 1))
              else Ok (pos + 2)) = r /\
             match r with
             | Ok p => pos + 2 <= p <= pos + 3
             | Raise e => e = ValueError
             end).
  { eexists. split; [reflexivity|]. destruct (ch_eqb c4 "-"); [|lia].
    destruct (index_in_range dt_str (pos + 2) ltac:(lia)) as [c ->]. cbn [bind].
    destruct (ch_eqb c "-"); cbn [negb]; [lia | reflexivity]. }
  destruct Hpos' as (r & -> & Hr). destruct r as [p|e]; [|exact Hr].
  cbn [bind].
  destruct (Z.ltb_spec (len dt_str - p) 2) as [|Hd]; [reflexivity|].
  destruct (int (slice dt_str p (p + 2))) as [d|e] eqn:Hdo;
    [|apply (int_only _ _ Hdo)].
  cbn [bind].
  change (set_item [VInt y; VInt m; VInt 1] 2 (VInt d))
    with (Ok [VInt y; VInt m; VInt d]). cbn [bind].
  split; [eauto | lia].
Qed.

Lemma parse_tzstr_only tzstr zu : only_ValueError (parse_tzstr tzstr zu).
Proof.
  unfold parse_tzstr.
  destruct (String.eqb tzstr "Z"); [apply only_ValueError_ok|].
  destruct (existsb (Z.eqb (len tzstr)) [3; 5; 6]) eqn:Hlen; cbn [negb];
    [|apply only_ValueError_raise].
  assert (Hl : len tzstr = 3 \/ len tzstr = 5 \/ len tzstr = 6).
  { cbn [existsb] in Hlen.
    destruct (Z.eqb_spec (len tzstr) 3); [lia|].
    destruct (Z.eqb_spec (len tzstr) 5); [lia|].
    destruct (Z.eqb_spec (len tzstr) 6); [lia | discriminate Hlen]. }
  apply only_ValueError_bind; [apply index_only; lia|]. intros c0 _.
  apply only_ValueError_bind.
  { destruct (ch_eqb c0 "-"); [apply only_ValueError_ok|].
    destruct (ch_eqb c0 "+");
      [apply only_ValueError_ok | apply only_ValueError_raise]. }
  intros mult _.
  apply only_ValueError_bind; [apply int_only|]. intros hours _.
  apply only_ValueError_bind.
  { destruct (Z.eqb_spec (len tzstr) 3); [apply only_ValueError_ok|].
    apply only_ValueError_bind; [apply index_only; lia|].
    intros c3 _. apply int_only. }
  intros minutes _.
  destruct (zu && (hours =? 0) && (minutes =? 0)); [apply only_ValueError_ok|].
  destruct (59 <? minutes); [apply only_ValueError_raise|].
  destruct (23 <? hours); [apply only_ValueError_raise | apply only_ValueError_ok].
Qed.

Lemma set_item_time_ok components comp v :
  time_shape components -> 0 <= comp <= 3 ->
  exists components', set_item components comp (VInt v) = Ok components'.
Proof.
  intros (h & mi & s & us & z & -> & Hz) Hc.
  assert (Hcases : comp = 0 \/ comp = 1 \/ comp = 2 \/ comp = 3) by lia.
  destruct Hcases as [-> | [-> | [-> | ->]]]; cbn; eauto.
Qed.

Lemma set_item_zone_ok components t :
  time_shape components ->
  exists components', set_item components (-1) (VTz t) = Ok components'.
Proof.
  intros (h & mi & s & us & z & -> & Hz). cbn. eauto.
Qed.

Lemma _parse_isotime_loop_only fuel timestr has_sep :
  forall components pos comp,
    -1 <= comp -> 0 <= pos -> time_shape components ->
    only_ValueError
      (_parse_isotime_loop fuel timestr has_sep components pos comp).
Proof.
  induction fuel as [|fuel IH]; intros components pos comp Hc Hp Hs;
    cbn [_parse_isotime_loop].
  - apply only_ValueError_ok.
  - destruct (Z.ltb_spec pos (len timestr)) as [Hlt|]; cbn [andb negb];
      [|apply only_ValueError_ok].
    destruct (Z.ltb_spec comp 5) as [Hc5|]; cbn [negb];
      [|apply only_ValueError_ok].
    destruct (index_in_range timestr pos ltac:(lia)) as [c Hc0].
    rewrite Hc0. cbn [bind].
    destruct (in_tz_chars c).
    { apply only_ValueError_bind; [apply parse_tzstr_only|]. intros z _.
      destruct (set_item_zone_ok components z Hs) as [cs ->]. cbn [bind].
      apply only_ValueError_ok. }
    destruct (Z.ltb_spec (comp + 1) 3) as [H3|H3].
    + apply only_ValueError_bind.
      { apply only_ValueError_bind; [apply int_only|]. intros v _.
        destruct (set_item_time_ok components (comp + 1) v Hs ltac:(lia))
          as [cs ->]. cbn [bind].
        destruct (has_sep && (pos + 2 <? len timestr)) eqn:Hb;
          [|apply only_ValueError_ok].
        apply andb_true_iff in Hb as [_ Hb]. apply Z.ltb_lt in Hb.
        destruct (index_in_range timestr (pos + 2) ltac:(lia)) as [c' ->].
        apply only_ValueError_ok. }
      intros [cs p] Hcs. 
      destruct (int (slice timestr pos (pos + 2))) as [v|e]; [|discriminate Hcs].
      cbn [bind] in Hcs.
      destruct (set_item components (comp + 1) (VInt v)) as [cs'|e] eqn:Hset;
        [|discriminate Hcs].
      cbn [bind] in Hcs.
      assert (Hcs' : cs = cs' /\ pos + 2 <= p).
      { destruct (has_sep && (pos + 2 <? len timestr)).
        - destruct (index timestr (pos + 2)) as [c'|e]; [|discriminate Hcs].
          cbn [bind] in Hcs. injection Hcs as <- <-.
          split; [reflexivity|]. destruct (ch_eqb c' ":"); lia.
        - injection Hcs as <- <-. split; [reflexivity | lia]. }
      destruct Hcs' as [<- Hp'].
      destruct (Z.eqb_spec (comp + 1) 3); [lia|].
      apply IH; [lia | lia |].
      eapply set_item_shape_int; [exact Hs | | exact Hset]. lia.
    + cbn [bind]. destruct (Z.eqb_spec (comp + 1) 3) as [E3|N3].
      * rewrite Hc0. cbn [bind].
        destruct (ch_eqb c "."); cbn [negb]; [|apply IH; [lia | lia | exact Hs]].
        apply only_ValueError_bind; [apply int_only|]. intros v _.
        destruct (set_item _ (comp + 1) _) as [cs|e] eqn:Hset.
        -- cbn [bind]. apply IH; [lia | pose proof (len_nonneg
             (_MICROSECOND_END_REGEX_split_0 (slice timestr (pos + 1) (pos + 1 + 6)))); lia |].
           eapply set_item_shape_int; [exact Hs | | exact Hset]. lia.
        -- destruct (set_item_time_ok components (comp + 1)
                       (v * 10 ^ (6 - len (_MICROSECOND_END_REGEX_split_0
                          (slice timestr (pos + 1) (pos + 1 + 6))))) Hs ltac:(lia))
             as [cs Hcs]. rewrite Hcs in Hset. discriminate Hset.
      * apply IH; [lia | lia | exact Hs].
Qed.

Lemma time_init_shape : time_shape time_init.
Proof. unfold time_shape, time_init. eauto 10. Qed.

Lemma _parse_isotime_scan_only timestr :
  only_ValueError (_parse_isotime_scan timestr).
Proof.
  unfold _parse_isotime_scan. cbv zeta.
  destruct (_time_has_sep_ok timestr) as [b ->]. cbn [bind].
  apply only_ValueError_bind.
  - apply _parse_isotime_loop_only; [lia | lia | apply time_init_shape].
  - intros [cs p] _. destruct (p <? len timestr);
      [apply only_ValueError_raise | apply only_ValueError_ok].
Qed.

Lemma midnight_only components :
  time_shape components -> only_ValueError (_midnight components).
Proof.
  intros (h & mi & s & us & z & -> & _).
  destruct (Z.eq_dec h 24) as [-> | Hne].
  - rewrite midnight_24. destruct ((mi =? 0) && (s =? 0) && (us =? 0));
      [apply only_ValueError_ok | apply only_ValueError_raise].
  - rewrite midnight_other by exact Hne. apply only_ValueError_ok.
Qed.

Lemma midnight_shape components r :
  time_shape components -> _midnight components = Ok r -> time_shape r.
Proof.
  intros (h & mi & s & us & z & -> & Hz).
  destruct (Z.eq_dec h 24) as [-> | Hne].
  - rewrite midnight_24. destruct ((mi =? 0) && (s =? 0) && (us =? 0));
      [|discriminate]. intros H. injection H as <-. unfold time_shape. eauto 10.
  - rewrite midnight_other by exact Hne. intros H. injection H as <-.
    unfold time_shape. eauto 10.
Qed.

Lemma _parse_isotime_shape timestr components :
  _parse_isotime timestr = Ok components -> time_shape components.
Proof.
  unfold _parse_isotime. intros H.
  destruct (_parse_isotime_scan timestr) as [cs|e] eqn:Hscan; [|discriminate H].
  cbn [bind] in H.
  eapply midnight_shape; [|exact H]. eapply _parse_isotime_scan_shape. exact Hscan.
Qed.

Lemma _parse_isotime_only timestr : only_ValueError (_parse_isotime timestr).
Proof.
  unfold _parse_isotime. apply only_ValueError_bind.
  - apply _parse_isotime_scan_only.
  - intros cs Hcs. apply midnight_only.
    eapply _parse_isotime_scan_shape. exact Hcs.
Qed.

Lemma time_new_only h mi s us z : only_ValueError (time_new h mi s us z).
Proof.
  unfold time_new. destruct (_check_time_fields h mi s us);
    first [apply only_ValueError_ok | apply only_ValueError_raise].
Qed.

Lemma date_new_only y m d : only_ValueError (date_new y m d).
Proof.
  unfold date_new.
  repeat match goal with
         | |- context [if ?b then _ else _] => destruct b
         end;
    first [apply only_ValueError_ok | apply only_ValueError_raise].
Qed.

Lemma datetime_new_only y m d h mi s us z :
  only_ValueError (datetime_new y m d h mi s us z).
Proof.
  unfold datetime_new. apply only_ValueError_bind; [apply date_new_only|].
  intros dd _. apply only_ValueError_bind; [apply time_new_only|].
  intros tt _. apply only_ValueError_ok.
Qed.

Lemma tz_of_shape z :
  z = VNone \/ (exists t, z = VTz t) -> exists tzv, tz_of z = Ok tzv.
Proof. intros [-> | [t ->]]; cbn; eauto. Qed.

Lemma time_of_only components :
  time_shape components -> only_ValueError (time_of components).
Proof.
  intros (h & mi & s & us & z & -> & Hz). cbn [time_of].
  destruct (tz_of_shape z Hz) as [tzv ->]. cbn [bind]. apply time_new_only.
Qed.

Lemma isoparse_strict_only self dt_str :
  only_ValueError (isoparse self dt_str true).
Proof.
  unfold isoparse. pose proof (common_result dt_str) as Hc.
  destruct (_parse_isodate_common dt_str) as [[components pos]|e];
    [|cbn [bind]; subst e; apply only_ValueError_raise].
  destruct Hc as [(y & m & d & ->) Hpos]. cbn [bind].
  destruct (Z.ltb_spec pos (len dt_str)) as [Hlt|Hge].
  - destruct (index_in_range dt_str pos ltac:(lia)) as [c ->]. cbn [bind].
    destruct (String.eqb (String c "") (_sep self));
      [|cbn [bind]; apply only_ValueError_raise].
    pose proof (_parse_isotime_only (slice_from dt_str (pos + 1))) as Ht.
    destruct (_parse_isotime (slice_from dt_str (pos + 1))) as [tc|e] eqn:Htc.
    + destruct (_parse_isotime_shape _ _ Htc) as (h & mi & s & us & z & -> & Hz).
      cbn [bind List.app datetime_of].
      destruct (tz_of_shape z Hz) as [tzv ->]. cbn [bind].
      apply datetime_new_only.
    + cbn [bind]. intros e' He'. injection He' as <-. apply Ht. reflexivity.
  - cbn [bind datetime_of]. apply datetime_new_only.
Qed.

(** *** Exceptions of the date parser *)

Lemma raises_only_ok {A : Type} P (a : A) : raises_only P (Ok a).
Proof. intros e H. discriminate H. Qed.

Lemma raises_only_raise {A : Type} (P : exc -> Prop) e :
  P e -> raises_only P (@Raise A e).
Proof. intros H e' He. injection He as <-. exact H. Qed.

Lemma raises_only_bind {A B : Type} P (r : result A) (k : A -> result B) :
  raises_only P r -> (forall a, r = Ok a -> raises_only P (k a)) ->
  raises_only P (bind r k).
Proof.
  intros Hr Hk e. destruct r as [a|e']; cbn [bind].
  - apply (Hk a eq_refl).
  - intros H. injection H as <-. apply Hr. reflexivity.
Qed.

Lemma raises_only_value {A : Type} (P : exc -> Prop) (r : result A) :
  P ValueError -> only_ValueError r -> raises_only P r.
Proof. intros HP Hr e He. rewrite (Hr e He). exact HP. Qed.

Lemma index_raises s i e :
  0 <= i -> index s i = Raise e -> e = IndexError /\ len s <= i.
Proof.
  intros Hi H. split.
  - unfold index in H.
    destruct ((_ <? 0) || _); [injection H as <-; reflexivity|].
    destruct (nth_char _ s); [discriminate H | injection H as <-; reflexivity].
  - destruct (Z.le_gt_cases (len s) i) as [|Hlt]; [assumption|].
    destruct (index_in_range s i ltac:(lia)) as [c Hc]. congruence.
Qed.

Lemma index_date_error dt_str i :
  0 <= i < 10 -> raises_only (date_error dt_str) (index dt_str i).
Proof.
  intros Hi e He. destruct (index_raises dt_str i e ltac:(lia) He) as [-> Hl].
  right. left. split; [reflexivity | lia].
Qed.

Lemma date_new_date_error s y m d : raises_only (date_error s) (date_new y m d).
Proof. apply raises_only_value; [left; reflexivity | apply date_new_only]. Qed.

Lemma int_date_error s x : raises_only (date_error s) (int x).
Proof. apply raises_only_value; [left; reflexivity | apply int_only]. Qed.

Lemma date_add_days_date_error s d k :
  raises_only (date_error s) (date_add_days d k).
Proof.
  unfold date_add_days. cbv zeta. destruct (_ && _);
    [apply raises_only_ok | apply raises_only_raise; right; right; reflexivity].
Qed.

Lemma calculate_weekdate_date_error s y w d :
  raises_only (date_error s) (_calculate_weekdate y w d).
Proof.
  unfold _calculate_weekdate.
  destruct (negb _); [apply raises_only_raise; left; reflexivity|].
  destruct (negb _); [apply raises_only_raise; left; reflexivity|].
  apply raises_only_bind; [apply date_new_date_error|]. intros jan_4 _.
  destruct (isocalendar jan_4) as [[a b] wd].
  apply raises_only_bind; [apply date_add_days_date_error|]. intros week_1 _.
  apply date_add_days_date_error.
Qed.

Lemma uncommon_errors self dt_str :
  raises_only (date_error dt_str) (_parse_isodate_uncommon self dt_str).
Proof.
  unfold _parse_isodate_uncommon.
  destruct (String.eqb (slice dt_str 0 2) "--").
  - apply raises_only_bind; [apply int_date_error|]. intros month _.
    apply raises_only_bind; [apply index_date_error; lia|]. intros c4 _.
    apply raises_only_bind; [apply int_date_error|]. intros day _.
    apply raises_only_ok.
  - apply raises_only_bind; [apply int_date_error|]. intros year _.
    apply raises_only_bind; [apply index_date_error; lia|]. intros c4 _.
    cbv zeta.
    set (pos := 4 + int_of_bool (ch_eqb c4 "-")).
    assert (Hpos : 4 <= pos <= 5)
      by (subst pos; destruct (ch_eqb c4 "-"); cbn [int_of_bool]; lia).
    clearbody pos.
    apply raises_only_bind; [apply index_date_error; lia|]. intros c _.
    apply raises_only_bind; [|intros [base_date p] _; apply raises_only_ok].
    destruct (ch_eqb c "W").
    + apply raises_only_bind; [apply int_date_error|]. intros weekno _.
      apply raises_only_bind.
      * destruct (pos + 1 + 2 <? len dt_str); [|apply raises_only_ok].
        apply raises_only_bind; [apply index_date_error; lia|]. intros c' _.
        apply raises_only_bind.
        { destruct (ch_eqb c' "-"); [|apply raises_only_ok].
          apply raises_only_bind; [apply index_date_error; lia|]. intros c4' _.
          destruct (negb _);
            [apply raises_only_raise; left; reflexivity | apply raises_only_ok]. }
        intros p Hp.
        assert (Hp' : pos + 3 <= p <= pos + 4).
        { destruct (ch_eqb c' "-"); [|injection Hp as <-; lia].
          destruct (index dt_str 4) as [c4'|]; [|discriminate Hp].
          cbn [bind] in Hp. destruct (negb _); [discriminate Hp|].
          injection Hp as <-. lia. }
        apply raises_only_bind; [apply index_date_error; lia|]. intros c'' _.
        apply raises_only_bind; [apply int_date_error|]. intros dayno _.
        apply raises_only_ok.
      * intros [dayno p] _.
        apply raises_only_bind; [apply calculate_weekdate_date_error|].
        intros base _. apply raises_only_ok.
    + apply raises_only_bind; [apply int_date_error|]. intros ordinal_day _.
      destruct (_ || _); [apply raises_only_raise; left; reflexivity|].
      apply raises_only_bind; [apply date_new_date_error|]. intros jan_1 _.
      apply raises_only_bind; [apply date_add_days_date_error|]. intros base _.
      apply raises_only_ok.
Qed.

Lemma uncommon_shape self dt_str components pos :
  _parse_isodate_uncommon self dt_str = Ok (components, pos) ->
  exists y m d, components = [VInt y; VInt m; VInt d].
Proof.
  unfold _parse_isodate_uncommon. intros H.
  destruct (String.eqb (slice dt_str 0 2) "--").
  - destruct (int _) as [month|]; [|discriminate H]. cbn [bind] in H.
    destruct (index _ _) as [c4|]; [|discriminate H]. cbn [bind] in H.
    destruct (int _) as [day|]; [|discriminate H]. cbn [bind] in H.
    injection H as <- _. eauto.
  - destruct (int _) as [year|]; [|discriminate H]. cbn [bind] in H.
    destruct (index _ _) as [c4|]; [|discriminate H]. cbn [bind] in H.
    cbv zeta in H.
    destruct (index _ _) as [c|]; [|discriminate H]. cbn [bind] in H.
    match type of H with
    | bind ?r _ = _ => destruct r as [[base p]|]; [|discriminate H]
    end.
    cbn [bind] in H. injection H as <- _. eauto.
Qed.

Lemma parse_isodate_inner_errors self dt_str :
  raises_only (date_error dt_str) (_parse_isodate self dt_str).
Proof.
  unfold _parse_isodate. pose proof (common_result dt_str) as Hc.
  destruct (_parse_isodate_common dt_str) as [[cs p]|e].
  - apply raises_only_ok.
  - subst e. cbn [try_except_ValueError]. apply uncommon_errors.
Qed.

Lemma parse_isodate_inner_shape self dt_str components pos :
  _parse_isodate self dt_str = Ok (components, pos) ->
  exists y m d, components = [VInt y; VInt m; VInt d].
Proof.
  unfold _parse_isodate. pose proof (common_result dt_str) as Hc.
  destruct (_parse_isodate_common dt_str) as [[cs p]|e].
  - cbn [try_except_ValueError]. intros H. injection H as <- <-. apply Hc.
  - subst e. cbn [try_except_ValueError]. apply uncommon_shape.
Qed.

Lemma parse_isodate_errors self datestr :
  raises_only (date_error datestr) (parse_isodate self datestr).
Proof.
  unfold parse_isodate. apply raises_only_bind; [apply parse_isodate_inner_errors|].
  intros [cs p] Hcs.
  destruct (parse_isodate_inner_shape _ _ _ _ Hcs) as (y & m & d & ->).
  cbn [date_of]. apply date_new_date_error.
Qed.

Lemma uncommon_pos self dt_str components pos :
  _parse_isodate_uncommon self dt_str = Ok (components, pos) -> 6 <= pos.
Proof.
  unfold _parse_isodate_uncommon. intros H.
  destruct (String.eqb (slice dt_str 0 2) "--").
  - destruct (int _) as [month|]; [|discriminate H]. cbn [bind] in H.
    destruct (index _ _) as [c4|]; [|discriminate H]. cbn [bind] in H.
    destruct (int _) as [day|]; [|discriminate H]. cbn [bind] in H.
    injection H as _ <-. destruct (ch_eqb c4 "-"); cbn [int_of_bool]; lia.
  - destruct (int _) as [year|]; [|discriminate H]. cbn [bind] in H.
    destruct (index _ _) as [c4|]; [|discriminate H]. cbn [bind] in H.
    cbv zeta in H.
    set (p0 := 4 + int_of_bool (ch_eqb c4 "-")) in H.
    assert (Hp0 : 4 <= p0)
      by (subst p0; destruct (ch_eqb c4 "-"); cbn [int_of_bool]; lia).
    clearbody p0.
    destruct (index _ _) as [c|]; [|discriminate H]. cbn [bind] in H.
    destruct (ch_eqb c "W").
    + destruct (int _) as [weekno|]; [|discriminate H]. cbn [bind] in H.
      destruct (p0 + 1 + 2 <? len dt_str).
      * destruct (index _ _) as [c'|]; [|discriminate H]. cbn [bind] in H.
        destruct (ch_eqb c' "-").
        -- cbn [bind] in H.
           destruct (negb _); [discriminate H|]. cbn [bind] in H.
           destruct (index _ _) as [c''|]; [|discriminate H]. cbn [bind] in H.
           destruct (int_of_char _) as [dayno|]; [|discriminate H]. cbn [bind] in H.
           destruct (_calculate_weekdate _ _ _); [|discriminate H]. cbn [bind] in H.
           injection H as _ <-. lia.
        -- cbn [bind] in H.
           destruct (index _ _) as [c''|]; [|discriminate H]. cbn [bind] in H.
           destruct (int_of_char _) as [dayno|]; [|discriminate H]. cbn [bind] in H.
           destruct (_calculate_weekdate _ _ _); [|discriminate H]. cbn [bind] in H.
           injection H as _ <-. lia.
      * cbn [bind] in H.
        destruct (_calculate_weekdate _ _ _); [|discriminate H]. cbn [bind] in H.
        injection H as _ <-. lia.
    + destruct (int _) as [ordinal_day|]; [|discriminate H]. cbn [bind] in H.
      destruct (_ || _); [discriminate H|].
      destruct (date_new _ _ _); [|discriminate H]. cbn [bind] in H.
      destruct (date_add_days _ _); [|discriminate H]. cbn [bind] in H.
      injection H as _ <-. lia.
Qed.

Lemma parse_isodate_inner_pos self dt_str components pos :
  _parse_isodate self dt_str = Ok (components, pos) -> 4 <= pos.
Proof.
  unfold _parse_isodate. pose proof (common_result dt_str) as Hc.
  destruct (_parse_isodate_common dt_str) as [[cs p]|e].
  - cbn [try_except_ValueError]. intros H. injection H as <- <-. lia.
  - subst e. cbn [try_except_ValueError]. intros H.
    apply uncommon_pos in H. lia.
Qed.

Lemma isoparse_errors self dt_str :
  raises_only (date_error dt_str) (isoparse self dt_str false).
Proof.
  unfold isoparse.
  apply raises_only_bind; [apply parse_isodate_inner_errors|].
  intros [cs pos] Hcs.
  destruct (parse_isodate_inner_shape _ _ _ _ Hcs) as (y & m & d & ->).
  pose proof (parse_isodate_inner_pos _ _ _ _ Hcs) as Hpos.
  apply raises_only_bind.
  - destruct (Z.ltb_spec pos (len dt_str)); [|apply raises_only_ok].
    destruct (index_in_range dt_str pos ltac:(lia)) as [c ->]. cbn [bind].
    destruct (String.eqb _ _); [|apply raises_only_raise; left; reflexivity].
    apply raises_only_bind;
      [apply raises_only_value; [left; reflexivity | apply _parse_isotime_only]|].
    intros tc _. apply raises_only_ok.
  - intros cs' Hcs'.
    assert (Hshape : cs' = [VInt y; VInt m; VInt d] \/
                     exists tc, time_shape tc /\
                                cs' = List.app [VInt y; VInt m; VInt d] tc).
    { destruct (pos <? len dt_str); [|injection Hcs' as <-; left; reflexivity].
      destruct (index dt_str pos) as [c|]; [|discriminate Hcs']. cbn [bind] in Hcs'.
      destruct (String.eqb _ _); [|discriminate Hcs'].
      destruct (_parse_isotime _) as [tc|] eqn:Htc; [|discriminate Hcs'].
      cbn [bind] in Hcs'. injection Hcs' as <-. right. exists tc.
      split; [eapply _parse_isotime_shape; exact Htc | reflexivity]. }
    destruct Hshape as [-> | (tc & (h & mi & s & us & z & -> & Hz) & ->)].
    + cbn [datetime_of]. apply raises_only_value;
        [left; reflexivity | apply datetime_new_only].
    + cbn [List.app datetime_of]. destruct (tz_of_shape z Hz) as [tzv ->].
      cbn [bind]. apply raises_only_value;
        [left; reflexivity | apply datetime_new_only].
Qed.

(** *** The range of [int] and of the offsets *)

Lemma digit_val_range c d : digit_val c = Some d -> 0 <= d <= 9.
Proof.
  unfold digit_val. cbv zeta.
  destruct (Z.leb_spec 48 (code c)), (Z.leb_spec (code c) 57); cbn [andb];
    intros Hd; try discriminate Hd. injection Hd as <-. lia.
Qed.

Lemma pow10_pos n : 0 <= n -> 1 <= 10 ^ n.
Proof. intros H. pose proof (Z.pow_pos_nonneg 10 n ltac:(lia) H). lia. Qed.

Lemma pow10_succ n : 0 <= n -> 10 ^ (n + 1) = 10 * 10 ^ n.
Proof. intros H. apply Z.pow_succ_r. exact H. Qed.

Lemma int_digits_bound s : forall prev acc v rest,
  0 <= acc -> int_digits s prev acc = Ok (v, rest) ->
  acc <= v < (acc + 1) * 10 ^ len s.
Proof.
  induction s as [|c s IH]; intros prev acc v rest Ha H; cbn [int_digits] in H.
  - destruct prev; [discriminate H|]. injection H as <- _.
    change (len "") with 0. lia.
  - rewrite len_cons. pose proof (len_nonneg s) as Hs.
    rewrite pow10_succ by lia. pose proof (pow10_pos (len s) Hs) as Hp.
    destruct (digit_val c) as [d|] eqn:Hd.
    + apply digit_val_range in Hd. apply IH in H; [|lia]. nia.
    + destruct (ch_eqb c "_").
      * destruct prev; [discriminate H|]. apply IH in H; [|lia]. nia.
      * destruct prev; [discriminate H|]. injection H as <- _. nia.
Qed.

Lemma int_unsigned_bound s v :
  int_unsigned s = Ok v -> 0 <= v < 10 ^ len s.
Proof.
  destruct s as [|c s]; cbn [int_unsigned]; [discriminate|].
  destruct (digit_val c) as [d|] eqn:Hd; [|discriminate].
  apply digit_val_range in Hd.
  destruct (int_digits s false d) as [[v' rest]|] eqn:Hi; [|discriminate].
  cbn [bind]. destruct (all_space rest); [|discriminate].
  intros H. injection H as <-.
  apply int_digits_bound in Hi; [|lia].
  rewrite len_cons. pose proof (len_nonneg s) as Hs.
  rewrite pow10_succ by lia. pose proof (pow10_pos (len s) Hs). nia.
Qed.

Lemma lstrip_len s : len (lstrip s) <= len s.
Proof.
  induction s as [|c s IH]; cbn [lstrip]; [lia|].
  destruct (is_space c); [rewrite len_cons; lia | lia].
Qed.

Lemma pow10_mono a b : 0 <= a <= b -> 10 ^ a <= 10 ^ b.
Proof. intros H. apply Z.pow_le_mono_r; lia. Qed.

(** The range of [int] on a string of [n] characters: a sign takes one of
    them. *)
Lemma int_bound s v n :
  int s = Ok v -> len s <= n -> 1 <= n -> - 10 ^ (n - 1) < v < 10 ^ n.
Proof.
  unfold int. intros H Hn Hn1. pose proof (lstrip_len s) as Hl.
  destruct (lstrip s) as [|c t]; [discriminate H|].
  rewrite len_cons in Hl. pose proof (len_nonneg t) as Ht.
  pose proof (pow10_mono (len t) (n - 1) ltac:(lia)) as Hm.
  pose proof (pow10_succ (n - 1) ltac:(lia)) as Hs.
  replace (n - 1 + 1) with n in Hs by lia.
  pose proof (pow10_pos (n - 1) ltac:(lia)) as Hp.
  destruct (ch_eqb c "+").
  - apply int_unsigned_bound in H. lia.
  - destruct (ch_eqb c "-").
    + destruct (int_unsigned t) as [u|] eqn:Hu; [|discriminate H].
      cbn [bind] in H. injection H as <-.
      apply int_unsigned_bound in Hu. lia.
    + apply int_unsigned_bound in H. rewrite len_cons in H.
      pose proof (pow10_mono (len t + 1) n ltac:(lia)). lia.
Qed.

Lemma len_drop_eq n s : len (drop n s) = Z.max 0 (len s - Z.of_nat n).
Proof.
  revert s. induction n as [|n IH]; intros s; cbn [drop].
  - pose proof (len_nonneg s). lia.
  - destruct s as [|c s]; [change (len "") with 0; lia|].
    rewrite len_cons, IH. lia.
Qed.

Lemma len_slice_from s a : 0 <= a <= len s -> len (slice_from s a) = len s - a.
Proof.
  intros H. unfold slice_from. rewrite clamp_nonneg by lia.
  rewrite len_drop_eq. lia.
Qed.

(** *** Ordinal dates *)

Lemma int_fmt03 n : 0 <= n < 1000 -> int (fmt03 n) = Ok n.
Proof.
  intros H. rewrite int_all_digits.
  - f_equal. unfold decimal_value, fmt03. cbn [decimal_from].
    rewrite !digit_val_digit_char. Z.to_euclidean_division_equations. lia.
  - discriminate.
  - unfold fmt03. cbn [all_digits]. rewrite !digit_char_is_digit. reflexivity.
Qed.

Lemma common_ordinal_dashed (y1 y2 y3 y4 o1 o2 o3 : ascii) :
  ch_eqb o3 "-" = false ->
  _parse_isodate_common
    (String y1 (String y2 (String y3 (String y4 (String "-"
      (String o1 (String o2 (String o3 ""))))))))
  = Raise ValueError.
Proof.
  intros H3.
  pose proof (common_result
    (String y1 (String y2 (String y3 (String y4 (String "-"
      (String o1 (String o2 (String o3 ""))))))))) as Hr.
  revert Hr. unfold _parse_isodate_common.
  change (len _) with 8. cbn [Z.ltb Z.compare Z.leb Pos.compare Pos.compare_cont].
  change (slice _ 0 4) with (String y1 (String y2 (String y3 (String y4 "")))).
  destruct (int (String y1 _)) as [y|e]; [|cbn [bind]; intros ->; reflexivity].
  cbn [bind]. change (set_item _ 0 (VInt y)) with (Ok [VInt y; VInt 1; VInt 1]).
  cbn [bind]. change (index _ 4) with (Ok "-"%char). cbn [bind].
  change (ch_eqb "-" "-") with true. cbv iota.
  change (8 - (4 + 1) <? 2) with false. cbv iota.
  change (slice _ (4 + 1) (4 + 1 + 2)) with (String o1 (String o2 "")).
  destruct (int (String o1 _)) as [m|e]; [|cbn [bind]; intros ->; reflexivity].
  cbn [bind]. change (set_item _ 1 (VInt m)) with (Ok [VInt y; VInt m; VInt 1]).
  cbn [bind]. change (8 <=? 4 + 1 + 2) with false. cbv iota.
  change (index _ (4 + 1 + 2)) with (Ok o3). cbn [bind]. rewrite H3.
  reflexivity.
Qed.

Lemma common_ordinal_undashed (y1 y2 y3 y4 o1 o2 o3 : ascii) :
  ch_eqb o1 "-" = false ->
  _parse_isodate_common
    (String y1 (String y2 (String y3 (String y4
      (String o1 (String o2 (String o3 "")))))))
  = Raise ValueError.
Proof.
  intros H1.
  pose proof (common_result
    (String y1 (String y2 (String y3 (String y4
      (String o1 (String o2 (String o3 "")))))))) as Hr.
  revert Hr. unfold _parse_isodate_common.
  change (len _) with 7. cbn [Z.ltb Z.compare Z.leb Pos.compare Pos.compare_cont].
  change (slice _ 0 4) with (String y1 (String y2 (String y3 (String y4 "")))).
  destruct (int (String y1 _)) as [y|e]; [|cbn [bind]; intros ->; reflexivity].
  cbn [bind]. change (set_item _ 0 (VInt y)) with (Ok [VInt y; VInt 1; VInt 1]).
  cbn [bind]. change (index _ 4) with (Ok o1). cbn [bind].
  rewrite H1.
  change (7 - 4 <? 2) with false. cbv iota.
  change (slice _ 4 (4 + 2)) with (String o1 (String o2 "")).
  destruct (int (String o1 _)) as [m|e]; [|cbn [bind]; intros ->; reflexivity].
  cbn [bind]. change (set_item _ 1 (VInt m)) with (Ok [VInt y; VInt m; VInt 1]).
  cbn [bind]. reflexivity.
Qed.

Lemma uncommon_ordinal_dashed self (y1 y2 y3 y4 o1 o2 o3 : ascii) :
  ch_eqb y1 "-" = false -> ch_eqb o1 "W" = false ->
  _parse_isodate_uncommon self
    (String y1 (String y2 (String y3 (String y4 (String "-"
      (String o1 (String o2 (String o3 ""))))))))
  = (y <- int (String y1 (String y2 (String y3 (String y4 "")))) ;;
     n <- int (String o1 (String o2 (String o3 ""))) ;;
     ordinal_result y n 8).
Proof.
  intros Hy Ho. unfold _parse_isodate_uncommon.
  change (slice _ 0 2) with (String y1 (String y2 "")).
  unfold String.eqb at 1. fold String.eqb.
  change (Ascii.eqb y1 "-") with (ch_eqb y1 "-"). rewrite Hy.
  change (slice _ 0 4) with (String y1 (String y2 (String y3 (String y4 "")))).
  destruct (int (String y1 _)) as [y|e]; [|reflexivity].
  cbn [bind]. change (index _ 4) with (Ok "-"%char). cbn [bind].
  change (4 + int_of_bool (ch_eqb "-" "-")) with 5.
  change (index _ 5) with (Ok o1). cbn [bind]. rewrite Ho.
  change (slice _ 5 (5 + 3)) with (String o1 (String o2 (String o3 ""))).
  destruct (int (String o1 _)) as [n|e]; [|reflexivity].
  cbn [bind]. unfold ordinal_result.
  destruct ((n <? 1) || _); [reflexivity|].
  destruct (date_new y 1 1) as [j|e]; [|reflexivity]. cbn [bind].
  destruct (date_add_days j (n - 1)) as [b|e]; reflexivity.
Qed.

Lemma uncommon_ordinal_undashed self (y1 y2 y3 y4 o1 o2 o3 : ascii) :
  ch_eqb y1 "-" = false -> ch_eqb o1 "-" = false -> ch_eqb o1 "W" = false ->
  _parse_isodate_uncommon self
    (String y1 (String y2 (String y3 (String y4
      (String o1 (String o2 (String o3 "")))))))
  = (y <- int (String y1 (String y2 (String y3 (String y4 "")))) ;;
     n <- int (String o1 (String o2 (String o3 ""))) ;;
     ordinal_result y n 7).
Proof.
  intros Hy Hd Ho. unfold _parse_isodate_uncommon.
  change (slice _ 0 2) with (String y1 (String y2 "")).
  unfold String.eqb at 1. fold String.eqb.
  change (Ascii.eqb y1 "-") with (ch_eqb y1 "-"). rewrite Hy.
  change (slice _ 0 4) with (String y1 (String y2 (String y3 (String y4 "")))).
  destruct (int (String y1 _)) as [y|e]; [|reflexivity].
  cbn [bind]. change (index _ 4) with (Ok o1). cbn [bind].
  rewrite Hd. change (4 + int_of_bool false) with 4.
  change (index _ 4) with (Ok o1). cbn [bind]. rewrite Ho.
  change (slice _ 4 (4 + 3)) with (String o1 (String o2 (String o3 ""))).
  destruct (int (String o1 _)) as [n|e]; [|reflexivity].
  cbn [bind]. unfold ordinal_result.
  destruct ((n <? 1) || _); [reflexivity|].
  destruct (date_new y 1 1) as [j|e]; [|reflexivity]. cbn [bind].
  destruct (date_add_days j (n - 1)) as [b|e]; reflexivity.
Qed.

Lemma digit_char_not_W d : ch_eqb (digit_char d) "W" = false.
Proof. apply (digit_facts _ (digit_char_is_digit d)). Qed.

(** The two ordinal texts of a year and a day number. *)
Lemma parse_isodate_ordinal self y n :
  0 <= y < 10000 -> 0 <= n < 1000 ->
  _parse_isodate self (fmt04 y ++ "-" ++ fmt03 n) = ordinal_result y n 8 /\
  _parse_isodate self (fmt04 y ++ fmt03 n) = ordinal_result y n 7.
Proof.
  intros Hy Hn. unfold _parse_isodate, fmt04, fmt03. cbn [append]. split.
  - rewrite common_ordinal_dashed by apply digit_char_not_dash.
    cbn [try_except_ValueError].
    rewrite uncommon_ordinal_dashed
      by first [apply digit_char_not_dash | apply digit_char_not_W].
    change (String (digit_char (y / 1000)) _) with (fmt04 y).
    change (String (digit_char (n / 100)) _) with (fmt03 n).
    rewrite int_fmt04, int_fmt03 by lia. reflexivity.
  - rewrite common_ordinal_undashed by apply digit_char_not_dash.
    cbn [try_except_ValueError].
    rewrite uncommon_ordinal_undashed
      by first [apply digit_char_not_dash | apply digit_char_not_W].
    change (String (digit_char (y / 1000)) _) with (fmt04 y).
    change (String (digit_char (n / 100)) _) with (fmt03 n).
    rewrite int_fmt04, int_fmt03 by lia. reflexivity.
Qed.

Lemma jan_1_valid y : valid_ymd y 1 1.
Proof. split; [lia|]. change (_days_in_month y 1) with 31. lia. Qed.

(** Within the year, the ordinal branch returns the date of ordinal
    [_days_before_year y + n]. *)
Lemma ordinal_result_ok y n pos :
  1 <= y <= 9999 -> 1 <= n <= 365 + int_of_bool (isleap y) ->
  let D := fromordinal (_days_before_year y + n) in
  ordinal_result y n pos = Ok ([VInt (year D); VInt (month D); VInt (day D)], pos).
Proof.
  intros Hy Hn D. unfold ordinal_result.
  destruct (Z.ltb_spec n 1); [lia|].
  destruct (Z.ltb_spec (365 + int_of_bool (isleap y)) n); [lia|].
  cbn [orb]. rewrite (date_new_ok y 1 1 Hy (jan_1_valid y)). cbn [bind].
  unfold date_add_days, toordinal. cbn [year month day]. rewrite ymd2ord_jan.
  cbv zeta.
  pose proof (dby_range y Hy) as Hr. pose proof (dby_succ y) as Hs.
  pose proof (dby_mono (y + 1) 10000 ltac:(lia)) as Hmax. rewrite dby_10000 in Hmax.
  replace (_days_before_year y + 1 + (n - 1)) with (_days_before_year y + n) by lia.
  destruct (Z.ltb_spec 0 (_days_before_year y + n)); [|lia].
  destruct (Z.leb_spec (_days_before_year y + n) _MAXORDINAL);
    [|unfold _MAXORDINAL in *; lia].
  reflexivity.
Qed.

(** *** Dates without a day *)

Lemma common_year_shape (y1 y2 y3 y4 : ascii) :
  _parse_isodate_common (String y1 (String y2 (String y3 (String y4 ""))))
  = (y <- int (String y1 (String y2 (String y3 (String y4 "")))) ;;
     Ok ([VInt y; VInt 1; VInt 1], 4)).
Proof. reflexivity. Qed.

Lemma common_month_dashed_shape (y1 y2 y3 y4 m1 m2 : ascii) :
  _parse_isodate_common
    (String y1 (String y2 (String y3 (String y4 (String "-"
      (String m1 (String m2 "")))))))
  = (y <- int (String y1 (String y2 (String y3 (String y4 "")))) ;;
     m <- int (String m1 (String m2 "")) ;;
     Ok ([VInt y; VInt m; VInt 1], 7)).
Proof. reflexivity. Qed.

Lemma common_month_undashed_shape (y1 y2 y3 y4 m1 m2 : ascii) :
  ch_eqb m1 "-" = false ->
  _parse_isodate_common
    (String y1 (String y2 (String y3 (String y4 (String m1 (String m2 ""))))))
  = (y <- int (String y1 (String y2 (String y3 (String y4 "")))) ;;
     m <- int (String m1 (String m2 "")) ;;
     Ok ([VInt y; VInt m; VInt 1], 6)).
Proof.
  intros H. unfold _parse_isodate_common.
  change (len _) with 6. cbn [Z.ltb Z.compare Z.leb Pos.compare Pos.compare_cont].
  change (index _ 4) with (Ok m1). cbn [bind]. rewrite H. reflexivity.
Qed.

Lemma first_of_month_valid y m : 1 <= m <= 12 -> valid_ymd y m 1.
Proof.
  intros Hm. split; [exact Hm|]. split; [lia|].
  change (_days_in_month y m) with (dim_l (isleap y) m).
  assert (H : forall_below 13 (fun m => (m =? 0) || (1 <=? dim_l (isleap y) m)) = true)
    by (destruct (isleap y); reflexivity).
  pose proof (forall_below_spec 13 _ H m ltac:(lia)) as Hk. cbv beta in Hk.
  destruct (Z.eqb_spec m 0); [lia|]. cbn [orb] in Hk. lia.
Qed.

Lemma isoparse_date_only self dt_str (common_only : bool) y m d pos :
  (if common_only then _parse_isodate_common dt_str
   else _parse_isodate self dt_str) = Ok ([VInt y; VInt m; VInt d], pos) ->
  len dt_str <= pos ->
  isoparse self dt_str common_only
  = (dd <- date_new y m d ;; Ok (mkdatetime dd (mktime 0 0 0 0 None))).
Proof.
  intros Hdate Hpos. unfold isoparse. rewrite Hdate. cbn [bind].
  destruct (Z.ltb_spec pos (len dt_str)); [lia|]. cbn [bind datetime_of].
  unfold datetime_new. destruct (date_new y m d); reflexivity.
Qed.

Lemma common_then_any self dt_str (common_only : bool) r :
  _parse_isodate_common dt_str = Ok r ->
  (if common_only then _parse_isodate_common dt_str
   else _parse_isodate self dt_str) = Ok r.
Proof.
  intros H. destruct common_only; [exact H|]. unfold _parse_isodate.
  rewrite H. reflexivity.
Qed.

(** *** Week dates in all forms *)

Lemma int_W s : int (String "W" s) = Raise ValueError.
Proof. reflexivity. Qed.

Ltac common_fails :=
  match goal with
  | |- _parse_isodate_common ?s = Raise ValueError =>
      let Hr := fresh "Hr" in
      pose proof (common_result s) as Hr; revert Hr;
      unfold _parse_isodate_common
  end.

Lemma common_week_any (y1 y2 y3 y4 : ascii) rest :
  _parse_isodate_common
    (String y1 (String y2 (String y3 (String y4 (String "W" rest)))))
  = Raise ValueError /\
  _parse_isodate_common
    (String y1 (String y2 (String y3 (String y4 (String "-" (String "W" rest))))))
  = Raise ValueError.
Proof.
  pose proof (len_nonneg rest) as Hrest. split; common_fails; cbv zeta.
  - rewrite !len_cons.
    destruct (Z.ltb_spec (len rest + 1 + 1 + 1 + 1 + 1) 4); [lia|].
    destruct (int _) as [y|e]; [|cbn [bind]; intros ->; reflexivity].
    cbn [bind]. change (set_item _ 0 (VInt y)) with (Ok [VInt y; VInt 1; VInt 1]).
    cbn [bind]. destruct (Z.leb_spec (len rest + 1 + 1 + 1 + 1 + 1) 4); [lia|].
    rewrite !index_cons_pos by lia. rewrite index_cons_0. cbn [bind].
    change (ch_eqb "W" "-") with false. cbv iota.
    destruct (Z.ltb_spec (len rest + 1 + 1 + 1 + 1 + 1 - 4) 2); [reflexivity|].
    rewrite !slice_cons_pos by lia. change (4 - 1 - 1 - 1 - 1) with 0.
    rewrite slice_prefix by (rewrite len_cons; lia).
    change (Z.to_nat (4 + 2 - 1 - 1 - 1 - 1)) with 2%nat.
    destruct rest as [|c rest']; [change (len "") with 0 in *; lia|].
    cbn [take]. rewrite int_W. reflexivity.
  - rewrite !len_cons.
    destruct (Z.ltb_spec (len rest + 1 + 1 + 1 + 1 + 1 + 1) 4); [lia|].
    destruct (int _) as [y|e]; [|cbn [bind]; intros ->; reflexivity].
    cbn [bind]. change (set_item _ 0 (VInt y)) with (Ok [VInt y; VInt 1; VInt 1]).
    cbn [bind]. destruct (Z.leb_spec (len rest + 1 + 1 + 1 + 1 + 1 + 1) 4); [lia|].
    rewrite !index_cons_pos by lia. rewrite index_cons_0. cbn [bind].
    change (ch_eqb "-" "-") with true. cbv iota.
    destruct (Z.ltb_spec (len rest + 1 + 1 + 1 + 1 + 1 + 1 - (4 + 1)) 2); [reflexivity|].
    rewrite !slice_cons_pos by lia. change (4 + 1 - 1 - 1 - 1 - 1 - 1) with 0.
    rewrite slice_prefix by (rewrite len_cons; lia).
    change (Z.to_nat (4 + 1 + 2 - 1 - 1 - 1 - 1 - 1)) with 2%nat.
    destruct rest as [|c rest']; [change (len "") with 0 in *; lia|].
    cbn [take]. rewrite int_W. reflexivity.
Qed.

Ltac uncommon_year y1 y2 y3 y4 Hy :=
  unfold _parse_isodate_uncommon;
  change (slice _ 0 2) with (String y1 (String y2 ""));
  unfold String.eqb at 1; fold String.eqb;
  change (Ascii.eqb y1 "-") with (ch_eqb y1 "-"); rewrite Hy;
  change (slice _ 0 4) with (String y1 (String y2 (String y3 (String y4 ""))));
  destruct (int (String y1 _)) as [?y|?e]; [|reflexivity];
  cbn [bind].

Lemma uncommon_week_short_dashed self (y1 y2 y3 y4 w1 w2 : ascii) :
  ch_eqb y1 "-" = false ->
  _parse_isodate_uncommon self
    (String y1 (String y2 (String y3 (String y4 (String "-"
      (String "W" (String w1 (String w2 ""))))))))
  = (y <- int (String y1 (String y2 (String y3 (String y4 "")))) ;;
     w <- int (String w1 (String w2 "")) ;;
     week_result y w 1 8).
Proof.
  intros Hy. uncommon_year y1 y2 y3 y4 Hy.
  change (index _ 4) with (Ok "-"%char). cbn [bind].
  change (4 + int_of_bool (ch_eqb "-" "-")) with 5.
  change (index _ 5) with (Ok "W"%char). cbn [bind].
  change (ch_eqb "W" "W") with true. cbv iota.
  change (slice _ (5 + 1) (5 + 1 + 2)) with (String w1 (String w2 "")).
  destruct (int (String w1 _)) as [w|e]; [|reflexivity].
  cbn [bind]. change (5 + 1 + 2 <? len _) with false. cbv iota. cbn [bind].
  unfold week_result.
  destruct (_calculate_weekdate y w 1) as [b|e]; reflexivity.
Qed.

Lemma uncommon_week_short_compact self (y1 y2 y3 y4 w1 w2 : ascii) :
  ch_eqb y1 "-" = false ->
  _parse_isodate_uncommon self
    (String y1 (String y2 (String y3 (String y4
      (String "W" (String w1 (String w2 "")))))))
  = (y <- int (String y1 (String y2 (String y3 (String y4 "")))) ;;
     w <- int (String w1 (String w2 "")) ;;
     week_result y w 1 7).
Proof.
  intros Hy. uncommon_year y1 y2 y3 y4 Hy.
  change (index _ 4) with (Ok "W"%char). cbn [bind].
  change (4 + int_of_bool (ch_eqb "W" "-")) with 4.
  change (index _ 4) with (Ok "W"%char). cbn [bind].
  change (ch_eqb "W" "W") with true. cbv iota.
  change (slice _ (4 + 1) (4 + 1 + 2)) with (String w1 (String w2 "")).
  destruct (int (String w1 _)) as [w|e]; [|reflexivity].
  cbn [bind]. change (4 + 1 + 2 <? len _) with false. cbv iota. cbn [bind].
  unfold week_result.
  destruct (_calculate_weekdate y w 1) as [b|e]; reflexivity.
Qed.

Lemma uncommon_week_compact self (y1 y2 y3 y4 w1 w2 d1 : ascii) :
  ch_eqb y1 "-" = false -> ch_eqb d1 "-" = false ->
  _parse_isodate_uncommon self
    (String y1 (String y2 (String y3 (String y4
      (String "W" (String w1 (String w2 (String d1 ""))))))))
  = (y <- int (String y1 (String y2 (String y3 (String y4 "")))) ;;
     w <- int (String w1 (String w2 "")) ;;
     d <- int_of_char d1 ;;
     week_result y w d 8).
Proof.
  intros Hy Hd. uncommon_year y1 y2 y3 y4 Hy.
  change (index _ 4) with (Ok "W"%char). cbn [bind].
  change (4 + int_of_bool (ch_eqb "W" "-")) with 4.
  change (index _ 4) with (Ok "W"%char). cbn [bind].
  change (ch_eqb "W" "W") with true. cbv iota.
  change (slice _ (4 + 1) (4 + 1 + 2)) with (String w1 (String w2 "")).
  destruct (int (String w1 _)) as [w|e]; [|reflexivity].
  cbn [bind]. change (4 + 1 + 2 <? len _) with true. cbv iota.
  change (index _ (4 + 1 + 2)) with (Ok d1). cbn [bind]. rewrite Hd.
  cbn [bind]. change (index _ (4 + 1 + 2)) with (Ok d1). cbn [bind].
  destruct (int_of_char d1) as [d|e]; [|reflexivity]. cbn [bind].
  unfold week_result.
  destruct (_calculate_weekdate y w d) as [b|e]; reflexivity.
Qed.

(** The four week texts of a year, a week and a weekday. *)
Lemma parse_isodate_week_forms self y w d :
  0 <= y < 10000 -> 0 <= w < 100 -> 0 <= d < 10 ->
  _parse_isodate self (fmt04 y ++ "-W" ++ fmt02 w ++ "-" ++ fmt01 d)
    = week_result y w d 10 /\
  _parse_isodate self (fmt04 y ++ "W" ++ fmt02 w ++ fmt01 d)
    = week_result y w d 8 /\
  _parse_isodate self (fmt04 y ++ "-W" ++ fmt02 w) = week_result y w 1 8 /\
  _parse_isodate self (fmt04 y ++ "W" ++ fmt02 w) = week_result y w 1 7.
Proof.
  intros Hy Hw Hd. unfold _parse_isodate, fmt04, fmt02, fmt01. cbn [append].
  pose proof (int_fmt04 y Hy) as Iy. pose proof (int_fmt02 w Hw) as Iw.
  pose proof (int_fmt01 d Hd) as Id. unfold fmt04, fmt02, fmt01 in Iy, Iw, Id.
  repeat split.
  - rewrite (proj2 (common_week_any _ _ _ _ _)). cbn [try_except_ValueError].
    rewrite uncommon_week_shape by apply digit_char_not_dash.
    unfold int_of_char. rewrite Iy, Iw, Id. reflexivity.
  - rewrite (proj1 (common_week_any _ _ _ _ _)). cbn [try_except_ValueError].
    rewrite uncommon_week_compact by apply digit_char_not_dash.
    unfold int_of_char. rewrite Iy, Iw, Id. reflexivity.
  - rewrite (proj2 (common_week_any _ _ _ _ _)). cbn [try_except_ValueError].
    rewrite uncommon_week_short_dashed by apply digit_char_not_dash.
    rewrite Iy, Iw. reflexivity.
  - rewrite (proj1 (common_week_any _ _ _ _ _)). cbn [try_except_ValueError].
    rewrite uncommon_week_short_compact by apply digit_char_not_dash.
    rewrite Iy, Iw. reflexivity.
Qed.

(** The date of a week and a weekday, in the years before the last. *)
Lemma calculate_weekdate_date y w d :
  1 <= y <= 9998 -> 1 <= w <= 53 -> 1 <= d <= 7 ->
  let o := _isoweek1monday y + (w - 1) * 7 + (d - 1) in
  _calculate_weekdate y w d = Ok (fromordinal o) /\
  1 <= o <= _MAXORDINAL /\
  _isoweek1monday y <= o < _isoweek1monday (y + 2).
Proof.
  intros Hy Hw Hd o.
  pose proof (isoweek1monday_spec y) as [_ Hb].
  pose proof (isoweek1monday_pos y ltac:(lia)) as Hpos.
  pose proof (dby_range y ltac:(lia)) as Hr.
  pose proof (dby_mono y 9998 ltac:(lia)) as Hm.
  change (_days_before_year 9998) with 3651329 in Hm.
  pose proof (isoweek1monday_step y) as Hs1.
  pose proof (isoweek1monday_step (y + 1)) as Hs2.
  replace (y + 1 + 1) with (y + 2) in Hs2 by lia.
  assert (Ho : 1 <= o <= _MAXORDINAL) by (unfold _MAXORDINAL; subst o; lia).
  rewrite calculate_weekdate_ord by lia. fold o.
  destruct (Z.leb_spec o _MAXORDINAL); [|lia].
  split; [reflexivity|]. split; [exact Ho|]. subst o. lia.
Qed.

Lemma iso_weeks_in_year_cases y :
  iso_weeks_in_year y = 52 \/ iso_weeks_in_year y = 53.
Proof.
  destruct (isoweek1monday_step y) as [H | H].
  - left. apply iso_weeks_in_year_52. exact H.
  - right. apply iso_weeks_in_year_53. exact H.
Qed.

Lemma isoparse_strict_fails self dt_str :
  _parse_isodate_common dt_str = Raise ValueError ->
  isoparse self dt_str true = Raise ValueError.
Proof. intros H. unfold isoparse. rewrite H. reflexivity. Qed.

Lemma four_chars s :
  len s = 4 ->
  exists c1 c2 c3 c4, s = String c1 (String c2 (String c3 (String c4 ""))).
Proof.
  intros H.
  destruct s as [|c1 [|c2 [|c3 [|c4 [|c5 s]]]]];
    try (vm_compute in H; discriminate H).
  - eauto.
  - repeat rewrite len_cons in H. pose proof (len_nonneg s). lia.
Qed.

(** *** The rounds of the time loop after the last field *)

Section MoreTail.

Variables (pre : string) (has_sep : bool) (h mi s : Z).

(** A character after the seconds that starts neither a fraction nor a
    zone: the loop gives up where it stands. *)
Lemma stuck_rounds c t :
  in_tz_chars c = false -> ch_eqb c "." = false ->
  _parse_isotime_loop 3 (pre ++ String c t) has_sep
    [VInt h; VInt mi; VInt s; VInt 0; VNone] (len pre) 2
  = Ok ([VInt h; VInt mi; VInt s; VInt 0; VNone], len pre).
Proof.
  intros Hz Hdot. pose proof (len_nonneg pre) as Hpre.
  pose proof (len_nonneg t) as Ht.
  assert (Hlen : len (pre ++ String c t) = len pre + 1 + len t)
    by (rewrite len_app, len_cons; lia).
  assert (Hidx : index (pre ++ String c t) (len pre) = Ok c).
  { rewrite index_app_r by lia. rewrite Z.sub_diag. apply index_cons_0. }
  assert (Hlt : len pre < len (pre ++ String c t)) by lia.
  rewrite (loop_no_fraction _ _ _ _ _ c Hlt Hidx Hz Hdot).
  rewrite (loop_idle _ _ _ _ _ 3 c Hlt ltac:(lia) Hidx Hz).
  rewrite (loop_idle _ _ _ _ _ (3 + 1) c Hlt ltac:(lia) Hidx Hz).
  reflexivity.
Qed.

(** After the seconds: the end of the text, or a zone. *)
Lemma zone_rounds ztail zcomp :
  zone_tail ztail zcomp ->
  _parse_isotime_loop 3 (pre ++ ztail) has_sep
    [VInt h; VInt mi; VInt s; VInt 0; VNone] (len pre) 2
  = Ok ([VInt h; VInt mi; VInt s; VInt 0; zcomp], len (pre ++ ztail)).
Proof.
  intros Hz. pose proof (len_nonneg pre) as Hpre.
  destruct Hz as [[-> ->] | (z & Hstart & Hparse & ->)].
  - rewrite loop_exit by (rewrite len_app; change (len "") with 0; lia).
    rewrite len_app. change (len "") with 0. f_equal. f_equal. lia.
  - destruct ztail as [|c t]; [discriminate Hstart|]. cbn [starts_with_tz] in Hstart.
    pose proof (len_nonneg t) as Ht.
    assert (Hlen : len (pre ++ String c t) = len pre + 1 + len t)
      by (rewrite len_app, len_cons; lia).
    assert (Hidx : index (pre ++ String c t) (len pre) = Ok c).
    { rewrite index_app_r by lia. rewrite Z.sub_diag. apply index_cons_0. }
    assert (Hlt : len pre < len (pre ++ String c t)) by lia.
    rewrite (loop_zone _ _ _ _ _ 2 c Hlt ltac:(lia) Hidx Hstart).
    rewrite slice_from_app_r by lia. rewrite Z.sub_diag, slice_from_0.
    rewrite Hparse. cbn [bind]. rewrite set_item_zone. reflexivity.
Qed.

(** A fraction of more than six digits: the seventh digit is left over. *)
Lemma long_fraction_rounds d6 c t :
  all_digits d6 = true -> len d6 = 6 -> is_digit c = true ->
  let timestr := pre ++ String "." (d6 ++ String c t) in
  exists components p,
    _parse_isotime_loop 3 timestr has_sep
      [VInt h; VInt mi; VInt s; VInt 0; VNone] (len pre) 2
    = Ok (components, p) /\ p < len timestr.
Proof.
  intros Hd Hlen Hc timestr.
  pose proof (len_nonneg pre) as Hpre. pose proof (len_nonneg t) as Ht.
  assert (Hts : len timestr = len pre + 1 + 6 + 1 + len t).
  { subst timestr. rewrite len_app, len_cons, len_app, len_cons. lia. }
  assert (Hdot : index timestr (len pre) = Ok "."%char).
  { subst timestr. rewrite index_app_r by lia. rewrite Z.sub_diag.
    apply index_cons_0. }
  assert (Hlt : len pre < len timestr) by lia.
  rewrite (loop_fraction _ _ _ _ _ "."%char Hlt Hdot eq_refl).
  cbv zeta.
  assert (Hus : _MICROSECOND_END_REGEX_split_0
                  (slice timestr (len pre + 1) (len pre + 1 + 6)) = d6).
  { subst timestr. rewrite slice_app_r by lia.
    rewrite slice_cons_pos by lia.
    replace (len pre + 1 - len pre - 1) with 0 by lia.
    replace (len pre + 1 + 6 - len pre - 1) with 6 by lia.
    rewrite slice_app_l by lia.
    rewrite slice_prefix by lia. rewrite <- Hlen.
    assert (Htake : forall x, take (Z.to_nat (len x)) x = x).
    { intros x. unfold len. rewrite Nat2Z.id.
      induction x as [|a x IH]; cbn [take String.length]; [reflexivity|].
      rewrite IH. reflexivity. }
    rewrite Htake.
    rewrite <- (append_empty_r d6) at 1. rewrite split_digits by exact Hd.
    apply append_empty_r. }
  rewrite Hus.
  rewrite int_all_digits; [| intros ->; change (len "") with 0 in Hlen; lia | exact Hd].
  cbn [bind]. rewrite set_item_us. cbn [bind]. rewrite Hlen.
  assert (Hidx : index timestr (len pre + 1 + 6) = Ok c).
  { subst timestr. rewrite index_app_r by lia.
    rewrite index_cons_pos by lia. rewrite index_app_r by lia.
    replace (len pre + 1 + 6 - len pre - 1 - len d6) with 0 by lia.
    apply index_cons_0. }
  assert (Hz : in_tz_chars c = false) by apply (digit_facts c Hc).
  assert (Hlt' : len pre + 1 + 6 < len timestr) by lia.
  rewrite (loop_idle _ _ _ _ _ 3 c Hlt' ltac:(lia) Hidx Hz).
  rewrite (loop_idle _ _ _ _ _ (3 + 1) c Hlt' ltac:(lia) Hidx Hz).
  cbn [_parse_isotime_loop]. eexists _, _. split; [reflexivity | lia].
Qed.

(** A fraction without digits. *)
Lemma empty_fraction_rounds ztail zcomp :
  zone_tail ztail zcomp ->
  _parse_isotime_loop 3 (pre ++ String "." ztail) has_sep
    [VInt h; VInt mi; VInt s; VInt 0; VNone] (len pre) 2
  = Raise ValueError.
Proof.
  intros Hz. pose proof (len_nonneg pre) as Hpre.
  pose proof (len_nonneg ztail) as Hzt.
  set (timestr := pre ++ String "." ztail).
  assert (Hts : len timestr = len pre + 1 + len ztail).
  { subst timestr. rewrite len_app, len_cons. lia. }
  assert (Hdot : index timestr (len pre) = Ok "."%char).
  { subst timestr. rewrite index_app_r by lia. rewrite Z.sub_diag.
    apply index_cons_0. }
  assert (Hlt : len pre < len timestr) by lia.
  rewrite (loop_fraction _ _ _ _ _ "."%char Hlt Hdot eq_refl).
  cbv zeta.
  assert (Hus : _MICROSECOND_END_REGEX_split_0
                  (slice timestr (len pre + 1) (len pre + 1 + 6)) = "").
  { subst timestr. rewrite slice_app_r by lia.
    rewrite slice_cons_pos by lia.
    replace (len pre + 1 - len pre - 1) with 0 by lia.
    replace (len pre + 1 + 6 - len pre - 1) with 6 by lia.
    apply (split_zone_window ztail zcomp 6 Hz). lia. }
  rewrite Hus. reflexivity.
Qed.

End MoreTail.

Lemma tz_char_facts c :
  in_tz_chars c = true -> ch_eqb c ":" = false /\ ch_eqb c "." = false.
Proof.
  destruct c as [[] [] [] [] [] [] [] []]; intros H; try discriminate H;
    split; reflexivity.
Qed.

Lemma zone_tail_tz ztail zcomp :
  zone_tail ztail zcomp -> exists tzv, tz_of zcomp = Ok tzv.
Proof.
  intros [[_ ->] | (z & _ & _ & ->)]; cbn [tz_of]; eauto.
Qed.

Lemma zone_tail_at_cursor f ztail zcomp :
  zone_tail ztail zcomp -> at_cursor f ztail = true.
Proof.
  intros H. destruct f; try reflexivity. cbn [at_cursor].
  destruct (zone_tail_cases _ _ H) as [[-> _] | (c & t & z & -> & Hc & _)];
    [reflexivity|].
  cbn [starts_with_char]. destruct (tz_char_facts c Hc) as [-> _]. reflexivity.
Qed.

Lemma next_pos_zone pre ztail zcomp has_sep :
  zone_tail ztail zcomp ->
  next_pos (pre ++ ztail) has_sep (len pre) = len pre.
Proof.
  intros H. unfold next_pos. destruct has_sep; [|reflexivity]. cbn [andb].
  destruct (Z.ltb_spec (len pre) (len (pre ++ ztail))) as [Hlt|]; [|reflexivity].
  rewrite index_app_r by lia. rewrite Z.sub_diag.
  destruct (zone_tail_cases _ _ H) as [[-> _] | (c & t & z & -> & Hc & _)].
  - rewrite len_app in Hlt. change (len "") with 0 in Hlt. lia.
  - rewrite index_cons_0. destruct (tz_char_facts c Hc) as [-> _]. reflexivity.
Qed.

Lemma has_sep_zone pre ztail zcomp :
  len pre = 2 -> zone_tail ztail zcomp ->
  _time_has_sep (pre ++ ztail) = Ok false.
Proof.
  intros Hlen H. unfold _time_has_sep. rewrite len_app, Hlen.
  destruct (zone_tail_cases _ _ H) as [[-> _] | (c & t & z & -> & Hc & _)].
  - reflexivity.
  - rewrite len_cons. pose proof (len_nonneg t).
    destruct (Z.leb_spec 3 (2 + (len t + 1))); [|lia].
    rewrite index_app_r by lia. rewrite Hlen. change (2 - 2) with 0.
    rewrite index_cons_0. cbn [bind].
    destruct (tz_char_facts c Hc) as [-> _]. reflexivity.
Qed.

(** The end of the text, or a zone, at any component. *)
Lemma zone_rounds_at fuel pre has_sep h mi s us comp ztail zcomp :
  comp < 5 -> zone_tail ztail zcomp ->
  _parse_isotime_loop (S fuel) (pre ++ ztail) has_sep
    [VInt h; VInt mi; VInt s; VInt us; VNone] (len pre) comp
  = Ok ([VInt h; VInt mi; VInt s; VInt us; zcomp], len (pre ++ ztail)).
Proof.
  intros Hc Hz. pose proof (len_nonneg pre) as Hpre.
  destruct (zone_tail_cases _ _ Hz) as [[-> ->] | (c & t & z & -> & Hs & Hp & ->)].
  - rewrite loop_exit by (rewrite len_app; change (len "") with 0; lia).
    rewrite len_app. change (len "") with 0. f_equal. f_equal. lia.
  - pose proof (len_nonneg t) as Ht.
    assert (Hlen : len (pre ++ String c t) = len pre + 1 + len t)
      by (rewrite len_app, len_cons; lia).
    assert (Hidx : index (pre ++ String c t) (len pre) = Ok c).
    { rewrite index_app_r by lia. rewrite Z.sub_diag. apply index_cons_0. }
    assert (Hlt : len pre < len (pre ++ String c t)) by lia.
    rewrite (loop_zone _ _ _ _ _ comp c Hlt Hc Hidx Hs).
    rewrite slice_from_app_r by lia. rewrite Z.sub_diag, slice_from_0.
    rewrite Hp. cbn [bind]. rewrite set_item_zone. reflexivity.
Qed.

(** The round at the end of the digits of an explicit prefix [pre]. *)
Ltac zone_round pre cs Hz :=
  match goal with
  | |- context [_parse_isotime_loop (S ?f) ?ts ?hs ?cs0 ?p ?c] =>
      change (_parse_isotime_loop (S f) ts hs cs0 p c)
        with (_parse_isotime_loop (S f) ts hs cs (len pre) c);
      rewrite (zone_rounds_at f pre hs _ _ _ _ c _ _ ltac:(lia) Hz)
  end.

Section ShortFields.

Variables (h1 h2 m1 m2 : ascii) (h mi : Z) (ztail : string) (zcomp : pyval).
Hypothesis Hh1 : in_tz_chars h1 = false.
Hypothesis Hm1 : in_tz_chars m1 = false.
Hypothesis Hm1c : ch_eqb m1 ":" = false.
Hypothesis Hh : int (String h1 (String h2 "")) = Ok h.
Hypothesis Hmi : int (String m1 (String m2 "")) = Ok mi.
Hypothesis Hz : zone_tail ztail zcomp.

Let hh := String h1 (String h2 "").
Let mm := String m1 (String m2 "").

Lemma hour_scan :
  _parse_isotime_scan (hh ++ ztail)
  = Ok [VInt h; VInt 0; VInt 0; VInt 0; zcomp].
Proof.
  pose proof (len_nonneg ztail) as Hrest.
  unfold _parse_isotime_scan. cbv zeta.
  rewrite (has_sep_zone hh ztail zcomp eq_refl Hz). cbn [bind].
  subst hh.
  field_round h1 h Hh1 Hh. change (next_pos _ false (0 + 2)) with 2.
  zone_round (String h1 (String h2 "")) [VInt h; VInt 0; VInt 0; VInt 0; VNone] Hz.
  cbn [bind]. rewrite Z.ltb_irrefl. reflexivity.
Qed.

Lemma hour_minute_scan :
  _parse_isotime_scan ((hh ++ ":" ++ mm) ++ ztail)
  = Ok [VInt h; VInt mi; VInt 0; VInt 0; zcomp].
Proof.
  pose proof (len_nonneg ztail) as Hrest.
  unfold _parse_isotime_scan. cbv zeta.
  subst hh mm. cbn [append].
  change (String h1 (String h2 (String ":" (String m1 (String m2 ztail)))))
    with (String h1 (String h2 (String ":" (String m1 (String m2 "")))) ++ ztail).
  assert (Hsep : _time_has_sep
            (String h1 (String h2 (String ":" (String m1 (String m2 "")))) ++ ztail)
          = Ok true).
  { unfold _time_has_sep. explicit_len.
    destruct (Z.leb_spec 3 (5 + len ztail)); [|lia].
    rewrite index_app_l by (explicit_len; lia). reflexivity. }
  rewrite Hsep. cbn [bind].
  field_round h1 h Hh1 Hh. colon_after 3.
  field_round m1 mi Hm1 Hmi.
  change (3 + 2) with (len (String h1 (String h2 (String ":" (String m1 (String m2 "")))))).
  rewrite (next_pos_zone _ _ _ _ Hz).
  zone_round (String h1 (String h2 (String ":" (String m1 (String m2 "")))))
    [VInt h; VInt mi; VInt 0; VInt 0; VNone] Hz.
  cbn [bind]. rewrite Z.ltb_irrefl. reflexivity.
Qed.

Lemma hour_minute_compact_scan :
  _parse_isotime_scan ((hh ++ mm) ++ ztail)
  = Ok [VInt h; VInt mi; VInt 0; VInt 0; zcomp].
Proof.
  pose proof (len_nonneg ztail) as Hrest.
  unfold _parse_isotime_scan. cbv zeta.
  subst hh mm. cbn [append].
  change (String h1 (String h2 (String m1 (String m2 ztail))))
    with (String h1 (String h2 (String m1 (String m2 ""))) ++ ztail).
  assert (Hsep : _time_has_sep
            (String h1 (String h2 (String m1 (String m2 ""))) ++ ztail)
          = Ok false).
  { unfold _time_has_sep. explicit_len.
    destruct (Z.leb_spec 3 (4 + len ztail)); [|lia].
    rewrite index_app_l by (explicit_len; lia).
    match goal with |- context [index ?p 2] => change (index p 2) with (Ok m1) end.
    cbn [bind]. rewrite Hm1c. reflexivity. }
  rewrite Hsep. cbn [bind].
  field_round h1 h Hh1 Hh. change (next_pos _ false (0 + 2)) with 2.
  field_round m1 mi Hm1 Hmi. change (next_pos _ false (2 + 2)) with 4.
  zone_round (String h1 (String h2 (String m1 (String m2 ""))))
    [VInt h; VInt mi; VInt 0; VInt 0; VNone] Hz.
  cbn [bind]. rewrite Z.ltb_irrefl. reflexivity.
Qed.

End ShortFields.

(** *** Time values *)

Lemma decimal_value_bound s :
  all_digits s = true -> 0 <= decimal_value s < 10 ^ len s.
Proof.
  intros H. pose proof (int_digits_all s 0 H) as Hi.
  apply int_digits_bound in Hi; [|lia]. unfold decimal_value. lia.
Qed.

Lemma microsecond_range frac :
  all_digits frac = true -> 1 <= len frac <= 6 ->
  0 <= decimal_value frac * 10 ^ (6 - len frac) <= 999999.
Proof.
  intros Hd Hlen. pose proof (decimal_value_bound frac Hd) as Hb.
  pose proof (pow10_pos (6 - len frac) ltac:(lia)) as Hp.
  assert (Hm : 10 ^ len frac * 10 ^ (6 - len frac) = 1000000).
  { rewrite <- Z.pow_add_r by lia. replace (len frac + (6 - len frac)) with 6 by lia.
    reflexivity. }
  nia.
Qed.

Lemma time_new_ok h mi s us z :
  0 <= h <= 23 -> 0 <= mi <= 59 -> 0 <= s <= 59 -> 0 <= us <= 999999 ->
  time_new h mi s us z = Ok (mktime h mi s us z).
Proof.
  intros Hh Hmi Hs Hus. unfold time_new, _check_time_fields.
  destruct (Z.leb_spec 0 h); [|lia]. destruct (Z.leb_spec h 23); [|lia].
  destruct (Z.leb_spec 0 mi); [|lia]. destruct (Z.leb_spec mi 59); [|lia].
  destruct (Z.leb_spec 0 s); [|lia]. destruct (Z.leb_spec s 59); [|lia].
  destruct (Z.leb_spec 0 us); [|lia]. destruct (Z.leb_spec us 999999); [|lia].
  reflexivity.
Qed.

(** From the scan to the [time] value, for fields in range. *)
Lemma parse_isotime_of_scan timestr h mi s us zcomp tzv :
  _parse_isotime_scan timestr = Ok [VInt h; VInt mi; VInt s; VInt us; zcomp] ->
  tz_of zcomp = Ok tzv ->
  0 <= h <= 23 -> 0 <= mi <= 59 -> 0 <= s <= 59 -> 0 <= us <= 999999 ->
  _parse_isotime timestr = Ok [VInt h; VInt mi; VInt s; VInt us; zcomp] /\
  parse_isotime timestr = Ok (mktime h mi s us tzv).
Proof.
  intros Hscan Htz Hh Hmi Hs Hus.
  assert (Hp : _parse_isotime timestr
               = Ok [VInt h; VInt mi; VInt s; VInt us; zcomp]).
  { unfold _parse_isotime. rewrite Hscan. cbn [bind].
    apply midnight_other. lia. }
  split; [exact Hp|]. unfold parse_isotime. rewrite Hp. cbn [bind time_of].
  rewrite Htz. cbn [bind]. apply time_new_ok; assumption.
Qed.

Lemma hms_scan f h mi s ztail zcomp :
  0 <= h < 100 -> 0 <= mi < 100 -> 0 <= s < 100 -> zone_tail ztail zcomp ->
  _parse_isotime_scan (hms_text f h mi s ++ ztail)
  = Ok [VInt h; VInt mi; VInt s; VInt 0; zcomp].
Proof.
  intros Hh Hmi Hs Hz.
  destruct (hms_text_rounds f h mi s ztail Hh Hmi Hs
              (zone_tail_at_cursor f _ _ Hz)) as [Hsep Hloop].
  unfold _parse_isotime_scan. rewrite Hsep. cbn [bind].
  fold time_init. rewrite Hloop.
  rewrite (zone_rounds _ _ h mi s ztail zcomp Hz).
  cbn [bind]. rewrite Z.ltb_irrefl. reflexivity.
Qed.

Lemma hms_fraction_scan f h mi s frac ztail zcomp :
  0 <= h < 100 -> 0 <= mi < 100 -> 0 <= s < 100 ->
  all_digits frac = true -> 1 <= len frac <= 6 -> zone_tail ztail zcomp ->
  _parse_isotime_scan (hms_text f h mi s ++ "." ++ frac ++ ztail)
  = Ok [VInt h; VInt mi; VInt s;
        VInt (decimal_value frac * 10 ^ (6 - len frac)); zcomp].
Proof.
  intros Hh Hmi Hs Hd Hlen Hz. cbn [append].
  destruct (hms_text_rounds f h mi s (String "." (frac ++ ztail)) Hh Hmi Hs
              (at_cursor_dot f _)) as [Hsep Hloop].
  unfold _parse_isotime_scan. rewrite Hsep. cbn [bind].
  fold time_init. rewrite Hloop.
  rewrite (fraction_rounds _ _ h mi s frac ztail zcomp Hd Hlen Hz).
  cbn [bind]. rewrite Z.ltb_irrefl. reflexivity.
Qed.

Lemma scan_fails_time timestr :
  _parse_isotime_scan timestr = Raise ValueError ->
  _parse_isotime timestr = Raise ValueError /\
  parse_isotime timestr = Raise ValueError.
Proof.
  intros H. unfold parse_isotime, _parse_isotime. rewrite H. split; reflexivity.
Qed.

(** *** A date, the separator and a time *)

Lemma common_dashed_prefix (y1 y2 y3 y4 m1 m2 d1 d2 : ascii) rest :
  _parse_isodate_common
    (String y1 (String y2 (String y3 (String y4 (String "-"
      (String m1 (String m2 (String "-" (String d1 (String d2 ""))))))))) ++ rest)
  = (y <- int (String y1 (String y2 (String y3 (String y4 "")))) ;;
     m <- int (String m1 (String m2 "")) ;;
     d <- int (String d1 (String d2 "")) ;;
     Ok ([VInt y; VInt m; VInt d], 10)).
Proof.
  pose proof (len_nonneg rest) as Hrest.
  set (pre := String y1 (String y2 (String y3 (String y4 (String "-"
      (String m1 (String m2 (String "-" (String d1 (String d2 "")))))))))).
  assert (Hpre : len pre = 10) by reflexivity.
  unfold _parse_isodate_common. cbv zeta. rewrite len_app, Hpre.
  destruct (Z.ltb_spec (10 + len rest) 4); [lia|].
  rewrite slice_app_l by lia.
  change (slice pre 0 4) with (String y1 (String y2 (String y3 (String y4 "")))).
  destruct (int (String y1 _)) as [y|e]; [|reflexivity]. cbn [bind].
  change (set_item _ 0 (VInt y)) with (Ok [VInt y; VInt 1; VInt 1]). cbn [bind].
  destruct (Z.leb_spec (10 + len rest) 4); [lia|].
  rewrite index_app_l by lia. change (index pre 4) with (Ok "-"%char).
  cbn [bind]. change (ch_eqb "-" "-") with true. cbv iota.
  destruct (Z.ltb_spec (10 + len rest - (4 + 1)) 2); [lia|].
  rewrite slice_app_l by lia.
  change (slice pre (4 + 1) (4 + 1 + 2)) with (String m1 (String m2 "")).
  destruct (int (String m1 _)) as [m|e]; [|reflexivity]. cbn [bind].
  change (set_item _ 1 (VInt m)) with (Ok [VInt y; VInt m; VInt 1]). cbn [bind].
  destruct (Z.leb_spec (10 + len rest) (4 + 1 + 2)); [lia|].
  rewrite index_app_l by lia. change (index pre (4 + 1 + 2)) with (Ok "-"%char).
  cbn [bind negb]. change (ch_eqb "-" "-") with true. cbn [negb bind].
  destruct (Z.ltb_spec (10 + len rest - (4 + 1 + 2 + 1)) 2); [lia|].
  rewrite slice_app_l by lia.
  change (slice pre (4 + 1 + 2 + 1) (4 + 1 + 2 + 1 + 2)) with (String d1 (String d2 "")).
  destruct (int (String d1 _)) as [d|e]; reflexivity.
Qed.

Lemma common_undashed_prefix (y1 y2 y3 y4 m1 m2 d1 d2 : ascii) rest :
  ch_eqb m1 "-" = false ->
  _parse_isodate_common
    (String y1 (String y2 (String y3 (String y4
      (String m1 (String m2 (String d1 (String d2 ""))))))) ++ rest)
  = (y <- int (String y1 (String y2 (String y3 (String y4 "")))) ;;
     m <- int (String m1 (String m2 "")) ;;
     d <- int (String d1 (String d2 "")) ;;
     Ok ([VInt y; VInt m; VInt d], 8)).
Proof.
  intros Hm1. pose proof (len_nonneg rest) as Hrest.
  set (pre := String y1 (String y2 (String y3 (String y4
      (String m1 (String m2 (String d1 (String d2 "")))))))).
  assert (Hpre : len pre = 8) by reflexivity.
  unfold _parse_isodate_common. cbv zeta. rewrite len_app, Hpre.
  destruct (Z.ltb_spec (8 + len rest) 4); [lia|].
  rewrite slice_app_l by lia.
  change (slice pre 0 4) with (String y1 (String y2 (String y3 (String y4 "")))).
  destruct (int (String y1 _)) as [y|e]; [|reflexivity]. cbn [bind].
  change (set_item _ 0 (VInt y)) with (Ok [VInt y; VInt 1; VInt 1]). cbn [bind].
  destruct (Z.leb_spec (8 + len rest) 4); [lia|].
  rewrite index_app_l by lia. change (index pre 4) with (Ok m1).
  cbn [bind]. rewrite Hm1.
  destruct (Z.ltb_spec (8 + len rest - 4) 2); [lia|].
  rewrite slice_app_l by lia.
  change (slice pre 4 (4 + 2)) with (String m1 (String m2 "")).
  destruct (int (String m1 _)) as [m|e]; [|reflexivity]. cbn [bind].
  change (set_item _ 1 (VInt m)) with (Ok [VInt y; VInt m; VInt 1]). cbn [bind].
  destruct (Z.leb_spec (8 + len rest) (4 + 2)); [lia|]. cbn [bind].
  destruct (Z.ltb_spec (8 + len rest - (4 + 2)) 2); [lia|].
  rewrite slice_app_l by lia.
  change (slice pre (4 + 2) (4 + 2 + 2)) with (String d1 (String d2 "")).
  destruct (int (String d1 _)) as [d|e]; reflexivity.
Qed.

Lemma len_date_text dashed y m d :
  len (date_text dashed y m d) = if dashed then 10 else 8.
Proof. destruct dashed; reflexivity. Qed.

(** The common grammar reads a calendar date and stops behind it, whatever
    follows. *)
Lemma common_date_text dashed y m d rest :
  0 <= y < 10000 -> 0 <= m < 100 -> 0 <= d < 100 ->
  _parse_isodate_common (date_text dashed y m d ++ rest)
  = Ok ([VInt y; VInt m; VInt d], len (date_text dashed y m d)).
Proof.
  intros Hy Hm Hd. rewrite len_date_text.
  pose proof (int_fmt04 y Hy) as Iy. pose proof (int_fmt02 m Hm) as Im.
  pose proof (int_fmt02 d Hd) as Id.
  unfold fmt04, fmt02 in Iy, Im, Id.
  destruct dashed.
  - change (date_text true y m d)
      with (String (digit_char (y / 1000)) (String (digit_char (y / 100))
             (String (digit_char (y / 10)) (String (digit_char y) (String "-"
             (String (digit_char (m / 10)) (String (digit_char m) (String "-"
             (String (digit_char (d / 10)) (String (digit_char d) "")))))))))).
    rewrite (common_dashed_prefix _ _ _ _ _ _ _ _ rest). rewrite Iy, Im, Id.
    reflexivity.
  - change (date_text false y m d)
      with (String (digit_char (y / 1000)) (String (digit_char (y / 100))
             (String (digit_char (y / 10)) (String (digit_char y)
             (String (digit_char (m / 10)) (String (digit_char m)
             (String (digit_char (d / 10)) (String (digit_char d) "")))))))).
    rewrite (common_undashed_prefix _ _ _ _ _ _ _ _ rest)
      by apply digit_char_not_dash.
    rewrite Iy, Im, Id. reflexivity.
Qed.

Lemma init_sep sep default_year now_year self :
  __init__ sep default_year now_year = Ok self ->
  exists c, sep = String c "" /\ _sep self = String c "".
Proof.
  unfold __init__. destruct (Z.eqb_spec (len sep) 1) as [Hl|]; [|discriminate].
  cbn [negb]. intros H.
  assert (Hs : _sep self = sep).
  { destruct default_year as [dy|].
    - destruct (negb _); [discriminate H|]. injection H as <-. reflexivity.
    - injection H as <-. reflexivity. }
  destruct sep as [|c [|c' t]].
  - discriminate Hl.
  - exists c. rewrite Hs. auto.
  - rewrite !len_cons in Hl. pose proof (len_nonneg t). lia.
Qed.

(** [isoparse] on a date, the separator and a time. *)
Lemma isoparse_date_time self (common_only : bool) pre c timestr y m d :
  _parse_isodate_common (pre ++ String c timestr)
    = Ok ([VInt y; VInt m; VInt d], len pre) ->
  isoparse self (pre ++ String c timestr) common_only
  = if String.eqb (String c "") (_sep self) then
      tcomponents <- _parse_isotime timestr ;;
      datetime_of ([VInt y; VInt m; VInt d] ++ tcomponents)%list
    else Raise ValueError.
Proof.
  intros Hdate. unfold isoparse.
  rewrite (common_then_any self _ common_only _ Hdate). cbn [bind].
  pose proof (len_nonneg pre) as Hpre. pose proof (len_nonneg timestr) as Ht.
  rewrite len_app, len_cons.
  destruct (Z.ltb_spec (len pre) (len pre + (len timestr + 1))); [|lia].
  rewrite index_app_r by lia. rewrite Z.sub_diag, index_cons_0. cbn [bind].
  destruct (String.eqb (String c "") (_sep self)); [|reflexivity].
  rewrite slice_from_app_r by lia.
  replace (len pre + 1 - len pre) with 1 by lia.
  assert (Hsl : slice_from (String c timestr) 1 = timestr).
  { unfold slice_from. rewrite clamp_nonneg by lia. rewrite len_cons.
    replace (Z.min 1 (len timestr + 1)) with 1 by lia. reflexivity. }
  rewrite Hsl. destruct (_parse_isotime timestr); reflexivity.
Qed.

Lemma datetime_new_ok y m d h mi s us z :
  1 <= y <= 9999 -> valid_ymd y m d ->
  0 <= h <= 23 -> 0 <= mi <= 59 -> 0 <= s <= 59 -> 0 <= us <= 999999 ->
  datetime_new y m d h mi s us z
  = Ok (mkdatetime (mkdate y m d) (mktime h mi s us z)).
Proof.
  intros Hy Hv Hh Hmi Hs Hus. unfold datetime_new.
  rewrite (date_new_ok y m d Hy Hv). cbn [bind].
  rewrite time_new_ok by assumption. reflexivity.
Qed.

(** A date, the separator of the instance and a time: [isoparse] puts the
    two halves together. *)
Lemma isoparse_date_time_value self (common_only dashed : bool) c timestr
      y m d h mi s us zcomp tzv :
  _sep self = String c "" ->
  1 <= y <= 9999 -> valid_ymd y m d ->
  _parse_isotime_scan timestr = Ok [VInt h; VInt mi; VInt s; VInt us; zcomp] ->
  tz_of zcomp = Ok tzv ->
  0 <= h <= 23 -> 0 <= mi <= 59 -> 0 <= s <= 59 -> 0 <= us <= 999999 ->
  isoparse self (date_text dashed y m d ++ String c timestr) common_only
  = Ok (mkdatetime (mkdate y m d) (mktime h mi s us tzv)).
Proof.
  intros Hsep Hy Hv Hscan Htz Hh Hmi Hs Hus.
  pose proof (days_in_month_le_31 _ _ _ Hv) as Hd. pose proof Hv as [Hm _].
  rewrite (isoparse_date_time self common_only _ c timestr y m d)
    by (apply common_date_text; lia).
  rewrite Hsep, String.eqb_refl.
  destruct (parse_isotime_of_scan _ _ _ _ _ _ _ Hscan Htz Hh Hmi Hs Hus)
    as [-> _].
  cbn [bind List.app datetime_of]. rewrite Htz. cbn [bind].
  apply datetime_new_ok; assumption.
Qed.

(** *** The text of [isoformat], year-less dates, short texts *)

Lemma fmt06_digits n : all_digits (fmt06 n) = true.
Proof. unfold fmt06. cbn [all_digits]. rewrite !digit_char_is_digit. reflexivity. Qed.

Lemma fmt06_value n : 0 <= n < 1000000 -> decimal_value (fmt06 n) = n.
Proof.
  intros H. unfold decimal_value, fmt06. cbn [decimal_from].
  rewrite !digit_val_digit_char. Z.to_euclidean_division_equations. lia.
Qed.

Lemma offset_zone_tail neg oh om :
  0 <= oh <= 23 -> 0 <= om <= 59 ->
  zone_tail (sign_char neg ++ fmt02 oh ++ ":" ++ fmt02 om)
    (VTz (offset_zone neg oh om)).
Proof.
  intros Hoh Hom. right. exists (offset_zone neg oh om).
  split; [destruct neg; reflexivity|]. split; [|reflexivity].
  rewrite (parse_tzstr_token neg oh om true) by (lia || (left; reflexivity)).
  unfold tz_result, offset_zone. cbn [andb].
  destruct ((oh =? 0) && (om =? 0)); [reflexivity|].
  destruct (Z.ltb_spec 59 om); [lia|]. destruct (Z.ltb_spec 23 oh); [lia|].
  reflexivity.
Qed.

Lemma leap_year_back_leap dy : isleap dy = true -> leap_year_back dy = dy.
Proof.
  intros H. destruct (leap_year_back_greatest dy) as (_ & Hle & Hgap).
  destruct (Z.eq_dec (leap_year_back dy) dy) as [|Hne]; [assumption|].
  rewrite (Hgap dy ltac:(lia)) in H. discriminate H.
Qed.

Lemma index_out s i : 0 <= i -> len s <= i -> index s i = Raise IndexError.
Proof.
  intros Hi Hl. rewrite index_nonneg by lia.
  destruct (Z.leb_spec (len s) i); [reflexivity | lia].
Qed.

(** *** Fields out of range *)

Lemma date_new_invalid y m d :
  ~ (1 <= y <= 9999 /\ valid_ymd y m d) -> date_new y m d = Raise ValueError.
Proof.
  intros H. unfold date_new, MINYEAR, MAXYEAR.
  destruct (Z.leb_spec 1 y); [|reflexivity].
  destruct (Z.leb_spec y 9999); [|reflexivity].
  destruct (Z.leb_spec 1 m); [|reflexivity].
  destruct (Z.leb_spec m 12); [|reflexivity].
  destruct (Z.leb_spec 1 d); [|reflexivity].
  destruct (Z.leb_spec d (_days_in_month y m)); [|reflexivity].
  exfalso. apply H. unfold valid_ymd. lia.
Qed.

(** *** Week dates and ordinal dates before a time *)

(** The start of the uncommon grammar on a text with an explicit prefix
    [pre] of at least five characters that starts with a year. *)
Ltac uncommon_year_prefix pre y1 y2 y3 y4 Hy :=
  unfold _parse_isodate_uncommon;
  rewrite (slice_app_l pre _ 0 2) by lia;
  change (slice pre 0 2) with (String y1 (String y2 ""));
  unfold String.eqb at 1; fold String.eqb;
  change (Ascii.eqb y1 "-") with (ch_eqb y1 "-"); rewrite Hy;
  rewrite (slice_app_l pre _ 0 4) by lia;
  change (slice pre 0 4) with (String y1 (String y2 (String y3 (String y4 ""))));
  destruct (int (String y1 _)) as [?y|?e]; [|reflexivity];
  cbn [bind].

Lemma uncommon_week_prefix self (y1 y2 y3 y4 w1 w2 d1 : ascii) rest :
  ch_eqb y1 "-" = false ->
  _parse_isodate_uncommon self
    (String y1 (String y2 (String y3 (String y4 (String "-"
      (String "W" (String w1 (String w2 (String "-" (String d1 ""))))))))) ++ rest)
  = (y <- int (String y1 (String y2 (String y3 (String y4 "")))) ;;
     w <- int (String w1 (String w2 "")) ;;
     d <- int_of_char d1 ;;
     week_result y w d 10).
Proof.
  intros Hy. pose proof (len_nonneg rest) as Hrest.
  set (pre := String y1 (String y2 (String y3 (String y4 (String "-"
      (String "W" (String w1 (String w2 (String "-" (String d1 "")))))))))).
  assert (Hpre : len pre = 10) by reflexivity.
  uncommon_year_prefix pre y1 y2 y3 y4 Hy.
  rewrite ?index_app_l by lia.
  change (index pre 4) with (Ok "-"%char). cbn [bind].
  change (4 + int_of_bool (ch_eqb "-" "-")) with 5.
  rewrite ?index_app_l by lia.
  change (index pre 5) with (Ok "W"%char). cbn [bind].
  change (ch_eqb "W" "W") with true. cbv iota.
  rewrite ?slice_app_l by lia.
  change (slice pre (5 + 1) (5 + 1 + 2)) with (String w1 (String w2 "")).
  destruct (int (String w1 _)) as [w|e]; [|reflexivity].
  cbn [bind]. rewrite len_app, Hpre.
  destruct (Z.ltb_spec (5 + 1 + 2) (10 + len rest)); [|lia].
  rewrite ?index_app_l by lia.
  change (index pre (5 + 1 + 2)) with (Ok "-"%char). cbn [bind].
  change (ch_eqb "-" "-") with true. cbv iota. cbn [bind negb].
  rewrite ?index_app_l by lia.
  change (index pre (5 + 1 + 2 + 1)) with (Ok d1). cbn [bind].
  destruct (int_of_char d1) as [d|e]; [|reflexivity].
  cbn [bind]. unfold week_result.
  destruct (_calculate_weekdate y w d) as [b|e]; reflexivity.
Qed.

Lemma uncommon_week_compact_prefix self (y1 y2 y3 y4 w1 w2 d1 : ascii) rest :
  ch_eqb y1 "-" = false -> ch_eqb d1 "-" = false ->
  _parse_isodate_uncommon self
    (String y1 (String y2 (String y3 (String y4
      (String "W" (String w1 (String w2 (String d1 ""))))))) ++ rest)
  = (y <- int (String y1 (String y2 (String y3 (String y4 "")))) ;;
     w <- int (String w1 (String w2 "")) ;;
     d <- int_of_char d1 ;;
     week_result y w d 8).
Proof.
  intros Hy Hd. pose proof (len_nonneg rest) as Hrest.
  set (pre := String y1 (String y2 (String y3 (String y4
      (String "W" (String w1 (String w2 (String d1 "")))))))).
  assert (Hpre : len pre = 8) by reflexivity.
  uncommon_year_prefix pre y1 y2 y3 y4 Hy.
  rewrite ?index_app_l by lia.
  change (index pre 4) with (Ok "W"%char). cbn [bind].
  change (4 + int_of_bool (ch_eqb "W" "-")) with 4.
  rewrite ?index_app_l by lia.
  change (index pre 4) with (Ok "W"%char). cbn [bind].
  change (ch_eqb "W" "W") with true. cbv iota.
  rewrite ?slice_app_l by lia.
  change (slice pre (4 + 1) (4 + 1 + 2)) with (String w1 (String w2 "")).
  destruct (int (String w1 _)) as [w|e]; [|reflexivity].
  cbn [bind]. rewrite len_app, Hpre.
  destruct (Z.ltb_spec (4 + 1 + 2) (8 + len rest)); [|lia].
  rewrite ?index_app_l by lia.
  change (index pre (4 + 1 + 2)) with (Ok d1). cbn [bind]. rewrite Hd.
  cbn [bind]. rewrite ?index_app_l by lia.
  change (index pre (4 + 1 + 2)) with (Ok d1). cbn [bind].
  destruct (int_of_char d1) as [d|e]; [|reflexivity].
  cbn [bind]. unfold week_result.
  destruct (_calculate_weekdate y w d) as [b|e]; reflexivity.
Qed.

Lemma uncommon_ordinal_prefix self (y1 y2 y3 y4 o1 o2 o3 : ascii) rest :
  ch_eqb y1 "-" = false -> ch_eqb o1 "W" = false ->
  _parse_isodate_uncommon self
    (String y1 (String y2 (String y3 (String y4 (String "-"
      (String o1 (String o2 (String o3 ""))))))) ++ rest)
  = (y <- int (String y1 (String y2 (String y3 (String y4 "")))) ;;
     n <- int (String o1 (String o2 (String o3 ""))) ;;
     ordinal_result y n 8).
Proof.
  intros Hy Ho. pose proof (len_nonneg rest) as Hrest.
  set (pre := String y1 (String y2 (String y3 (String y4 (String "-"
      (String o1 (String o2 (String o3 "")))))))).
  assert (Hpre : len pre = 8) by reflexivity.
  uncommon_year_prefix pre y1 y2 y3 y4 Hy.
  rewrite ?index_app_l by lia.
  change (index pre 4) with (Ok "-"%char). cbn [bind].
  change (4 + int_of_bool (ch_eqb "-" "-")) with 5.
  rewrite ?index_app_l by lia.
  change (index pre 5) with (Ok o1). cbn [bind]. rewrite Ho.
  rewrite ?slice_app_l by lia.
  change (slice pre 5 (5 + 3)) with (String o1 (String o2 (String o3 ""))).
  destruct (int (String o1 _)) as [n|e]; [|reflexivity].
  cbn [bind]. unfold ordinal_result.
  destruct ((n <? 1) || _); [reflexivity|].
  destruct (date_new y 1 1) as [j|e]; [|reflexivity]. cbn [bind].
  destruct (date_add_days j (n - 1)) as [b|e]; reflexivity.
Qed.

Lemma common_ordinal_prefix (y1 y2 y3 y4 o1 o2 o3 : ascii) rest :
  ch_eqb o3 "-" = false ->
  _parse_isodate_common
    (String y1 (String y2 (String y3 (String y4 (String "-"
      (String o1 (String o2 (String o3 ""))))))) ++ rest)
  = Raise ValueError.
Proof.
  intros H3. pose proof (len_nonneg rest) as Hrest.
  set (pre := String y1 (String y2 (String y3 (String y4 (String "-"
      (String o1 (String o2 (String o3 "")))))))).
  assert (Hpre : len pre = 8) by reflexivity.
  pose proof (common_result (pre ++ rest)) as Hr. revert Hr.
  unfold _parse_isodate_common. cbv zeta. rewrite len_app, Hpre.
  destruct (Z.ltb_spec (8 + len rest) 4); [lia|].
  destruct (int _) as [y|e]; [|cbn [bind]; intros ->; reflexivity].
  cbn [bind]. change (set_item _ 0 (VInt y)) with (Ok [VInt y; VInt 1; VInt 1]).
  cbn [bind]. destruct (Z.leb_spec (8 + len rest) 4); [lia|].
  rewrite index_app_l by lia. change (index pre 4) with (Ok "-"%char).
  cbn [bind]. change (ch_eqb "-" "-") with true. cbv iota.
  destruct (Z.ltb_spec (8 + len rest - (4 + 1)) 2); [lia|].
  destruct (int _) as [m|e]; [|cbn [bind]; intros ->; reflexivity].
  cbn [bind]. change (set_item _ 1 (VInt m)) with (Ok [VInt y; VInt m; VInt 1]).
  cbn [bind]. destruct (Z.leb_spec (8 + len rest) (4 + 1 + 2)); [lia|].
  rewrite index_app_l by lia. change (index pre (4 + 1 + 2)) with (Ok o3).
  cbn [bind]. rewrite H3. reflexivity.
Qed.

Lemma int_of_char_not_digit c :
  is_digit c = false -> int_of_char c = Raise ValueError.
Proof.
  unfold is_digit, int_of_char, int. intros H. cbn [lstrip].
  destruct (is_space c); [reflexivity|].
  destruct (ch_eqb c "+"); [reflexivity|].
  destruct (ch_eqb c "-"); [reflexivity|].
  cbn [int_unsigned]. destruct (digit_val c); [discriminate H | reflexivity].
Qed.

Lemma uncommon_short_week_then self (y1 y2 y3 y4 w1 w2 c : ascii) rest :
  ch_eqb y1 "-" = false -> is_digit c = false -> ch_eqb c "-" = false ->
  _parse_isodate_uncommon self
    (String y1 (String y2 (String y3 (String y4 (String "-"
      (String "W" (String w1 (String w2 ""))))))) ++ String c rest)
  = Raise ValueError /\
  _parse_isodate_uncommon self
    (String y1 (String y2 (String y3 (String y4
      (String "W" (String w1 (String w2 "")))))) ++ String c rest)
  = Raise ValueError.
Proof.
  intros Hy Hc Hd. pose proof (len_nonneg rest) as Hrest.
  pose proof (int_of_char_not_digit c Hc) as Hint.
  split.
  - set (pre := String y1 (String y2 (String y3 (String y4 (String "-"
        (String "W" (String w1 (String w2 "")))))))).
    assert (Hpre : len pre = 8) by reflexivity.
    assert (Hi8 : index (pre ++ String c rest) 8 = Ok c).
    { rewrite index_app_r by lia. rewrite Hpre. apply index_cons_0. }
    unfold _parse_isodate_uncommon.
    rewrite (slice_app_l pre _ 0 2) by lia.
    change (slice pre 0 2) with (String y1 (String y2 "")).
    unfold String.eqb at 1. fold String.eqb.
    change (Ascii.eqb y1 "-") with (ch_eqb y1 "-"). rewrite Hy.
    pose proof (int_only (slice (pre ++ String c rest) 0 4)) as Hyo.
    destruct (int (slice (pre ++ String c rest) 0 4)) as [y|e];
      [|rewrite (Hyo e eq_refl); reflexivity].
    cbn [bind]. rewrite ?index_app_l by lia.
    change (index pre 4) with (Ok "-"%char). cbn [bind].
    change (4 + int_of_bool (ch_eqb "-" "-")) with 5.
    rewrite ?index_app_l by lia.
    change (index pre 5) with (Ok "W"%char). cbn [bind].
    change (ch_eqb "W" "W") with true. cbv iota.
    pose proof (int_only (slice (pre ++ String c rest) (5 + 1) (5 + 1 + 2))) as Hwo.
    destruct (int (slice (pre ++ String c rest) (5 + 1) (5 + 1 + 2))) as [w|e];
      [|rewrite (Hwo e eq_refl); reflexivity].
    cbn [bind]. rewrite len_app, Hpre, len_cons.
    destruct (Z.ltb_spec (5 + 1 + 2) (8 + (len rest + 1))); [|lia].
    change (5 + 1 + 2) with 8. rewrite Hi8. cbn [bind]. rewrite Hd. cbn [bind].
    rewrite Hi8. cbn [bind]. rewrite Hint. reflexivity.
  - set (pre := String y1 (String y2 (String y3 (String y4
        (String "W" (String w1 (String w2 ""))))))).
    assert (Hpre : len pre = 7) by reflexivity.
    assert (Hi7 : index (pre ++ String c rest) 7 = Ok c).
    { rewrite index_app_r by lia. rewrite Hpre. apply index_cons_0. }
    unfold _parse_isodate_uncommon.
    rewrite (slice_app_l pre _ 0 2) by lia.
    change (slice pre 0 2) with (String y1 (String y2 "")).
    unfold String.eqb at 1. fold String.eqb.
    change (Ascii.eqb y1 "-") with (ch_eqb y1 "-"). rewrite Hy.
    pose proof (int_only (slice (pre ++ String c rest) 0 4)) as Hyo.
    destruct (int (slice (pre ++ String c rest) 0 4)) as [y|e];
      [|rewrite (Hyo e eq_refl); reflexivity].
    cbn [bind]. rewrite ?index_app_l by lia.
    change (index pre 4) with (Ok "W"%char). cbn [bind].
    change (4 + int_of_bool (ch_eqb "W" "-")) with 4.
    rewrite ?index_app_l by lia.
    change (index pre 4) with (Ok "W"%char). cbn [bind].
    change (ch_eqb "W" "W") with true. cbv iota.
    pose proof (int_only (slice (pre ++ String c rest) (4 + 1) (4 + 1 + 2))) as Hwo.
    destruct (int (slice (pre ++ String c rest) (4 + 1) (4 + 1 + 2))) as [w|e];
      [|rewrite (Hwo e eq_refl); reflexivity].
    cbn [bind]. rewrite len_app, Hpre, len_cons.
    destruct (Z.ltb_spec (4 + 1 + 2) (7 + (len rest + 1))); [|lia].
    change (4 + 1 + 2) with 7. rewrite Hi7. cbn [bind]. rewrite Hd. cbn [bind].
    rewrite Hi7. cbn [bind]. rewrite Hint. reflexivity.
Qed.

Lemma len_week_text dashed y w d :
  len (week_text dashed y w d) = if dashed then 10 else 8.
Proof. destruct dashed; reflexivity. Qed.

(** The date parser reads a week date and stops behind it, whatever
    follows. *)
Lemma parse_isodate_week_text self dashed y w d rest :
  0 <= y < 10000 -> 0 <= w < 100 -> 0 <= d < 10 ->
  _parse_isodate self (week_text dashed y w d ++ rest)
  = week_result y w d (len (week_text dashed y w d)).
Proof.
  intros Hy Hw Hd. rewrite len_week_text. unfold _parse_isodate.
  pose proof (int_fmt04 y Hy) as Iy. pose proof (int_fmt02 w Hw) as Iw.
  pose proof (int_fmt01 d Hd) as Id. unfold fmt04, fmt02, fmt01 in Iy, Iw, Id.
  destruct dashed.
  - change (week_text true y w d)
      with (String (digit_char (y / 1000)) (String (digit_char (y / 100))
             (String (digit_char (y / 10)) (String (digit_char y) (String "-"
             (String "W" (String (digit_char (w / 10)) (String (digit_char w)
             (String "-" (String (digit_char d) "")))))))))).
    rewrite uncommon_week_prefix by apply digit_char_not_dash.
    unfold int_of_char. rewrite Iy, Iw, Id. cbn [bind append].
    rewrite (proj2 (common_week_any _ _ _ _ _)). reflexivity.
  - change (week_text false y w d)
      with (String (digit_char (y / 1000)) (String (digit_char (y / 100))
             (String (digit_char (y / 10)) (String (digit_char y)
             (String "W" (String (digit_char (w / 10)) (String (digit_char w)
             (String (digit_char d) "")))))))).
    rewrite uncommon_week_compact_prefix by apply digit_char_not_dash.
    unfold int_of_char. rewrite Iy, Iw, Id. cbn [bind append].
    rewrite (proj1 (common_week_any _ _ _ _ _)). reflexivity.
Qed.

(** The date parser reads an ordinal date [YYYY-DDD] and stops behind it,
    whatever follows. *)
Lemma parse_isodate_ordinal_text self y n rest :
  0 <= y < 10000 -> 0 <= n < 1000 ->
  _parse_isodate self ((fmt04 y ++ "-" ++ fmt03 n) ++ rest)
  = ordinal_result y n 8.
Proof.
  intros Hy Hn. unfold _parse_isodate.
  pose proof (int_fmt04 y Hy) as Iy. pose proof (int_fmt03 n Hn) as In.
  unfold fmt04, fmt03 in Iy, In.
  change (fmt04 y ++ "-" ++ fmt03 n)
    with (String (digit_char (y / 1000)) (String (digit_char (y / 100))
           (String (digit_char (y / 10)) (String (digit_char y) (String "-"
           (String (digit_char (n / 100)) (String (digit_char (n / 10))
           (String (digit_char n) "")))))))).
  rewrite uncommon_ordinal_prefix
    by first [apply digit_char_not_dash | apply digit_char_not_W].
  rewrite Iy, In. cbn [bind].
  rewrite common_ordinal_prefix by apply digit_char_not_dash. reflexivity.
Qed.

(** [isoparse] on a date of the uncommon grammar, the separator and a
    time. *)
Lemma isoparse_any_date_time self pre c timestr D h mi s us zcomp tzv :
  _parse_isodate self (pre ++ String c timestr)
    = Ok ([VInt (year D); VInt (month D); VInt (day D)], len pre) ->
  valid_date D -> _sep self = String c "" ->
  _parse_isotime_scan timestr = Ok [VInt h; VInt mi; VInt s; VInt us; zcomp] ->
  tz_of zcomp = Ok tzv ->
  0 <= h <= 23 -> 0 <= mi <= 59 -> 0 <= s <= 59 -> 0 <= us <= 999999 ->
  isoparse self (pre ++ String c timestr) false
  = Ok (mkdatetime D (mktime h mi s us tzv)).
Proof.
  intros Hdate HD Hsep Hscan Htz Hh Hmi Hs Hus.
  unfold isoparse. rewrite Hdate. cbn [bind].
  pose proof (len_nonneg pre) as Hpre. pose proof (len_nonneg timestr) as Ht.
  rewrite len_app, len_cons.
  destruct (Z.ltb_spec (len pre) (len pre + (len timestr + 1))); [|lia].
  rewrite index_app_r by lia. rewrite Z.sub_diag, index_cons_0. cbn [bind].
  rewrite Hsep, String.eqb_refl.
  rewrite slice_from_app_r by lia.
  replace (len pre + 1 - len pre) with 1 by lia.
  assert (Hsl : slice_from (String c timestr) 1 = timestr).
  { unfold slice_from. rewrite clamp_nonneg by lia. rewrite len_cons.
    replace (Z.min 1 (len timestr + 1)) with 1 by lia. reflexivity. }
  rewrite Hsl.
  destruct (parse_isotime_of_scan _ _ _ _ _ _ _ Hscan Htz Hh Hmi Hs Hus)
    as [-> _].
  cbn [bind List.app datetime_of]. rewrite Htz. cbn [bind].
  unfold datetime_new. unfold valid_date in HD. rewrite HD. cbn [bind].
  rewrite time_new_ok by assumption. reflexivity.
Qed.

Lemma weekdate_valid y w d :
  1 <= y <= 9998 -> 1 <= w <= 53 -> 1 <= d <= 7 ->
  valid_date (fromordinal (_isoweek1monday y + (w - 1) * 7 + (d - 1))).
Proof.
  intros Hy Hw Hd.
  destruct (calculate_weekdate_date y w d Hy Hw Hd) as (_ & Ho & Hin).
  cbv zeta in Ho, Hin.
  set (o := _isoweek1monday y + (w - 1) * 7 + (d - 1)) in *.
  destruct (Z_lt_ge_dec o (_isoweek1monday (y + 1))) as [Hlt | Hge].
  - apply (isocalendar_fromordinal o y Ho). lia.
  - replace (y + 2) with (y + 1 + 1) in Hin by lia.
    apply (isocalendar_fromordinal o (y + 1) Ho). lia.
Qed.

(* ================================================================== *)
(** ** Further properties of the parser, X1 to X27                   *)
(* ================================================================== *)

(** X1.  A date without a day, or without a month and a day, stands for
    the first day of the month, or of the year: for every year in
    [1, 9999] and every month, the texts [YYYY], [YYYY-MM] and [YYYYMM]
    give the first of January or the first of the month, and [isoparse],
    in either mode, gives that date at midnight without a zone. *)
Theorem X1_partial_dates self (common_only : bool) y m :
  1 <= y <= 9999 -> 1 <= m <= 12 ->
  let midnight := mktime 0 0 0 0 None in
  (parse_isodate self (fmt04 y) = Ok (mkdate y 1 1) /\
   parse_isodate self (fmt04 y ++ "-" ++ fmt02 m) = Ok (mkdate y m 1) /\
   parse_isodate self (fmt04 y ++ fmt02 m) = Ok (mkdate y m 1)) /\
  (isoparse self (fmt04 y) common_only
     = Ok (mkdatetime (mkdate y 1 1) midnight) /\
   isoparse self (fmt04 y ++ "-" ++ fmt02 m) common_only
     = Ok (mkdatetime (mkdate y m 1) midnight) /\
   isoparse self (fmt04 y ++ fmt02 m) common_only
     = Ok (mkdatetime (mkdate y m 1) midnight)).
Proof.
  intros Hy Hm midnight.
  assert (H1 : _parse_isodate_common (fmt04 y) = Ok ([VInt y; VInt 1; VInt 1], 4)).
  { unfold fmt04. rewrite common_year_shape.
    change (String (digit_char (y / 1000)) _) with (fmt04 y).
    rewrite int_fmt04 by lia. reflexivity. }
  assert (H2 : _parse_isodate_common (fmt04 y ++ "-" ++ fmt02 m)
               = Ok ([VInt y; VInt m; VInt 1], 7)).
  { unfold fmt04, fmt02. cbn [append]. rewrite common_month_dashed_shape.
    change (String (digit_char (y / 1000)) _) with (fmt04 y).
    change (String (digit_char (m / 10)) _) with (fmt02 m).
    rewrite int_fmt04, int_fmt02 by lia. reflexivity. }
  assert (H3 : _parse_isodate_common (fmt04 y ++ fmt02 m)
               = Ok ([VInt y; VInt m; VInt 1], 6)).
  { unfold fmt04, fmt02. cbn [append].
    rewrite common_month_undashed_shape by apply digit_char_not_dash.
    change (String (digit_char (y / 1000)) _) with (fmt04 y).
    change (String (digit_char (m / 10)) _) with (fmt02 m).
    rewrite int_fmt04, int_fmt02 by lia. reflexivity. }
  pose proof (date_new_ok y 1 1 Hy (jan_1_valid y)) as D1.
  pose proof (date_new_ok y m 1 Hy (first_of_month_valid y m Hm)) as D2.
  split.
  - unfold parse_isodate, _parse_isodate. rewrite H1, H2, H3.
    cbn [try_except_ValueError bind date_of]. auto.
  - rewrite (isoparse_date_only self _ common_only y 1 1 4
               (common_then_any self _ common_only _ H1))
      by (unfold fmt04; explicit_len; lia).
    rewrite (isoparse_date_only self _ common_only y m 1 7
               (common_then_any self _ common_only _ H2))
      by (unfold fmt04, fmt02; cbn [append]; explicit_len; lia).
    rewrite (isoparse_date_only self _ common_only y m 1 6
               (common_then_any self _ common_only _ H3))
      by (unfold fmt04, fmt02; cbn [append]; explicit_len; lia).
    rewrite D1, D2. cbn [bind]. auto.
Qed.

Lemma X1_partial_dates_witness :
  1 <= 2014 <= 9999 /\ 1 <= 4 <= 12 /\
  parse_isodate P2003 "201404" = Ok (mkdate 2014 4 1) /\
  isoparse P2003 "2014" true
    = Ok (mkdatetime (mkdate 2014 1 1) (mktime 0 0 0 0 None)).
Proof.
  split; [lia|]. split; [lia|].
  destruct (X1_partial_dates P2003 true 2014 4 ltac:(lia) ltac:(lia))
    as [(_ & _ & H1) (H2 & _)].
  split; [exact H1 | exact H2].
Defined.

(** X2.  A calendar date whose fields are digits but which is no date
    (year 0, month 0 or above 12, a day that the month does not have) is
    read by the common grammar and then rejected by the constructor:
    [parse_isodate], and [isoparse] in either mode, raise [ValueError] on
    [YYYY-MM-DD] and on [YYYYMMDD]. *)
Theorem X2_invalid_calendar_date self (common_only dashed : bool) y m d :
  0 <= y < 10000 -> 0 <= m < 100 -> 0 <= d < 100 ->
  ~ (1 <= y /\ valid_ymd y m d) ->
  parse_isodate self (date_text dashed y m d) = Raise ValueError /\
  isoparse self (date_text dashed y m d) common_only = Raise ValueError.
Proof.
  intros Hy Hm Hd Hbad.
  pose proof (common_date_text dashed y m d "" Hy Hm Hd) as Hc.
  rewrite append_empty_r in Hc.
  assert (Hnew : date_new y m d = Raise ValueError).
  { apply date_new_invalid. intros [Hy' Hv]. apply Hbad. split; [lia | exact Hv]. }
  split.
  - unfold parse_isodate, _parse_isodate. rewrite Hc.
    cbn [try_except_ValueError bind date_of]. exact Hnew.
  - rewrite (isoparse_date_only self _ common_only y m d _
               (common_then_any self _ common_only _ Hc)) by lia.
    rewrite Hnew. reflexivity.
Qed.

Lemma X2_invalid_calendar_date_witness :
  ~ (1 <= 2014 /\ valid_ymd 2014 2 30) /\
  parse_isodate P2003 "2014-02-30" = Raise ValueError /\
  isoparse P2003 "2014-02-30" false = Raise ValueError.
Proof.
  assert (Hbad : ~ (1 <= 2014 /\ valid_ymd 2014 2 30)).
  { intros [_ [_ H]]. change (_days_in_month 2014 2) with 28 in H. lia. }
  split; [exact Hbad|].
  exact (X2_invalid_calendar_date P2003 false true 2014 2 30
           ltac:(lia) ltac:(lia) ltac:(lia) Hbad).
Defined.

(** X3.  Ordinal dates.  For every date [D] of the [date] type, the day
    of the year of [D] lies between 1 and the length of the year, and
    [parse_isodate] maps the texts [YYYY-DDD] and [YYYYDDD] of the year and
    the day of the year (four and three digits) back to [D]. *)
Theorem X3_ordinal_roundtrip self D :
  valid_date D ->
  1 <= day_of_year D <= 365 + int_of_bool (isleap (year D)) /\
  parse_isodate self (fmt04 (year D) ++ "-" ++ fmt03 (day_of_year D)) = Ok D /\
  parse_isodate self (fmt04 (year D) ++ fmt03 (day_of_year D)) = Ok D.
Proof.
  intros HD. pose proof HD as HD'. apply valid_date_iff in HD' as [Hy Hv].
  pose proof (ymd2ord_in_year _ _ _ Hv) as Ho. rewrite dby_succ in Ho.
  assert (Hn : 1 <= day_of_year D <= 365 + int_of_bool (isleap (year D)))
    by (unfold day_of_year, toordinal; lia).
  split; [exact Hn|].
  assert (Hn' : 0 <= day_of_year D < 1000)
    by (destruct (isleap (year D)); cbn [int_of_bool] in Hn; lia).
  destruct (parse_isodate_ordinal self (year D) (day_of_year D)
              ltac:(lia) Hn') as [H1 H2].
  assert (HDD : fromordinal (_days_before_year (year D) + day_of_year D) = D).
  { unfold day_of_year.
    replace (_days_before_year (year D) + (toordinal D - _days_before_year (year D)))
      with (toordinal D) by lia.
    apply fromordinal_toordinal. exact Hv. }
  unfold parse_isodate. rewrite H1, H2.
  rewrite !(ordinal_result_ok _ _ _ Hy Hn). cbv zeta. rewrite HDD.
  cbn [bind date_of]. split; exact HD.
Qed.

Lemma X3_ordinal_roundtrip_witness :
  valid_date (mkdate 2014 4 11) /\
  day_of_year (mkdate 2014 4 11) = 101 /\
  parse_isodate P2003 "2014-101" = Ok (mkdate 2014 4 11) /\
  parse_isodate P2003 "2014101" = Ok (mkdate 2014 4 11).
Proof.
  split; [reflexivity|]. split; [reflexivity|].
  exact (proj2 (X3_ordinal_roundtrip P2003 (mkdate 2014 4 11) eq_refl)).
Defined.

(** X4.  An ordinal date whose day number is 0 or exceeds the length of
    the year (365, or 366 in a leap year), or whose year is 0, is a
    [ValueError], in both forms [YYYY-DDD] and [YYYYDDD]. *)
Theorem X4_ordinal_out_of_range self y n :
  0 <= y < 10000 -> 0 <= n < 1000 ->
  n = 0 \/ 365 + int_of_bool (isleap y) < n \/ y = 0 ->
  parse_isodate self (fmt04 y ++ "-" ++ fmt03 n) = Raise ValueError /\
  parse_isodate self (fmt04 y ++ fmt03 n) = Raise ValueError.
Proof.
  intros Hy Hn Hbad.
  destruct (parse_isodate_ordinal self y n Hy Hn) as [H1 H2].
  unfold parse_isodate. rewrite H1, H2. unfold ordinal_result.
  destruct (Z.ltb_spec n 1) as [|Hn1]; [split; reflexivity|].
  destruct (Z.ltb_spec (365 + int_of_bool (isleap y)) n) as [|Hn2];
    [split; reflexivity|].
  cbn [orb]. assert (y = 0) as -> by lia. split; reflexivity.
Qed.

Lemma X4_ordinal_out_of_range_witness :
  365 + int_of_bool (isleap 2015) < 366 /\
  parse_isodate P2003 "2015-366" = Raise ValueError /\
  parse_isodate P2003 "2015366" = Raise ValueError.
Proof.
  assert (H : 365 + int_of_bool (isleap 2015) < 366)
    by (change (int_of_bool (isleap 2015)) with 0; lia).
  split; [exact H|].
  exact (X4_ordinal_out_of_range P2003 2015 366 ltac:(lia) ltac:(lia)
           (or_intror (or_introl H))).
Defined.

(** X5.  Week dates in all four forms.  For every year from 1 to 9998,
    week from 1 to 53 and weekday from 1 to 7, the texts [YYYY-Www-D] and
    [YYYYWwwD] give the date [D - 1] days after the Monday of that week,
    which lies [7 * (ww - 1)] days after the Monday of week 1; the texts
    without a weekday, [YYYY-Www] and [YYYYWww], give that Monday itself,
    a date whose ISO weekday is 1. *)
Theorem X5_week_text_forms self y w d :
  1 <= y <= 9998 -> 1 <= w <= 53 -> 1 <= d <= 7 ->
  let monday := _isoweek1monday y + (w - 1) * 7 in
  (parse_isodate self (fmt04 y ++ "-W" ++ fmt02 w ++ "-" ++ fmt01 d)
     = Ok (fromordinal (monday + (d - 1))) /\
   parse_isodate self (fmt04 y ++ "W" ++ fmt02 w ++ fmt01 d)
     = Ok (fromordinal (monday + (d - 1)))) /\
  (parse_isodate self (fmt04 y ++ "-W" ++ fmt02 w) = Ok (fromordinal monday) /\
   parse_isodate self (fmt04 y ++ "W" ++ fmt02 w) = Ok (fromordinal monday)) /\
  (exists iy iw, isocalendar (fromordinal monday) = (iy, iw, 1)).
Proof.
  intros Hy Hw Hd monday.
  destruct (parse_isodate_week_forms self y w d ltac:(lia) ltac:(lia) ltac:(lia))
    as (F1 & F2 & F3 & F4).
  destruct (calculate_weekdate_date y w d Hy Hw Hd) as (Hc & Ho & Hin).
  destruct (calculate_weekdate_date y w 1 Hy Hw ltac:(lia)) as (Hc1 & Ho1 & Hin1).
  cbv zeta in Hc, Hc1, Ho, Ho1, Hin, Hin1. fold monday in Hc, Hc1, Ho, Ho1, Hin, Hin1.
  replace (monday + (1 - 1)) with monday in * by lia.
  assert (Hvalid : forall o, 1 <= o <= _MAXORDINAL ->
            _isoweek1monday y <= o < _isoweek1monday (y + 2) ->
            valid_date (fromordinal o) /\
            exists Y, isocalendar (fromordinal o)
                      = (Y, (o - _isoweek1monday Y) / 7 + 1,
                         (o - _isoweek1monday Y) mod 7 + 1)).
  { intros o Ho' Hin'.
    destruct (Z_lt_ge_dec o (_isoweek1monday (y + 1))) as [Hlt | Hge].
    - destruct (isocalendar_fromordinal o y Ho' ltac:(lia)) as [Hv Hi].
      split; [exact Hv|]. exists y. exact Hi.
    - replace (y + 2) with (y + 1 + 1) in Hin' by lia.
      destruct (isocalendar_fromordinal o (y + 1) Ho' ltac:(lia)) as [Hv Hi].
      split; [exact Hv|]. exists (y + 1). exact Hi. }
  destruct (Hvalid _ Ho Hin) as [Hv _].
  destruct (Hvalid _ Ho1 Hin1) as [Hv1 (Y & Hiso)].
  unfold parse_isodate. rewrite F1, F2, F3, F4. unfold week_result.
  rewrite Hc, Hc1. cbn [bind date_of].
  split; [split; exact Hv|]. split; [split; exact Hv1|].
  eexists _, _. rewrite Hiso. f_equal.
  pose proof (isoweek1monday_spec y) as [Hmod _].
  pose proof (isoweek1monday_spec Y) as [HmodY _].
  subst monday. Z.to_euclidean_division_equations. lia.
Qed.

Lemma X5_week_text_forms_witness :
  1 <= 2004 <= 9998 /\ 1 <= 1 <= 53 /\ 1 <= 3 <= 7 /\
  parse_isodate P2003 "2004W013" = Ok (mkdate 2003 12 31) /\
  parse_isodate P2003 "2004-W01" = Ok (mkdate 2003 12 29).
Proof.
  split; [lia|]. split; [lia|]. split; [lia|].
  destruct (X5_week_text_forms P2003 2004 1 3 ltac:(lia) ltac:(lia) ltac:(lia))
    as ((_ & H1) & (H2 & _) & _).
  split; [exact H1 | exact H2].
Defined.

(** X6.  A week date with week 0 or a week above 53, with weekday 0, 8
    or 9, or with year 0 is a [ValueError], in all four forms. *)
Theorem X6_week_out_of_range self y w d :
  0 <= y < 10000 -> 0 <= w < 100 -> 0 <= d < 10 ->
  (w = 0 \/ 53 < w \/ y = 0 ->
   parse_isodate self (fmt04 y ++ "-W" ++ fmt02 w) = Raise ValueError /\
   parse_isodate self (fmt04 y ++ "W" ++ fmt02 w) = Raise ValueError) /\
  (w = 0 \/ 53 < w \/ d = 0 \/ 7 < d \/ y = 0 ->
   parse_isodate self (fmt04 y ++ "-W" ++ fmt02 w ++ "-" ++ fmt01 d)
     = Raise ValueError /\
   parse_isodate self (fmt04 y ++ "W" ++ fmt02 w ++ fmt01 d)
     = Raise ValueError).
Proof.
  intros Hy Hw Hd.
  destruct (parse_isodate_week_forms self y w d Hy Hw Hd) as (F1 & F2 & F3 & F4).
  assert (Hbad : forall d' pos, 0 <= d' ->
            w = 0 \/ 53 < w \/ d' = 0 \/ 7 < d' \/ y = 0 ->
            week_result y w d' pos = Raise ValueError).
  { intros d' pos Hd' Hbad. unfold week_result, _calculate_weekdate.
    destruct (Z.ltb_spec 0 w); [|reflexivity].
    destruct (Z.ltb_spec w 54); [|reflexivity].
    destruct (Z.ltb_spec 0 d'); [|reflexivity].
    destruct (Z.ltb_spec d' 8); [|reflexivity].
    cbn [andb negb]. assert (y = 0) as -> by lia. reflexivity. }
  unfold parse_isodate. rewrite F1, F2, F3, F4. split; intros H.
  - rewrite !Hbad by lia. split; reflexivity.
  - rewrite !Hbad by lia. split; reflexivity.
Qed.

Lemma X6_week_out_of_range_witness :
  53 < 54 /\
  parse_isodate P2003 "2004-W54" = Raise ValueError /\
  parse_isodate P2003 "2004W541" = Raise ValueError.
Proof.
  assert (H : 53 < 54) by lia.
  split; [exact H|].
  destruct (X6_week_out_of_range P2003 2004 54 1 ltac:(lia) ltac:(lia) ltac:(lia))
    as [H1 H2].
  split.
  - exact (proj1 (H1 (or_intror (or_introl H)))).
  - exact (proj2 (H2 (or_intror (or_introl H)))).
Defined.

(** X7.  The week-date calculator is inverse to the ISO calendar on the
    triples of a year: for every year from 1 to 9998, every week that the
    year has and every weekday, [_calculate_weekdate] returns a date of the
    [date] type whose ISO calendar triple is (year, week, weekday). *)
Theorem X7_weekdate_inverse y w d :
  1 <= y <= 9998 -> 1 <= w <= iso_weeks_in_year y -> 1 <= d <= 7 ->
  exists D, _calculate_weekdate y w d = Ok D /\ valid_date D /\
            isocalendar D = (y, w, d).
Proof.
  intros Hy Hw Hd.
  assert (Hw53 : 1 <= w <= 53) by (destruct (iso_weeks_in_year_cases y); lia).
  destruct (calculate_weekdate_date y w d Hy Hw53 Hd) as (Hc & Ho & _).
  cbv zeta in Hc.
  set (o := _isoweek1monday y + (w - 1) * 7 + (d - 1)) in *.
  exists (fromordinal o). split; [exact Hc|].
  assert (Hin : _isoweek1monday y <= o < _isoweek1monday (y + 1)).
  { destruct (iso_weeks_in_year_cases y) as [H | H].
    - pose proof (proj1 (iso_weeks_in_year_52 y) H). subst o. lia.
    - pose proof (proj1 (iso_weeks_in_year_53 y) H). subst o. lia. }
  destruct (isocalendar_fromordinal o y Ho Hin) as [Hv Hiso].
  split; [exact Hv|]. rewrite Hiso. subst o.
  f_equal; [f_equal|]; Z.to_euclidean_division_equations; lia.
Qed.

Lemma X7_weekdate_inverse_witness :
  1 <= 53 <= iso_weeks_in_year 2004 /\
  exists D, _calculate_weekdate 2004 53 6 = Ok D /\
            isocalendar D = (2004, 53, 6).
Proof.
  assert (H : 1 <= 53 <= iso_weeks_in_year 2004)
    by (change (iso_weeks_in_year 2004) with 53; lia).
  split; [exact H|].
  destruct (X7_weekdate_inverse 2004 53 6 ltac:(lia) H ltac:(lia))
    as (D & Hc & _ & Hi).
  exists D. split; [exact Hc | exact Hi].
Defined.

(** X8.  For a parser built by [__init__] with a default year: every
    month and day of the default year, written without the year as
    [--MM-DD] or [--MMDD], is parsed to that day of the default year
    (February 29 included, when the default year is a leap year). *)
Theorem X8_yearless_roundtrip sep dy now_year self m d :
  __init__ sep (Some dy) now_year = Ok self ->
  valid_ymd dy m d ->
  parse_isodate self ("--" ++ fmt02 m ++ "-" ++ fmt02 d) = Ok (mkdate dy m d) /\
  parse_isodate self ("--" ++ fmt02 m ++ fmt02 d) = Ok (mkdate dy m d).
Proof.
  intros Hinit Hv.
  assert (Hself : _default_year self = dy /\ 1 <= dy <= 9999).
  { unfold __init__ in Hinit. destruct (negb (len sep =? 1)); [discriminate Hinit|].
    destruct (Z.leb_spec 1 dy), (Z.leb_spec dy 9999); cbn [andb negb] in Hinit;
      try discriminate Hinit.
    injection Hinit as <-. split; [reflexivity | lia]. }
  destruct Hself as [Hdy Hr].
  pose proof (days_in_month_le_31 _ _ _ Hv) as Hd. pose proof Hv as [Hm Hdd].
  destruct (parse_isodate_yearless self m d ltac:(lia) ltac:(lia)) as [H1 H2].
  cbv zeta in H1, H2. rewrite Hdy in H1, H2.
  assert (Hyr : yearless_year dy m d = dy).
  { unfold yearless_year.
    destruct (Z.eqb_spec m 2) as [-> |]; [|reflexivity].
    destruct (Z.eqb_spec d 29) as [-> |]; [|reflexivity]. cbn [andb].
    apply leap_year_back_leap. unfold _days_in_month in Hdd.
    destruct (isleap dy); [reflexivity|].
    change (if (2 =? 2) && false then 29 else tbl _DAYS_IN_MONTH 2) with 28 in Hdd.
    lia. }
  rewrite Hyr in H1, H2.
  unfold parse_isodate. rewrite H1, H2. cbn [bind date_of].
  rewrite (date_new_ok dy m d Hr Hv). split; reflexivity.
Qed.

Lemma X8_yearless_roundtrip_witness :
  __init__ "T" (Some 2004) 0 = Ok P2004 /\ valid_ymd 2004 2 29 /\
  parse_isodate P2004 "--02-29" = Ok (mkdate 2004 2 29) /\
  parse_isodate P2004 "--0229" = Ok (mkdate 2004 2 29).
Proof.
  assert (Hv : valid_ymd 2004 2 29)
    by (split; [lia | change (_days_in_month 2004 2) with 29; lia]).
  split; [reflexivity|]. split; [exact Hv|].
  exact (X8_yearless_roundtrip "T" 2004 0 P2004 2 29 eq_refl Hv).
Defined.

(** X9.  No text of fewer than four characters, the empty text included,
    is a date: [parse_isodate] and [isoparse] raise [ValueError] or
    [IndexError] on it, and [isoparse] in the strict mode raises
    [ValueError]. *)
Theorem X9_short_input self dt_str :
  len dt_str < 4 ->
  (parse_isodate self dt_str = Raise ValueError \/
   parse_isodate self dt_str = Raise IndexError) /\
  (isoparse self dt_str false = Raise ValueError \/
   isoparse self dt_str false = Raise IndexError) /\
  isoparse self dt_str true = Raise ValueError.
Proof.
  intros Hlen.
  assert (Hc : _parse_isodate_common dt_str = Raise ValueError).
  { unfold _parse_isodate_common. cbv zeta.
    destruct (Z.ltb_spec (len dt_str) 4); [reflexivity | lia]. }
  assert (Hu : _parse_isodate_uncommon self dt_str = Raise ValueError \/
               _parse_isodate_uncommon self dt_str = Raise IndexError).
  { unfold _parse_isodate_uncommon.
    rewrite (index_out dt_str 4) by lia.
    destruct (String.eqb _ "--").
    - pose proof (int_only (slice dt_str 2 4)) as Hi.
      destruct (int (slice dt_str 2 4)) as [v|e]; cbn [bind]; [right; reflexivity|].
      rewrite (Hi e eq_refl). left. reflexivity.
    - pose proof (int_only (slice dt_str 0 4)) as Hi.
      destruct (int (slice dt_str 0 4)) as [v|e]; cbn [bind]; [right; reflexivity|].
      rewrite (Hi e eq_refl). left. reflexivity. }
  unfold parse_isodate, isoparse, _parse_isodate. rewrite Hc.
  cbn [try_except_ValueError bind].
  split; [|split; [|reflexivity]]; destruct Hu as [-> | ->]; cbn [bind]; auto.
Qed.

Lemma X9_short_input_witness :
  len "12" < 4 /\
  parse_isodate P2003 "12" = Raise IndexError /\
  isoparse P2003 "12" true = Raise ValueError.
Proof.
  split; [reflexivity|].
  destruct (X9_short_input P2003 "12" eq_refl) as ([H | H] & _ & H').
  - discriminate H.
  - split; [exact H | exact H'].
Defined.

(** X10.  What escapes from the date parser.  On every text,
    [parse_isodate] and [isoparse] raise nothing but [ValueError],
    [IndexError] and [OverflowError], and [IndexError] on texts of fewer
    than 10 characters only: the components always fit the constructors
    (no [TypeError]), and a text of 10 or more characters is never indexed
    beyond its end. *)
Theorem X10_date_errors self dt_str e :
  (parse_isodate self dt_str = Raise e -> date_error dt_str e) /\
  (isoparse self dt_str false = Raise e -> date_error dt_str e).
Proof.
  split; [apply parse_isodate_errors | apply isoparse_errors].
Qed.

Lemma X10_date_errors_witness :
  parse_isodate P2003 "2004-W01-" = Raise IndexError /\
  date_error "2004-W01-" IndexError /\ len "2004-W01-" < 10.
Proof.
  split; [reflexivity|].
  pose proof (proj1 (X10_date_errors P2003 "2004-W01-" IndexError) eq_refl) as H.
  split; [exact H|].
  destruct H as [H | [[_ H] | H]]; [discriminate H | exact H | discriminate H].
Defined.

(** X11.  The strict mode of [isoparse] ([common_only]) accepts none of
    the uncommon forms: every text that starts with [--], every text with
    [W] or [-W] after four characters, and every ordinal date [YYYY-DDD]
    or [YYYYDDD] is a [ValueError]. *)
Theorem X11_strict_rejects_uncommon self :
  (forall rest, isoparse self ("--" ++ rest) true = Raise ValueError) /\
  (forall year_text rest, len year_text = 4 ->
     isoparse self (year_text ++ "-W" ++ rest) true = Raise ValueError /\
     isoparse self (year_text ++ "W" ++ rest) true = Raise ValueError) /\
  (forall y n, 0 <= y < 10000 -> 0 <= n < 1000 ->
     isoparse self (fmt04 y ++ "-" ++ fmt03 n) true = Raise ValueError /\
     isoparse self (fmt04 y ++ fmt03 n) true = Raise ValueError).
Proof.
  split; [|split].
  - intros rest. apply isoparse_strict_fails. apply common_yearless.
  - intros year_text rest Hlen.
    destruct (four_chars year_text Hlen) as (c1 & c2 & c3 & c4 & ->).
    cbn [append].
    split; apply isoparse_strict_fails; apply common_week_any.
  - intros y n Hy Hn. unfold fmt04, fmt03. cbn [append].
    split; apply isoparse_strict_fails.
    + apply common_ordinal_dashed. apply digit_char_not_dash.
    + apply common_ordinal_undashed. apply digit_char_not_dash.
Qed.

Lemma X11_strict_rejects_uncommon_witness :
  len "2004" = 4 /\
  isoparse P2003 "2004-W01-1" true = Raise ValueError /\
  isoparse P2003 "2014-101" true = Raise ValueError.
Proof.
  split; [reflexivity|].
  destruct (X11_strict_rejects_uncommon P2003) as (_ & Hw & Ho).
  split.
  - exact (proj1 (Hw "2004" "01-1" eq_refl)).
  - exact (proj1 (Ho 2014 101 ltac:(lia) ltac:(lia))).
Defined.

(** X12.  On every text, the common date grammar and [isoparse] in the
    strict mode raise nothing but [ValueError]: every index is guarded by
    a length check. *)
Theorem X12_strict_only_ValueError self dt_str e :
  (_parse_isodate_common dt_str = Raise e -> e = ValueError) /\
  (isoparse self dt_str true = Raise e -> e = ValueError).
Proof.
  split; [|apply isoparse_strict_only].
  pose proof (common_result dt_str) as H.
  destruct (_parse_isodate_common dt_str) as [[cs p]|e']; [discriminate|].
  intros He. injection He as <-. exact H.
Qed.

Lemma X12_strict_only_ValueError_witness :
  isoparse P2003 "12" true = Raise ValueError /\ ValueError = ValueError.
Proof.
  split; [reflexivity|].
  exact (proj2 (X12_strict_only_ValueError P2003 "12" ValueError) eq_refl).
Defined.

(** X13.  On every text, [parse_tzstr] raises nothing but
    [ValueError]. *)
Theorem X13_parse_tzstr_only_ValueError tzstr zu e :
  parse_tzstr tzstr zu = Raise e -> e = ValueError.
Proof. apply parse_tzstr_only. Qed.

Lemma X13_parse_tzstr_only_ValueError_witness :
  parse_tzstr "+25:00" true = Raise ValueError /\ ValueError = ValueError.
Proof.
  split; [reflexivity|].
  exact (X13_parse_tzstr_only_ValueError "+25:00" true ValueError eq_refl).
Defined.

(** X14.  [parse_tzstr] rejects with [ValueError] every text other than
    [Z] whose length is not 3, 5 or 6 (the empty text included), and every
    text other than [Z] that does not start with a sign. *)
Theorem X14_parse_tzstr_rejects tzstr zu :
  tzstr <> "Z" ->
  (len tzstr <> 3 /\ len tzstr <> 5 /\ len tzstr <> 6 ->
   parse_tzstr tzstr zu = Raise ValueError) /\
  (forall c rest, tzstr = String c rest ->
     ch_eqb c "+" = false -> ch_eqb c "-" = false ->
     parse_tzstr tzstr zu = Raise ValueError).
Proof.
  intros HZ. unfold parse_tzstr.
  destruct (String.eqb_spec tzstr "Z") as [|_]; [contradiction|].
  split.
  - intros (H3 & H5 & H6). cbn [existsb].
    destruct (Z.eqb_spec (len tzstr) 3); [lia|].
    destruct (Z.eqb_spec (len tzstr) 5); [lia|].
    destruct (Z.eqb_spec (len tzstr) 6); [lia|]. reflexivity.
  - intros c rest -> Hp Hm.
    destruct (negb _); [reflexivity|].
    rewrite index_cons_0. cbn [bind]. rewrite Hm, Hp. reflexivity.
Qed.

Lemma X14_parse_tzstr_rejects_witness :
  "0530" <> "Z" /\ len "0530" <> 3 /\
  parse_tzstr "0530" true = Raise ValueError /\
  parse_tzstr "05:30" true = Raise ValueError.
Proof.
  split; [discriminate|]. split; [discriminate|].
  split.
  - refine (proj1 (X14_parse_tzstr_rejects "0530" true _) _);
      [discriminate | repeat split; discriminate].
  - refine (proj2 (X14_parse_tzstr_rejects "05:30" true _) "0"%char "5:30"
              eq_refl eq_refl eq_refl).
    discriminate.
Defined.

(** X15.  Every fixed offset that [parse_tzstr] returns, on any text, is
    less than a day: between -1439 and 1439 minutes. *)
Theorem X15_parse_tzstr_offset_range tzstr zu m :
  parse_tzstr tzstr zu = Ok (tzoffset m) -> -1439 <= m <= 1439.
Proof.
  unfold parse_tzstr.
  destruct (String.eqb tzstr "Z"); [discriminate|].
  destruct (existsb (Z.eqb (len tzstr)) [3; 5; 6]) eqn:Hlen; cbn [negb];
    [|discriminate].
  assert (Hl : len tzstr = 3 \/ len tzstr = 5 \/ len tzstr = 6).
  { cbn [existsb] in Hlen.
    destruct (Z.eqb_spec (len tzstr) 3); [lia|].
    destruct (Z.eqb_spec (len tzstr) 5); [lia|].
    destruct (Z.eqb_spec (len tzstr) 6); [lia | discriminate Hlen]. }
  destruct (index tzstr 0) as [c0|]; [|discriminate]. cbn [bind].
  assert (Hmult : forall mult,
            (if ch_eqb c0 "-" then Ok (-1)
             else if ch_eqb c0 "+" then Ok 1 else Raise ValueError) = Ok mult ->
            mult = 1 \/ mult = -1).
  { intros mult. destruct (ch_eqb c0 "-"); [intros H; injection H as <-; lia|].
    destruct (ch_eqb c0 "+"); [intros H; injection H as <-; lia | discriminate]. }
  destruct (if ch_eqb c0 "-" then _ else _) as [mult|]; [|discriminate].
  specialize (Hmult mult eq_refl). cbn [bind].
  destruct (int (slice tzstr 1 3)) as [hours|] eqn:Hh; [|discriminate].
  cbn [bind].
  apply (int_bound _ _ 2) in Hh;
    [|pose proof (len_slice tzstr 1 3 ltac:(lia)); lia | lia].
  change (10 ^ (2 - 1)) with 10 in Hh. change (10 ^ 2) with 100 in Hh.
  assert (Hmin : forall minutes,
            (if len tzstr =? 3 then Ok 0
             else c3 <- index tzstr 3 ;;
                  int (slice_from tzstr (if ch_eqb c3 ":" then 4 else 3)))
            = Ok minutes -> -100 < minutes).
  { intros minutes. destruct (Z.eqb_spec (len tzstr) 3);
      [intros H; injection H as <-; lia|].
    destruct (index tzstr 3) as [c3|]; [|discriminate]. cbn [bind].
    intros H. apply (int_bound _ _ 3) in H; [change (10 ^ (3 - 1)) with 100 in H; lia| |lia].
    destruct (ch_eqb c3 ":"); rewrite len_slice_from by lia; lia. }
  destruct (if len tzstr =? 3 then _ else _) as [minutes|]; [|discriminate].
  specialize (Hmin minutes eq_refl). cbn [bind].
  destruct (zu && (hours =? 0) && (minutes =? 0)); [discriminate|].
  destruct (Z.ltb_spec 59 minutes) as [|Hm59]; [discriminate|].
  destruct (Z.ltb_spec 23 hours) as [|Hh23]; [discriminate|].
  intros Hres. injection Hres as <-. destruct Hmult as [-> | ->]; lia.
Qed.

Lemma X15_parse_tzstr_offset_range_witness :
  parse_tzstr "-23:59" true = Ok (tzoffset (-1439)) /\
  -1439 <= -1439 <= 1439.
Proof.
  split; [reflexivity|].
  exact (X15_parse_tzstr_offset_range "-23:59" true (-1439) eq_refl).
Defined.

(** X16.  On every text, [_parse_isotime] and [parse_isotime] raise
    nothing but [ValueError]: the loop indexes the text below its length
    only, and the component list keeps its five entries. *)
Theorem X16_parse_isotime_only_ValueError timestr e :
  (_parse_isotime timestr = Raise e -> e = ValueError) /\
  (parse_isotime timestr = Raise e -> e = ValueError).
Proof.
  split; [apply _parse_isotime_only|].
  revert e. change (only_ValueError (parse_isotime timestr)).
  unfold parse_isotime. apply only_ValueError_bind; [apply _parse_isotime_only|].
  intros cs Hcs. apply time_of_only. eapply _parse_isotime_shape. exact Hcs.
Qed.

Lemma X16_parse_isotime_only_ValueError_witness :
  parse_isotime "25" = Raise ValueError /\ ValueError = ValueError.
Proof.
  split; [reflexivity|].
  exact (proj2 (X16_parse_isotime_only_ValueError "25" ValueError) eq_refl).
Defined.

(** X17.  [parse_isotime] on a full time.  For an hour up to 23 and a
    minute and a second up to 59, written as [hh:mm:ss] or [hhmmss] and
    followed by nothing or by a zone that [parse_tzstr] accepts, the
    result is the time of that hour, minute and second with microsecond 0
    and that zone; with a fraction of 1 to 6 digits before the zone, the
    microsecond is the value of the digits times [10 ^ (6 - n)]. *)
Theorem X17_parse_isotime_value f h mi s ztail zcomp tzv :
  0 <= h <= 23 -> 0 <= mi <= 59 -> 0 <= s <= 59 ->
  zone_tail ztail zcomp -> tz_of zcomp = Ok tzv ->
  parse_isotime (hms_text f h mi s ++ ztail) = Ok (mktime h mi s 0 tzv) /\
  (forall frac,
     all_digits frac = true -> 1 <= len frac <= 6 ->
     parse_isotime (hms_text f h mi s ++ "." ++ frac ++ ztail)
     = Ok (mktime h mi s (decimal_value frac * 10 ^ (6 - len frac)) tzv)).
Proof.
  intros Hh Hmi Hs Hz Htz. split.
  - apply (parse_isotime_of_scan _ h mi s 0 zcomp tzv); try lia; try assumption.
    apply hms_scan; try lia. exact Hz.
  - intros frac Hd Hlen.
    apply (parse_isotime_of_scan _ h mi s _ zcomp tzv); try lia; try assumption.
    + apply hms_fraction_scan; try lia; assumption.
    + apply microsecond_range; assumption.
Qed.

Lemma X17_parse_isotime_value_witness :
  zone_tail "Z" (VTz tzutc) /\
  parse_isotime "104941Z" = Ok (mktime 10 49 41 0 (Some tzutc)) /\
  parse_isotime "104941.5Z" = Ok (mktime 10 49 41 500000 (Some tzutc)).
Proof.
  assert (Hz : zone_tail "Z" (VTz tzutc)).
  { right. exists tzutc. repeat split; reflexivity. }
  split; [exact Hz|].
  destruct (X17_parse_isotime_value Compact 10 49 41 "Z" (VTz tzutc) (Some tzutc)
              ltac:(lia) ltac:(lia) ltac:(lia) Hz eq_refl) as [H1 H2].
  split; [exact H1|].
  refine (H2 "5" eq_refl _). change (len "5") with 1. lia.
Defined.

(** X18.  A time without seconds, or without minutes and seconds: for an
    hour up to 23 and a minute up to 59, the texts [hh], [hh:mm] and
    [hhmm], followed by nothing or by a zone that [parse_tzstr] accepts,
    give the time with the missing fields 0 and that zone. *)
Theorem X18_partial_times h mi ztail zcomp tzv :
  0 <= h <= 23 -> 0 <= mi <= 59 ->
  zone_tail ztail zcomp -> tz_of zcomp = Ok tzv ->
  parse_isotime (fmt02 h ++ ztail) = Ok (mktime h 0 0 0 tzv) /\
  parse_isotime (fmt02 h ++ ":" ++ fmt02 mi ++ ztail) = Ok (mktime h mi 0 0 tzv) /\
  parse_isotime (fmt02 h ++ fmt02 mi ++ ztail) = Ok (mktime h mi 0 0 tzv).
Proof.
  intros Hh Hmi Hz Htz.
  pose proof (int_fmt02 h ltac:(lia)) as Ih.
  pose proof (int_fmt02 mi ltac:(lia)) as Im.
  unfold fmt02 in *.
  repeat split.
  - apply (parse_isotime_of_scan _ h 0 0 0 zcomp tzv); try lia; try assumption.
    apply (hour_scan _ _ h ztail zcomp (digit_char_not_tz _) Ih Hz).
  - apply (parse_isotime_of_scan _ h mi 0 0 zcomp tzv); try lia; try assumption.
    apply (hour_minute_scan _ _ _ _ h mi ztail zcomp
             (digit_char_not_tz _) (digit_char_not_tz _) Ih Im Hz).
  - apply (parse_isotime_of_scan _ h mi 0 0 zcomp tzv); try lia; try assumption.
    apply (hour_minute_compact_scan _ _ _ _ h mi ztail zcomp
             (digit_char_not_tz _) (digit_char_not_tz _)
             (digit_char_not_colon _) Ih Im Hz).
Qed.

Lemma X18_partial_times_witness :
  zone_tail "" VNone /\
  parse_isotime "10" = Ok (mktime 10 0 0 0 None) /\
  parse_isotime "10:49" = Ok (mktime 10 49 0 0 None) /\
  parse_isotime "1049" = Ok (mktime 10 49 0 0 None).
Proof.
  assert (Hz : zone_tail "" VNone) by (left; split; reflexivity).
  split; [exact Hz|].
  exact (X18_partial_times 10 49 "" VNone None ltac:(lia) ltac:(lia) Hz eq_refl).
Defined.

(** X19.  Fields out of range.  For two-digit fields with an hour above
    24, a minute above 59 or a second above 59, the scan of the time
    parser succeeds with these values, and [parse_isotime] raises
    [ValueError]. *)
Theorem X19_time_out_of_range f h mi s ztail zcomp :
  0 <= h < 100 -> 0 <= mi < 100 -> 0 <= s < 100 ->
  zone_tail ztail zcomp ->
  24 < h \/ 59 < mi \/ 59 < s ->
  _parse_isotime_scan (hms_text f h mi s ++ ztail)
    = Ok [VInt h; VInt mi; VInt s; VInt 0; zcomp] /\
  parse_isotime (hms_text f h mi s ++ ztail) = Raise ValueError.
Proof.
  intros Hh Hmi Hs Hz Hbad.
  pose proof (hms_scan f h mi s ztail zcomp Hh Hmi Hs Hz) as Hscan.
  split; [exact Hscan|].
  unfold parse_isotime, _parse_isotime. rewrite Hscan. cbn [bind].
  destruct (Z.eq_dec h 24) as [-> | Hne].
  - rewrite midnight_24.
    destruct (Z.eqb_spec mi 0); [|reflexivity].
    destruct (Z.eqb_spec s 0); [|reflexivity]. lia.
  - rewrite midnight_other by exact Hne. cbn [bind time_of].
    destruct (zone_tail_tz _ _ Hz) as [tzv ->]. cbn [bind].
    unfold time_new, _check_time_fields.
    destruct (Z.leb_spec h 23); [|rewrite andb_false_r; reflexivity].
    destruct (Z.leb_spec mi 59);
      [|rewrite andb_false_r; cbn [andb]; reflexivity].
    destruct (Z.leb_spec s 59);
      [lia | rewrite !andb_false_r; cbn [andb]; reflexivity].
Qed.

Lemma X19_time_out_of_range_witness :
  zone_tail "" VNone /\ 59 < 60 /\
  parse_isotime "10:60:00" = Raise ValueError.
Proof.
  assert (Hz : zone_tail "" VNone) by (left; split; reflexivity).
  assert (H : 59 < 60) by lia.
  split; [exact Hz|]. split; [exact H|].
  exact (proj2 (X19_time_out_of_range Colons 10 60 0 "" VNone
                  ltac:(lia) ltac:(lia) ltac:(lia) Hz
                  (or_intror (or_introl H)))).
Defined.

(** X20.  Characters left over after the seconds are an error: when the
    text goes on, where the time parser reaches component 3, with a
    character that is neither [.] nor one of [-], [+] and [Z], the time
    parsers raise [ValueError], whatever follows. *)
Theorem X20_time_trailing_text f h mi s c rest :
  0 <= h < 100 -> 0 <= mi < 100 -> 0 <= s < 100 ->
  in_tz_chars c = false -> ch_eqb c "." = false ->
  at_cursor f (String c rest) = true ->
  _parse_isotime (hms_text f h mi s ++ String c rest) = Raise ValueError /\
  parse_isotime (hms_text f h mi s ++ String c rest) = Raise ValueError.
Proof.
  intros Hh Hmi Hs Hz Hdot Hcur. apply scan_fails_time.
  destruct (hms_text_rounds f h mi s (String c rest) Hh Hmi Hs Hcur)
    as [Hsep Hloop].
  unfold _parse_isotime_scan. rewrite Hsep. cbn [bind].
  fold time_init. rewrite Hloop.
  rewrite (stuck_rounds _ _ h mi s c rest Hz Hdot). cbn [bind].
  rewrite len_app, len_cons. pose proof (len_nonneg rest).
  destruct (Z.ltb_spec (len (hms_text f h mi s))
              (len (hms_text f h mi s) + (len rest + 1))); [reflexivity | lia].
Qed.

Lemma X20_time_trailing_text_witness :
  in_tz_chars "x" = false /\ ch_eqb "x" "." = false /\
  parse_isotime "10:49:41x" = Raise ValueError.
Proof.
  split; [reflexivity|]. split; [reflexivity|].
  exact (proj2 (X20_time_trailing_text Colons 10 49 41 "x"%char ""
                  ltac:(lia) ltac:(lia) ltac:(lia) eq_refl eq_refl eq_refl)).
Defined.

(** X21.  The fraction has 1 to 6 digits: a [.] followed directly by the
    end of the text or by an accepted zone, and a [.] followed by seven
    digits or more, are a [ValueError], whatever follows the seventh
    digit. *)
Theorem X21_fraction_digits f h mi s :
  0 <= h < 100 -> 0 <= mi < 100 -> 0 <= s < 100 ->
  (forall ztail zcomp, zone_tail ztail zcomp ->
     _parse_isotime (hms_text f h mi s ++ "." ++ ztail) = Raise ValueError /\
     parse_isotime (hms_text f h mi s ++ "." ++ ztail) = Raise ValueError) /\
  (forall d6 c rest,
     all_digits d6 = true -> len d6 = 6 -> is_digit c = true ->
     _parse_isotime (hms_text f h mi s ++ "." ++ d6 ++ String c rest)
       = Raise ValueError /\
     parse_isotime (hms_text f h mi s ++ "." ++ d6 ++ String c rest)
       = Raise ValueError).
Proof.
  intros Hh Hmi Hs. split.
  - intros ztail zcomp Hz. apply scan_fails_time. cbn [append].
    destruct (hms_text_rounds f h mi s (String "." ztail) Hh Hmi Hs
                (at_cursor_dot f _)) as [Hsep Hloop].
    unfold _parse_isotime_scan. rewrite Hsep. cbn [bind].
    fold time_init. rewrite Hloop.
    rewrite (empty_fraction_rounds _ _ h mi s ztail zcomp Hz). reflexivity.
  - intros d6 c rest Hd Hlen Hc. apply scan_fails_time. cbn [append].
    destruct (hms_text_rounds f h mi s (String "." (d6 ++ String c rest))
                Hh Hmi Hs (at_cursor_dot f _)) as [Hsep Hloop].
    unfold _parse_isotime_scan. rewrite Hsep. cbn [bind].
    fold time_init. rewrite Hloop.
    destruct (long_fraction_rounds (hms_text f h mi s) (hms_has_sep f) h mi s
                d6 c rest Hd Hlen Hc)
      as (cs & p & -> & Hp).
    cbn [bind].
    destruct (Z.ltb_spec p (len (hms_text f h mi s ++ String "." (d6 ++ String c rest))));
      [reflexivity | lia].
Qed.

Lemma X21_fraction_digits_witness :
  parse_isotime "10:49:41." = Raise ValueError /\
  parse_isotime "10:49:41.1234567" = Raise ValueError.
Proof.
  destruct (X21_fraction_digits Colons 10 49 41 ltac:(lia) ltac:(lia) ltac:(lia))
    as [H0 H7].
  split.
  - exact (proj2 (H0 "" VNone (or_introl (conj eq_refl eq_refl)))).
  - exact (proj2 (H7 "123456" "7"%char "" eq_refl eq_refl eq_refl)).
Defined.

(** X22.  The loop of [_parse_isotime] stops after six rounds at most:
    [comp] starts at -1, grows by one in every round and ends the loop at
    5, so that more rounds than six change no result. *)
Theorem X22_loop_rounds k timestr has_sep components pos comp :
  -1 <= comp ->
  _parse_isotime_loop (6 + k) timestr has_sep components pos comp
  = _parse_isotime_loop 6 timestr has_sep components pos comp.
Proof.
  intros Hc. induction k as [|k IH]; [reflexivity|].
  rewrite <- IH. replace (6 + S k)%nat with (S (6 + k)) by lia.
  apply _parse_isotime_loop_fuel. lia.
Qed.

Lemma X22_loop_rounds_witness :
  -1 <= -1 /\
  _parse_isotime_loop 7 "10:49:41.5Z" true time_init 0 (-1)
  = _parse_isotime_loop 6 "10:49:41.5Z" true time_init 0 (-1).
Proof.
  split; [lia|].
  exact (X22_loop_rounds 1 "10:49:41.5Z" true time_init 0 (-1) ltac:(lia)).
Defined.

(** X23.  [isoparse] on a date and a time.  For a parser built by
    [__init__], a date of the [date] type written as [YYYY-MM-DD] or
    [YYYYMMDD], the separator of the parser, and a time [hh:mm:ss] or
    [hhmmss] with fields in range, followed by nothing or by an accepted
    zone: the result, in either mode, is that date and time with that
    zone; with a fraction of 1 to 6 digits, the microsecond is the value of
    the digits times [10 ^ (6 - n)].  The forms of the date and of the time
    need not agree. *)
Theorem X23_isoparse_date_time sep default_year now_year self
        (common_only dashed : bool) f y m d h mi s ztail zcomp tzv :
  __init__ sep default_year now_year = Ok self ->
  1 <= y <= 9999 -> valid_ymd y m d ->
  0 <= h <= 23 -> 0 <= mi <= 59 -> 0 <= s <= 59 ->
  zone_tail ztail zcomp -> tz_of zcomp = Ok tzv ->
  isoparse self (date_text dashed y m d ++ sep ++ hms_text f h mi s ++ ztail)
    common_only
  = Ok (mkdatetime (mkdate y m d) (mktime h mi s 0 tzv)) /\
  (forall frac,
     all_digits frac = true -> 1 <= len frac <= 6 ->
     isoparse self
       (date_text dashed y m d ++ sep ++ hms_text f h mi s ++ "." ++ frac ++ ztail)
       common_only
     = Ok (mkdatetime (mkdate y m d)
             (mktime h mi s (decimal_value frac * 10 ^ (6 - len frac)) tzv))).
Proof.
  intros Hinit Hy Hv Hh Hmi Hs Hz Htz.
  destruct (init_sep _ _ _ _ Hinit) as (c & -> & Hsep).
  split.
  - change (String c "" ++ hms_text f h mi s ++ ztail)
      with (String c (hms_text f h mi s ++ ztail)).
    apply (isoparse_date_time_value self common_only dashed c _ y m d h mi s 0
             zcomp tzv); try assumption; try lia.
    apply hms_scan; try lia. exact Hz.
  - intros frac Hd Hlen.
    change (String c "" ++ hms_text f h mi s ++ "." ++ frac ++ ztail)
      with (String c (hms_text f h mi s ++ "." ++ frac ++ ztail)).
    apply (isoparse_date_time_value self common_only dashed c _ y m d h mi s _
             zcomp tzv); try assumption; try lia.
    + apply hms_fraction_scan; try lia; assumption.
    + apply microsecond_range; assumption.
Qed.

Lemma X23_isoparse_date_time_witness :
  __init__ " " None 2003 = Ok (Isoparser.mk " " 2003) /\
  valid_ymd 2014 4 11 /\ zone_tail "" VNone /\
  isoparse (Isoparser.mk " " 2003) "20140411 10:49:41" false
  = Ok (mkdatetime (mkdate 2014 4 11) (mktime 10 49 41 0 None)).
Proof.
  assert (Hv : valid_ymd 2014 4 11)
    by (split; [lia | change (_days_in_month 2014 4) with 30; lia]).
  assert (Hz : zone_tail "" VNone) by (left; split; reflexivity).
  split; [reflexivity|]. split; [exact Hv|]. split; [exact Hz|].
  exact (proj1 (X23_isoparse_date_time " " None 2003 (Isoparser.mk " " 2003)
                  false false Colons 2014 4 11 10 49 41 "" VNone None
                  eq_refl ltac:(lia) Hv ltac:(lia) ltac:(lia) ltac:(lia)
                  Hz eq_refl)).
Defined.

(** X24.  The separator.  For a parser built by [__init__] and a
    calendar date with digit fields: when the character after the date is
    not the separator of the parser, [isoparse] raises [ValueError],
    whatever follows; when the text ends with the separator, the time is
    empty and the result is the date at midnight. *)
Theorem X24_isoparse_separator sep default_year now_year self
        (common_only dashed : bool) y m d :
  __init__ sep default_year now_year = Ok self ->
  0 <= y < 10000 -> 0 <= m < 100 -> 0 <= d < 100 ->
  (forall c rest,
     String c "" <> sep ->
     isoparse self (date_text dashed y m d ++ String c rest) common_only
     = Raise ValueError) /\
  (1 <= y -> valid_ymd y m d ->
   isoparse self (date_text dashed y m d ++ sep) common_only
   = Ok (mkdatetime (mkdate y m d) (mktime 0 0 0 0 None))).
Proof.
  intros Hinit Hy Hm Hd.
  destruct (init_sep _ _ _ _ Hinit) as (c0 & -> & Hsep).
  split.
  - intros c rest Hne.
    rewrite (isoparse_date_time self common_only _ c rest y m d)
      by (apply common_date_text; lia).
    rewrite Hsep.
    destruct (String.eqb_spec (String c "") (String c0 "")) as [Heq|];
      [contradiction | reflexivity].
  - intros Hy1 Hv.
    apply (isoparse_date_time_value self common_only dashed c0 "" y m d 0 0 0 0
             VNone None); try assumption; try lia; reflexivity.
Qed.

Lemma X24_isoparse_separator_witness :
  __init__ "T" None 2003 = Ok P2003 /\ valid_ymd 2014 4 11 /\
  isoparse P2003 "2014-04-11 10:49" false = Raise ValueError /\
  isoparse P2003 "2014-04-11T" false
  = Ok (mkdatetime (mkdate 2014 4 11) (mktime 0 0 0 0 None)).
Proof.
  assert (Hv : valid_ymd 2014 4 11)
    by (split; [lia | change (_days_in_month 2014 4) with 30; lia]).
  split; [reflexivity|]. split; [exact Hv|].
  destruct (X24_isoparse_separator "T" None 2003 P2003 false true 2014 4 11
              eq_refl ltac:(lia) ltac:(lia) ltac:(lia)) as [H1 H2].
  split.
  - refine (H1 " "%char "10:49" _). discriminate.
  - exact (H2 ltac:(lia) Hv).
Defined.

(** X25.  The round trip with [datetime.isoformat].  For a parser built
    by [__init__] with separator [sep], every date of the [date] type,
    every time with fields in range and every offset of [oh] hours (up to
    23) and [om] minutes (up to 59) east or west: [isoparse] maps the text
    [YYYY-MM-DD], [sep], [HH:MM:SS.ffffff], [+HH:MM] or [-HH:MM] back to
    that date, time and microsecond, with the UTC marker for the offset 0
    and the fixed offset of [+-(60 * oh + om)] minutes otherwise. *)
Theorem X25_isoformat_roundtrip sep default_year now_year self
        (common_only : bool) y m d h mi s us neg oh om :
  __init__ sep default_year now_year = Ok self ->
  1 <= y <= 9999 -> valid_ymd y m d ->
  0 <= h <= 23 -> 0 <= mi <= 59 -> 0 <= s <= 59 -> 0 <= us <= 999999 ->
  0 <= oh <= 23 -> 0 <= om <= 59 ->
  isoparse self (isoformat sep y m d h mi s us neg oh om) common_only
  = Ok (mkdatetime (mkdate y m d)
          (mktime h mi s us (Some (offset_zone neg oh om)))).
Proof.
  intros Hinit Hy Hv Hh Hmi Hs Hus Hoh Hom.
  destruct (init_sep _ _ _ _ Hinit) as (c & -> & Hsep).
  unfold isoformat.
  change (String c "" ++ hms_text Colons h mi s ++ "." ++ fmt06 us
          ++ sign_char neg ++ fmt02 oh ++ ":" ++ fmt02 om)
    with (String c (hms_text Colons h mi s ++ "." ++ fmt06 us
          ++ sign_char neg ++ fmt02 oh ++ ":" ++ fmt02 om)).
  apply (isoparse_date_time_value self common_only true c _ y m d h mi s us
           (VTz (offset_zone neg oh om)));
    try assumption; try reflexivity.
  rewrite (hms_fraction_scan Colons h mi s (fmt06 us) _
             (VTz (offset_zone neg oh om)));
    try lia.
  - rewrite fmt06_value by lia. change (len (fmt06 us)) with 6.
    change (10 ^ (6 - 6)) with 1. rewrite Z.mul_1_r. reflexivity.
  - apply fmt06_digits.
  - change (len (fmt06 us)) with 6. lia.
  - apply offset_zone_tail; assumption.
Qed.

Lemma X25_isoformat_roundtrip_witness :
  __init__ "T" None 2003 = Ok P2003 /\ valid_ymd 2014 4 11 /\
  isoparse P2003 "2014-04-11T10:49:41.123456-03:30" false
  = Ok (mkdatetime (mkdate 2014 4 11)
          (mktime 10 49 41 123456 (Some (tzoffset (-210))))).
Proof.
  assert (Hv : valid_ymd 2014 4 11)
    by (split; [lia | change (_days_in_month 2014 4) with 30; lia]).
  split; [reflexivity|]. split; [exact Hv|].
  exact (X25_isoformat_roundtrip "T" None 2003 P2003 false
           2014 4 11 10 49 41 123456 true 3 30
           eq_refl ltac:(lia) Hv ltac:(lia) ltac:(lia) ltac:(lia) ltac:(lia)
           ltac:(lia) ltac:(lia)).
Defined.

(** X26.  [isoparse] on a week date or an ordinal date and a time.  For
    a parser built by [__init__] and a time [hh:mm:ss] or [hhmmss] with
    fields in range, followed by nothing or by an accepted zone: after a
    week date with its weekday, [YYYY-Www-D] or [YYYYWwwD] (years 1 to
    9998), and after an ordinal date [YYYY-DDD] of a date of the [date]
    type, the separator and the time give that date with that time. *)
Theorem X26_isoparse_uncommon_date_time sep default_year now_year self
        f h mi s ztail zcomp tzv :
  __init__ sep default_year now_year = Ok self ->
  0 <= h <= 23 -> 0 <= mi <= 59 -> 0 <= s <= 59 ->
  zone_tail ztail zcomp -> tz_of zcomp = Ok tzv ->
  (forall (dashed : bool) y w d,
     1 <= y <= 9998 -> 1 <= w <= 53 -> 1 <= d <= 7 ->
     isoparse self
       (week_text dashed y w d ++ sep ++ hms_text f h mi s ++ ztail) false
     = Ok (mkdatetime
             (fromordinal (_isoweek1monday y + (w - 1) * 7 + (d - 1)))
             (mktime h mi s 0 tzv))) /\
  (forall D,
     valid_date D ->
     isoparse self
       ((fmt04 (year D) ++ "-" ++ fmt03 (day_of_year D))
        ++ sep ++ hms_text f h mi s ++ ztail) false
     = Ok (mkdatetime D (mktime h mi s 0 tzv))).
Proof.
  intros Hinit Hh Hmi Hs Hz Htz.
  destruct (init_sep _ _ _ _ Hinit) as (c & -> & Hsep).
  pose proof (hms_scan f h mi s ztail zcomp ltac:(lia) ltac:(lia) ltac:(lia) Hz)
    as Hscan.
  change (String c "" ++ hms_text f h mi s ++ ztail)
    with (String c (hms_text f h mi s ++ ztail)).
  split.
  - intros dashed y w d Hy Hw Hd.
    destruct (calculate_weekdate_date y w d Hy Hw Hd) as (Hc & _ & _).
    cbv zeta in Hc.
    apply (isoparse_any_date_time self _ c _ _ h mi s 0 zcomp tzv);
      try assumption; try lia.
    + rewrite parse_isodate_week_text by lia. unfold week_result.
      rewrite Hc. reflexivity.
    + apply weekdate_valid; assumption.
  - intros D HD. pose proof HD as HD'. apply valid_date_iff in HD' as [Hy Hv].
    pose proof (ymd2ord_in_year _ _ _ Hv) as Ho. rewrite dby_succ in Ho.
    assert (Hn : 1 <= day_of_year D <= 365 + int_of_bool (isleap (year D)))
      by (unfold day_of_year, toordinal; lia).
    assert (Hn' : 0 <= day_of_year D < 1000)
      by (destruct (isleap (year D)); cbn [int_of_bool] in Hn; lia).
    assert (HDD : fromordinal (_days_before_year (year D) + day_of_year D) = D).
    { unfold day_of_year.
      replace (_days_before_year (year D) + (toordinal D - _days_before_year (year D)))
        with (toordinal D) by lia.
      apply fromordinal_toordinal. exact Hv. }
    apply (isoparse_any_date_time self _ c _ D h mi s 0 zcomp tzv);
      try assumption; try lia.
    rewrite parse_isodate_ordinal_text by lia.
    rewrite (ordinal_result_ok _ _ _ Hy Hn). cbv zeta. rewrite HDD. reflexivity.
Qed.

Lemma X26_isoparse_uncommon_date_time_witness :
  __init__ "T" None 2003 = Ok P2003 /\ zone_tail "" VNone /\
  isoparse P2003 "2004-W01-1T10:49:41" false
    = Ok (mkdatetime (mkdate 2003 12 29) (mktime 10 49 41 0 None)) /\
  isoparse P2003 "2014-101T10:49:41" false
    = Ok (mkdatetime (mkdate 2014 4 11) (mktime 10 49 41 0 None)).
Proof.
  assert (Hz : zone_tail "" VNone) by (left; split; reflexivity).
  split; [reflexivity|]. split; [exact Hz|].
  destruct (X26_isoparse_uncommon_date_time "T" None 2003 P2003 Colons
              10 49 41 "" VNone None eq_refl ltac:(lia) ltac:(lia) ltac:(lia)
              Hz eq_refl) as [Hw Ho].
  split.
  - exact (Hw true 2004 1 1 ltac:(lia) ltac:(lia) ltac:(lia)).
  - exact (Ho (mkdate 2014 4 11) eq_refl).
Defined.

(** X27.  A week date without a weekday cannot be followed by a time:
    when [YYYY-Www] or [YYYYWww] is followed by a character that is
    neither a digit nor [-] (the separators [T] and the blank among
    them), the date parser takes that character for the weekday, and
    [parse_isodate] and [isoparse] raise [ValueError], whatever
    follows. *)
Theorem X27_short_week_then_text self (dashed : bool) y w c rest :
  is_digit c = false -> ch_eqb c "-" = false ->
  parse_isodate self (short_week_text dashed y w ++ String c rest)
    = Raise ValueError /\
  isoparse self (short_week_text dashed y w ++ String c rest) false
    = Raise ValueError.
Proof.
  intros Hc Hd.
  assert (H : _parse_isodate self (short_week_text dashed y w ++ String c rest)
              = Raise ValueError).
  { unfold _parse_isodate.
    destruct dashed; unfold short_week_text, fmt04, fmt02; cbn [append].
    - rewrite (proj2 (common_week_any _ _ _ _ _)). cbn [try_except_ValueError].
      apply (uncommon_short_week_then self
               (digit_char (y / 1000)) (digit_char (y / 100))
               (digit_char (y / 10)) (digit_char y)
               (digit_char (w / 10)) (digit_char w) c rest
               (digit_char_not_dash _) Hc Hd).
    - rewrite (proj1 (common_week_any _ _ _ _ _)). cbn [try_except_ValueError].
      apply (uncommon_short_week_then self
               (digit_char (y / 1000)) (digit_char (y / 100))
               (digit_char (y / 10)) (digit_char y)
               (digit_char (w / 10)) (digit_char w) c rest
               (digit_char_not_dash _) Hc Hd). }
  unfold parse_isodate, isoparse. rewrite H. split; reflexivity.
Qed.

Lemma X27_short_week_then_text_witness :
  is_digit "T" = false /\ ch_eqb "T" "-" = false /\
  isoparse P2003 "2004-W01T10:49" false = Raise ValueError.
Proof.
  split; [reflexivity|]. split; [reflexivity|].
  exact (proj2 (X27_short_week_then_text P2003 true 2004 1 "T"%char "10:49"
                  eq_refl eq_refl)).
Defined.
